(** * lab_5_scraper/scraper.py: configuration validation, link discovery
      and field extraction

    A shallow embedding of [Config], [Crawler] and [HTMLParser] of
    [lab_5_scraper/scraper.py].  Python strings are sequences of Unicode
    code points, values read from the JSON configuration are dynamically
    typed, and exceptions are explicit results. *)

From Stdlib Require Import Ascii String ZArith NArith List Bool Lia.
Import ListNotations.

Set Implicit Arguments.
Set Warnings "-register-all".

(* ===================================================================== *)
(** ** Python strings *)

Module Py.

(** A [str] is a sequence of code points. *)
Definition pystr := list N.

(** Literals: the code points of an ASCII text. *)
Definition str (s : string) : pystr :=
  List.map N_of_ascii (list_ascii_of_string s).

Definition str_eqb (a b : pystr) : bool :=
  if list_eq_dec N.eq_dec a b then true else false.

(** [s.startswith(p)] *)
Fixpoint startswith (s p : pystr) {struct p} : bool :=
  match p, s with
  | [], _ => true
  | _ :: _, [] => false
  | c :: p', d :: s' => N.eqb c d && startswith s' p'
  end.

(** [s.startswith((p1, p2, ...))] *)
Definition startswith_any (s : pystr) (ps : list pystr) : bool :=
  existsb (startswith s) ps.

(** [x in l] for a list of strings. *)
Definition contains (l : list pystr) (x : pystr) : bool :=
  existsb (str_eqb x) l.

(** [str.isspace] on one code point: the characters of bidirectional
    type WS, B or S, and those of category Zs. *)
Definition isspace (c : N) : bool :=
  ((9 <=? c) && (c <=? 13) || (28 <=? c) && (c <=? 32)
   || (c =? 133) || (c =? 160) || (c =? 5760)
   || (8192 <=? c) && (c <=? 8202)
   || (c =? 8232) || (c =? 8233) || (c =? 8239) || (c =? 8287)
   || (c =? 12288))%N.

Fixpoint lstrip (s : pystr) : pystr :=
  match s with
  | [] => []
  | c :: s' => if isspace c then lstrip s' else s
  end.

Definition rstrip (s : pystr) : pystr := rev (lstrip (rev s)).

(** [s.strip()] *)
Definition strip (s : pystr) : pystr := rstrip (lstrip s).

(** [sep.join(parts)] *)
Fixpoint join (sep : pystr) (parts : list pystr) : pystr :=
  match parts with
  | [] => []
  | [p] => p
  | p :: rest => p ++ sep ++ join sep rest
  end.

(** [s.split(sep)] for a separator of one character: the fields between
    the occurrences of [sep], always at least one. *)
Fixpoint split_char (sep : N) (s : pystr) : list pystr :=
  match s with
  | [] => [[]]
  | c :: s' =>
      if N.eqb c sep then [] :: split_char sep s'
      else match split_char sep s' with
           | [] => [[c]]
           | f :: fs => (c :: f) :: fs
           end
  end.

(** [s.replace(old, new)] for a non-empty [old]: the occurrences of [old]
    are found from the left and do not overlap.  [skip] counts the
    characters of a match that are still to be dropped. *)
Fixpoint replace_from (old new : pystr) (skip : nat) (s : pystr) : pystr :=
  match s with
  | [] => []
  | c :: s' =>
      match skip with
      | S k => replace_from old new k s'
      | O =>
          if startswith s old
          then new ++ replace_from old new (pred (length old)) s'
          else c :: replace_from old new O s'
      end
  end.

(** With an empty [old], Python puts [new] before every character and at
    the end. *)
Definition replace (s old new : pystr) : pystr :=
  match old with
  | [] => new ++ flat_map (fun c => c :: new) s
  | _ :: _ => replace_from old new O s
  end.

(** Values as [json.load] produces them and as attributes hold them. *)
Inductive value :=
| PyNone
| PyBool (b : bool)
| PyInt (z : Z)
| PyFloat (literal : pystr)
| PyStr (s : pystr)
| PyList (items : list value)
| PyDict (items : list (pystr * value)).

(** [isinstance(v, T)]; [bool] is a subclass of [int]. *)
Definition isinstance_list (v : value) : bool :=
  match v with PyList _ => true | _ => false end.
Definition isinstance_str (v : value) : bool :=
  match v with PyStr _ => true | _ => false end.
Definition isinstance_bool (v : value) : bool :=
  match v with PyBool _ => true | _ => false end.
Definition isinstance_int (v : value) : bool :=
  match v with PyInt _ | PyBool _ => true | _ => false end.
Definition isinstance_dict (v : value) : bool :=
  match v with PyDict _ => true | _ => false end.

(** The instances of [int]: integers proper and the two booleans, which
    count as 0 and 1 in arithmetic and comparisons. *)
Inductive pyint :=
| Int (z : Z)
| Bool (b : bool).

Definition int_value (i : pyint) : Z :=
  match i with
  | Int z => z
  | Bool true => 1%Z
  | Bool false => 0%Z
  end.

Definition as_pyint (v : value) : pyint :=
  match v with
  | PyInt z => Int z
  | PyBool b => Bool b
  | _ => Int 0
  end.

Definition of_pyint (i : pyint) : value :=
  match i with Int z => PyInt z | Bool b => PyBool b end.

Definition as_str (v : value) : pystr :=
  match v with PyStr s => s | _ => [] end.

Definition as_list (v : value) : list value :=
  match v with PyList l => l | _ => [] end.

Definition as_dict (v : value) : list (pystr * value) :=
  match v with PyDict d => d | _ => [] end.

Definition as_bool (v : value) : bool :=
  match v with PyBool b => b | _ => false end.

(** Exceptions that the module raises or lets through. *)
Inductive exn :=
| IncorrectSeedURLError
| NumberOfArticlesOutOfRangeError
| IncorrectNumberOfArticlesError
| IncorrectHeadersError
| IncorrectEncodingError
| IncorrectTimeoutError
| IncorrectVerifyError
| ValueError
| IndexError
| AttributeError
| RequestException.

(** The result of a call that may raise. *)
Inductive result (A : Type) :=
| Return (a : A)
| Raise (e : exn).
Arguments Return {A} a.
Arguments Raise {A} e.

Definition bind {A B} (r : result A) (k : A -> result B) : result B :=
  match r with
  | Return a => k a
  | Raise e => Raise e
  end.

(** [l[i]] *)
Definition item {A} (l : list A) (i : nat) : result A :=
  match nth_error l i with
  | Some x => Return x
  | None => Raise IndexError
  end.

End Py.

Import Py.

Notation "x <- r ;; k" := (bind r (fun x => k))
  (at level 61, r at next level, right associativity).

(* ===================================================================== *)
(** ** Config *)

(** [ConfigDTO]: the seven values of the configuration file, as read. *)
Record ConfigDTO := {
  seed_urls : value;
  total_articles : value;
  headers : value;
  encoding : value;
  timeout : value;
  should_verify_certificate : value;
  headless_mode : value
}.

Module Config.

(** A [Config] that [__init__] has returned, with the types its getters
    declare. *)
Record t := {
  _seed_urls : list pystr;
  _num_articles : pyint;
  _headers : list (pystr * value);
  _encoding : pystr;
  _timeout : pyint;
  _should_verify_certificate : bool;
  _headless_mode : bool
}.

Definition http_schemes : list pystr :=
  Eval cbv in [str "http://"; str "https://"].

(** [Config._validate_config_content]: [None] when no check raises. *)
Definition _validate_config_content (self : ConfigDTO) : option exn :=
  if negb (isinstance_list (seed_urls self)) then
    Some IncorrectSeedURLError
  else if existsb
            (fun url => negb (isinstance_str url)
                        || negb (startswith_any (as_str url) http_schemes))
            (as_list (seed_urls self)) then
    Some IncorrectSeedURLError
  else if negb (isinstance_int (total_articles self))
          || (int_value (as_pyint (total_articles self)) <=? 0)%Z then
    Some IncorrectNumberOfArticlesError
  else if (int_value (as_pyint (total_articles self)) >? 150)%Z then
    Some NumberOfArticlesOutOfRangeError
  else if negb (isinstance_dict (headers self)) then
    Some IncorrectHeadersError
  else if negb (isinstance_str (encoding self)) then
    Some IncorrectEncodingError
  else if negb (isinstance_int (timeout self))
          || negb ((0 <? int_value (as_pyint (timeout self)))%Z
                   && (int_value (as_pyint (timeout self)) <? 60)%Z) then
    Some IncorrectTimeoutError
  else if negb (isinstance_bool (should_verify_certificate self))
          || negb (isinstance_bool (headless_mode self)) then
    Some IncorrectVerifyError
  else None.

(** [Config.__init__] after the file is read: the attributes are stored
    as they are and validated. *)
Definition init (data : ConfigDTO) : result t :=
  match _validate_config_content data with
  | Some e => Raise e
  | None =>
      Return {| _seed_urls := List.map as_str (as_list (seed_urls data));
                _num_articles := as_pyint (total_articles data);
                _headers := as_dict (headers data);
                _encoding := as_str (encoding data);
                _timeout := as_pyint (timeout data);
                _should_verify_certificate :=
                  as_bool (should_verify_certificate data);
                _headless_mode := as_bool (headless_mode data) |}
  end.

(** The attributes of a [Config] as Python values. *)
Definition attributes (c : t) : ConfigDTO :=
  {| seed_urls := PyList (List.map PyStr (_seed_urls c));
     total_articles := of_pyint (_num_articles c);
     headers := PyDict (_headers c);
     encoding := PyStr (_encoding c);
     timeout := of_pyint (_timeout c);
     should_verify_certificate := PyBool (_should_verify_certificate c);
     headless_mode := PyBool (_headless_mode c) |}.

Definition get_seed_urls (c : t) : list pystr := _seed_urls c.
Definition get_num_articles (c : t) : pyint := _num_articles c.
Definition get_headers (c : t) := _headers c.
Definition get_encoding (c : t) : pystr := _encoding c.
Definition get_timeout (c : t) : pyint := _timeout c.
Definition get_verify_certificate (c : t) : bool :=
  _should_verify_certificate c.
Definition get_headless_mode (c : t) : bool := _headless_mode c.

End Config.

(* ===================================================================== *)
(** ** The document tree of bs4 *)

Module bs4.

(** A parsed document: tags with a name, an attribute dictionary and
    contents, and the two kinds of text leaves. *)
Inductive node :=
| Tag (name : pystr) (attrs : list (pystr * value)) (contents : list node)
| NavigableString (s : pystr)
| Comment (s : pystr).

Fixpoint lookup (key : pystr) (d : list (pystr * value)) : option value :=
  match d with
  | [] => None
  | (k, v) :: d' => if str_eqb k key then Some v else lookup key d'
  end.

(** [tag.get(key)]: the value of the attribute, [None] when it is absent.
    Text leaves have no such method. *)
Definition get (n : node) (key : pystr) : result value :=
  match n with
  | Tag _ attrs _ =>
      Return (match lookup key attrs with Some v => v | None => PyNone end)
  | _ => Raise AttributeError
  end.

(** [tag.has_attr(key)] *)
Definition has_attr (n : node) (key : pystr) : bool :=
  match n with
  | Tag _ attrs _ =>
      match lookup key attrs with Some _ => true | None => false end
  | _ => false
  end.

(** [tag.descendants]: everything below the tag, in document order. *)
Fixpoint descendants (n : node) : list node :=
  match n with
  | Tag _ _ contents => flat_map (fun c => c :: descendants c) contents
  | _ => []
  end.

(** What an attribute is searched for: [True] (any value) or a string. *)
Inductive attr_match :=
| AnyValue
| Exactly (s : pystr).

Definition matches_string (v : value) (s : pystr) : bool :=
  match v with
  | PyStr t => str_eqb t s
  | PyNone => str_eqb [] s
  | _ => false
  end.

(** One attribute value against what is searched.  A list value (as of
    [class]) matches through any of its items or through the items
    joined by spaces; [True] matches every value but [None].  Parsers
    produce strings and lists of strings only; other values match no
    string. *)
Definition matches_value (v : value) (m : attr_match) : bool :=
  match m with
  | AnyValue =>
      match v with
      | PyNone => false
      | _ => true
      end
  | Exactly s =>
      match v with
      | PyList items =>
          existsb (fun i => matches_string i s) items
          || str_eqb (join [32%N] (List.map as_str items)) s
      | _ => matches_string v s
      end
  end.

(** The arguments of [find] and [find_all]: a tag name, when given, and
    attribute constraints. *)
Record criteria := {
  by_name : option pystr;
  by_attrs : list (pystr * attr_match)
}.

Definition matches (c : criteria) (n : node) : bool :=
  match n with
  | Tag name attrs _ =>
      match by_name c with
      | Some wanted => str_eqb name wanted
      | None => true
      end
      && forallb
           (fun '(key, m) =>
              matches_value
                (match lookup key attrs with Some v => v | None => PyNone end)
                m)
           (by_attrs c)
  | _ => false
  end.

(** [tag.find_all(name, attrs)] *)
Definition find_all (n : node) (c : criteria) : list node :=
  filter (matches c) (descendants n).

(** [tag.find(name, attrs)]: the first match, or [None]. *)
Definition find (n : node) (c : criteria) : option node :=
  hd_error (find_all n c).

(** The text leaves that [get_text] reads: comments are left out. *)
Definition strings (n : node) : list pystr :=
  flat_map (fun d => match d with NavigableString s => [s] | _ => [] end)
           (descendants n).

Definition nonempty (s : pystr) : bool :=
  match s with [] => false | _ :: _ => true end.

(** [tag.get_text(strip=True)]: every text leaf stripped, the empty ones
    dropped, the rest concatenated. *)
Definition get_text_strip (n : node) : pystr :=
  concat (filter nonempty (List.map strip (strings n))).

(** The object [BeautifulSoup(markup, parser)] returns, from the
    top-level nodes the parser produced. *)
Definition document_name : pystr := Eval cbv in str "[document]".

Definition document (top : list node) : node := Tag document_name [] top.

(** [BeautifulSoup(markup, parser)], for the tree builder of the parser:
    the function from a markup text to its top-level nodes. *)
Definition BeautifulSoup (builder : pystr -> list node) (markup : pystr)
  : node :=
  document (builder markup).

(** [bool(x)] of a node: a tag is true whatever it contains, a text leaf
    is a string. *)
Definition truth (n : node) : bool :=
  match n with
  | Tag _ _ _ => true
  | NavigableString s | Comment s => nonempty s
  end.

End bs4.

Import bs4.

(* ===================================================================== *)
(** ** make_request *)

(** A response of [requests]: the success flag, the encoding that
    [text] is decoded with, and the body as a function of that
    encoding. *)
Record Response := {
  ok : bool;
  response_encoding : pystr;
  decoded : pystr -> pystr
}.

Definition text (r : Response) : pystr := decoded r (response_encoding r).

Definition set_encoding (r : Response) (e : pystr) : Response :=
  {| ok := ok r; response_encoding := e; decoded := decoded r |}.

(** What is sent with a GET. *)
Record Request := {
  url : pystr;
  request_headers : list (pystr * value);
  request_timeout : pyint;
  verify : bool
}.

(** The network: the outcome of a GET, which is a response or a raised
    transport failure, may depend on the requests made before it. *)
Definition network := list Request -> Request -> result Response.

Section Fetching.

Variable requests_get : network.

(** [make_request(url, config)]: one GET, then the configured encoding
    is set on the response.  [sent] is the list of the requests made so
    far, oldest first. *)
Definition make_request (sent : list Request) (u : pystr) (config : Config.t)
  : list Request * result Response :=
  let rq := {| url := u;
               request_headers := Config.get_headers config;
               request_timeout := Config.get_timeout config;
               verify := Config.get_verify_certificate config |} in
  (sent ++ [rq],
   request <- requests_get sent rq ;;
   Return (set_encoding request (Config.get_encoding config))).

End Fetching.

(* ===================================================================== *)
(** ** Crawler *)

Module Crawler.

Definition href : pystr := Eval cbv in str "href".
Definition slash : N := 47.
Definition double_slash : pystr := [slash; slash].

(** [soup.find_all('h3')] and [header.find('a', href=True)] *)
Definition h3 : criteria :=
  Eval cbv in {| by_name := Some (str "h3"); by_attrs := [] |}.
Definition a_with_href : criteria :=
  Eval cbv in {| by_name := Some (str "a"); by_attrs := [(href, AnyValue)] |}.

Record t := {
  config : Config.t;
  urls : list pystr
}.

(** [Crawler.__init__] *)
Definition init (config : Config.t) : t :=
  {| config := config; urls := [] |}.

(** [self.urls.append(url)] *)
Definition append_url (self : t) (u : pystr) : t :=
  {| config := config self; urls := urls self ++ [u] |}.

(** [Crawler._extract_url] *)
Definition _extract_url (self : t) (article_bs : node) : result pystr :=
  raw_href <- get article_bs href ;;
  raw_href <- match raw_href with
              | PyList items => item items 0
              | _ => Return raw_href
              end ;;
  match raw_href with
  | PyStr href =>
      if negb (nonempty href) then Return []
      else if startswith_any href Config.http_schemes then Return href
      else
        let seed_list := Config.get_seed_urls (config self) in
        match seed_list with
        | [] => Return []
        | base :: _ =>
            let parts := split_char slash base in
            part0 <- item parts 0 ;;
            part2 <- item parts 2 ;;
            let domain := part0 ++ double_slash ++ part2 in
            Return (domain ++ href)
        end
  | _ => Return []
  end.

(** [Crawler.get_search_urls] *)
Definition get_search_urls (self : t) : list pystr :=
  Config.get_seed_urls (config self).

(** The inner loop of [find_articles] over the [h3] headers of one
    page.  The crawler comes back with the URLs appended so far, also
    when an exception leaves the loop. *)
Fixpoint scan_headers (self : t) (found : list node)
  : t * option exn :=
  match found with
  | [] => (self, None)
  | header :: rest =>
      if (Z.of_nat (length (urls self))
          >=? int_value (Config.get_num_articles (config self)))%Z
      then (self, None)
      else
        match find header a_with_href with
        | None => scan_headers self rest
        | Some a_tag =>
            if negb (truth a_tag) then scan_headers self rest
            else
              match _extract_url self a_tag with
              | Raise e => (self, Some e)
              | Return u =>
                  if nonempty u && negb (contains (urls self) u)
                  then scan_headers (append_url self u) rest
                  else scan_headers self rest
              end
        end
  end.

Section Crawling.

Variable requests_get : network.

(** The tree builder behind [BeautifulSoup(markup, 'lxml')]: the
    top-level nodes of a markup text. *)
Variable lxml : pystr -> list node.

(** The outer loop of [find_articles] over the seed URLs.  [sent] is the
    list of the requests made so far. *)
Fixpoint visit_seeds (self : t) (sent : list Request)
  (seeds : list pystr) : t * list Request * option exn :=
  match seeds with
  | [] => (self, sent, None)
  | seed_url :: rest =>
      let '(sent', response) :=
        make_request requests_get sent seed_url (config self) in
      match response with
      | Raise e => (self, sent', Some e)
      | Return response =>
          if negb (ok response) then visit_seeds self sent' rest
          else
            let soup := BeautifulSoup lxml (text response) in
            match scan_headers self (find_all soup h3) with
            | (self', Some e) => (self', sent', Some e)
            | (self', None) => visit_seeds self' sent' rest
            end
      end
  end.

(** [Crawler.find_articles]: the crawler and the requests afterwards,
    and the exception if one was raised. *)
Definition find_articles (self : t) (sent : list Request)
  : t * list Request * option exn :=
  visit_seeds self sent (get_search_urls self).

End Crawling.

End Crawler.

(* ===================================================================== *)
(** ** datetime.datetime.strptime(date_str, "%d.%m.%Y") *)

Module re.

(** The regular expressions that [_strptime] builds from a format: no
    repetition, alternatives tried from the left, named groups. *)
Inductive regex :=
| Chr (c : N)
| Range (lo hi : N)
| Digit
| Cat (r1 r2 : regex)
| Alt (r1 r2 : regex)
| Group (name : N) (r : regex).

Definition groups := list (N * pystr).

Section Matching.

(** The decimal digits: [0-9] and the other characters of category Nd,
    whose table belongs to the interpreter. *)
Variable other_decimal : N -> option Z.

Definition decimal (c : N) : option Z :=
  if ((48 <=? c) && (c <=? 57))%N then Some (Z.of_N c - 48)%Z
  else other_decimal c.

Definition is_decimal (c : N) : bool :=
  match decimal c with Some _ => true | None => false end.

Variable R : Type.

(** Backtracking matcher: [k] continues with the rest of the text and
    the groups closed so far; the first alternative whose continuation
    succeeds wins. *)
Fixpoint run (r : regex) (s : pystr) (g : groups)
  (k : pystr -> groups -> option R) : option R :=
  match r with
  | Chr c =>
      match s with
      | d :: s' => if N.eqb d c then k s' g else None
      | [] => None
      end
  | Range lo hi =>
      match s with
      | d :: s' => if ((lo <=? d) && (d <=? hi))%N then k s' g else None
      | [] => None
      end
  | Digit =>
      match s with
      | d :: s' => if is_decimal d then k s' g else None
      | [] => None
      end
  | Cat r1 r2 => run r1 s g (fun s' g' => run r2 s' g' k)
  | Alt r1 r2 =>
      match run r1 s g k with
      | Some x => Some x
      | None => run r2 s g k
      end
  | Group name r1 =>
      run r1 s g
          (fun s' g' => k s' ((name, firstn (length s - length s') s) :: g'))
  end.

End Matching.

(** [pattern.match(text)]: the groups and the unmatched rest. *)
Definition match_ (other_decimal : N -> option Z) (r : regex) (s : pystr)
  : option (groups * pystr) :=
  run other_decimal r s [] (fun rest g => Some (g, rest)).

Fixpoint group (g : groups) (name : N) : pystr :=
  match g with
  | [] => []
  | (n, s) :: g' => if N.eqb n name then s else group g' name
  end.

End re.

Import re.

Record datetime := {
  year : Z;
  month : Z;
  day : Z;
  hour : Z;
  minute : Z;
  second : Z
}.

Definition char_d : N := 100.
Definition char_m : N := 109.
Definition char_Y : N := 89.
Definition dot : N := 46.
Definition space : N := 32.
Definition c0 : N := 48.
Definition c1 : N := 49.
Definition c2 : N := 50.
Definition c3 : N := 51.
Definition c9 : N := 57.

(** [%d]: [3[0-1]|[1-2]\d|0[1-9]|[1-9]| [1-9]] *)
Definition directive_d : regex :=
  Alt (Cat (Chr c3) (Range c0 c1))
  (Alt (Cat (Range c1 c2) Digit)
  (Alt (Cat (Chr c0) (Range c1 c9))
  (Alt (Range c1 c9)
       (Cat (Chr space) (Range c1 c9))))).

(** [%m]: [1[0-2]|0[1-9]|[1-9]] *)
Definition directive_m : regex :=
  Alt (Cat (Chr c1) (Range c0 c2))
  (Alt (Cat (Chr c0) (Range c1 c9))
       (Range c1 c9)).

(** [%Y]: [\d\d\d\d] *)
Definition directive_Y : regex :=
  Cat Digit (Cat Digit (Cat Digit Digit)).

(** The pattern of the format ["%d.%m.%Y"]. *)
Definition format_regex : regex :=
  Cat (Group char_d directive_d)
  (Cat (Chr dot)
  (Cat (Group char_m directive_m)
  (Cat (Chr dot)
       (Group char_Y directive_Y)))).

Definition is_leap (y : Z) : bool :=
  ((y mod 4 =? 0) && (negb (y mod 100 =? 0) || (y mod 400 =? 0)))%Z.

Definition days_in_month (y m : Z) : Z :=
  (if m =? 2 then (if is_leap y then 29 else 28)
   else if (m =? 4) || (m =? 6) || (m =? 9) || (m =? 11) then 30
   else 31)%Z.

(** [datetime.date(year, month, day)] accepts the dates of the calendar
    from year 1 to year 9999. *)
Definition valid_date (y m d : Z) : bool :=
  ((1 <=? y) && (y <=? 9999) && (1 <=? m) && (m <=? 12)
   && (1 <=? d) && (d <=? days_in_month y m))%Z.

Section Dates.

Variable other_decimal : N -> option Z.

Fixpoint digits_value (acc : Z) (s : pystr) : option Z :=
  match s with
  | [] => Some acc
  | c :: s' =>
      match decimal other_decimal c with
      | Some v => digits_value (10 * acc + v)%Z s'
      | None => None
      end
  end.

(** [int(text)] on the text of a group: surrounding white space is
    ignored and the digits are read in base ten. *)
Definition int (s : pystr) : result Z :=
  match strip s with
  | [] => Raise ValueError
  | t =>
      match digits_value 0 t with
      | Some z => Return z
      | None => Raise ValueError
      end
  end.

(** [datetime.datetime.strptime(data_string, "%d.%m.%Y")]: the pattern
    must match at the start and leave nothing over, and the three numbers
    must form a date. *)
Definition strptime (data_string : pystr) : result datetime :=
  match match_ other_decimal format_regex data_string with
  | None => Raise ValueError
  | Some (found, rest) =>
      if nonempty rest then Raise ValueError
      else
        d <- int (group found char_d) ;;
        m <- int (group found char_m) ;;
        y <- int (group found char_Y) ;;
        if valid_date y m d
        then Return {| year := y; month := m; day := d;
                       hour := 0; minute := 0; second := 0 |}
        else Raise ValueError
  end.

(** [HTMLParser.unify_date_format] *)
Definition unify_date_format (date_str : pystr) : result datetime :=
  strptime date_str.

End Dates.

(* ===================================================================== *)
(** ** HTMLParser *)

Module article.

(** Modelled from the spec: the [Article] class of [core_utils.article],
    which this module imports and fills (the ArticleRecord of the data
    model): the URL and the ordinal id given at creation, and the fields
    that the parser sets, empty until then. *)
Record Article := {
  url : pystr;
  article_id : Z;
  title : pystr;
  author : list pystr;
  date : option datetime;
  topics : list pystr;
  map : list pystr;
  text : pystr
}.

Definition init (url : pystr) (article_id : Z) : Article :=
  {| url := url; article_id := article_id; title := []; author := [];
     date := None; topics := []; map := []; text := [] |}.

End article.

Module HTMLParser.

Record t := {
  full_url : pystr;
  article_id : Z;
  config : Config.t;
  article : article.Article
}.

(** [HTMLParser.__init__] *)
Definition init (full_url : pystr) (article_id : Z) (config : Config.t) : t :=
  {| full_url := full_url; article_id := article_id; config := config;
     article := article.init full_url article_id |}.

Definition with_article (self : t) (a : article.Article) : t :=
  {| full_url := full_url self; article_id := article_id self;
     config := config self; article := a |}.

(** The assignments [self.article.<field> = v]. *)
Definition set_text (self : t) (v : pystr) : t :=
  let a := article self in
  with_article self
    {| article.url := article.url a; article.article_id := article.article_id a;
       article.title := article.title a; article.author := article.author a;
       article.date := article.date a; article.topics := article.topics a;
       article.map := article.map a; article.text := v |}.

Definition set_title (self : t) (v : pystr) : t :=
  let a := article self in
  with_article self
    {| article.url := article.url a; article.article_id := article.article_id a;
       article.title := v; article.author := article.author a;
       article.date := article.date a; article.topics := article.topics a;
       article.map := article.map a; article.text := article.text a |}.

Definition set_author (self : t) (v : list pystr) : t :=
  let a := article self in
  with_article self
    {| article.url := article.url a; article.article_id := article.article_id a;
       article.title := article.title a; article.author := v;
       article.date := article.date a; article.topics := article.topics a;
       article.map := article.map a; article.text := article.text a |}.

Definition set_date (self : t) (v : datetime) : t :=
  let a := article self in
  with_article self
    {| article.url := article.url a; article.article_id := article.article_id a;
       article.title := article.title a; article.author := article.author a;
       article.date := Some v; article.topics := article.topics a;
       article.map := article.map a; article.text := article.text a |}.

Definition set_topics (self : t) (v : list pystr) : t :=
  let a := article self in
  with_article self
    {| article.url := article.url a; article.article_id := article.article_id a;
       article.title := article.title a; article.author := article.author a;
       article.date := article.date a; article.topics := v;
       article.map := article.map a; article.text := article.text a |}.

Definition set_map (self : t) (v : list pystr) : t :=
  let a := article self in
  with_article self
    {| article.url := article.url a; article.article_id := article.article_id a;
       article.title := article.title a; article.author := article.author a;
       article.date := article.date a; article.topics := article.topics a;
       article.map := v; article.text := article.text a |}.

Definition itemprop : pystr := Eval cbv in str "itemprop".
Definition class : pystr := Eval cbv in str "class".
Definition content : pystr := Eval cbv in str "content".
Definition div : pystr := Eval cbv in str "div".
Definition newline : pystr := [10%N].
Definition NOT_FOUND : pystr := Eval cbv in str "NOT FOUND".

(** The guillemets and the references that replace them. *)
Definition laquo : pystr := [171%N].
Definition raquo : pystr := [187%N].
Definition amp_laquo : pystr := Eval cbv in str "&laquo;".
Definition amp_raquo : pystr := Eval cbv in str "&raquo;".

Definition div_articleBody : criteria :=
  Eval cbv in
  {| by_name := Some div;
     by_attrs := [(itemprop, Exactly (str "articleBody"))] |}.
Definition div_field : criteria :=
  Eval cbv in
  {| by_name := Some div;
     by_attrs := [(class, Exactly (str "field ft_html f_content auto_field"))] |}.
Definition div_value : criteria :=
  Eval cbv in
  {| by_name := Some div; by_attrs := [(class, Exactly (str "value"))] |}.
Definition p : criteria :=
  Eval cbv in {| by_name := Some (str "p"); by_attrs := [] |}.
Definition h1 : criteria :=
  Eval cbv in {| by_name := Some (str "h1"); by_attrs := [] |}.
Definition time : criteria :=
  Eval cbv in {| by_name := Some (str "time"); by_attrs := [] |}.
Definition ul_about : criteria :=
  Eval cbv in
  {| by_name := Some (str "ul");
     by_attrs := [(itemprop, Exactly (str "about"))] |}.
Definition li_itemListElement : criteria :=
  Eval cbv in
  {| by_name := Some (str "li");
     by_attrs := [(itemprop, Exactly (str "itemListElement"))] |}.
Definition meta_name : criteria :=
  Eval cbv in
  {| by_name := Some (str "meta");
     by_attrs := [(itemprop, Exactly (str "name"))] |}.
Definition ol_breadcrumb : criteria :=
  Eval cbv in
  {| by_name := Some (str "ol");
     by_attrs := [(class, Exactly (str "breadcrumb"))] |}.
Definition a_item : criteria :=
  Eval cbv in
  {| by_name := Some (str "a");
     by_attrs := [(itemprop, Exactly (str "item"))] |}.
Definition itemprop_name : criteria :=
  Eval cbv in
  {| by_name := None; by_attrs := [(itemprop, Exactly (str "name"))] |}.

(** [HTMLParser._fill_article_with_text].  Each of the three lookups
    gives a tag or [None]; the tests [if not body] and the like never
    hold for a tag and leave the flow as it is. *)
Definition _fill_article_with_text (self : t) (article_soup : node) : t :=
  match find article_soup div_articleBody with
  | Some (Tag _ _ _ as body) =>
      let self := if negb (truth body) then set_text self [] else self in
      match find body div_field with
      | Some (Tag _ _ _ as html_field) =>
          let self :=
            if negb (truth html_field) then set_text self [] else self in
          match find html_field div_value with
          | Some (Tag _ _ _ as value_div) =>
              let self :=
                if negb (truth value_div) then set_text self [] else self in
              let paragraphs :=
                List.map get_text_strip
                  (filter (fun p => nonempty (get_text_strip p))
                          (find_all value_div p)) in
              set_text self (join newline paragraphs)
          | _ => set_text self []
          end
      | _ => set_text self []
      end
  | _ => set_text self []
  end.

(** [meta['content'].strip()]: only a string has [strip]. *)
Definition content_stripped (meta : node) : result pystr :=
  v <- get meta content ;;
  match v with
  | PyStr s => Return (strip s)
  | _ => Raise AttributeError
  end.

(** The loop over the items of the topics list. *)
Fixpoint collect_topics (items : list node) (topics : list pystr)
  : result (list pystr) :=
  match items with
  | [] => Return topics
  | li :: rest =>
      match find li meta_name with
      | Some meta =>
          if truth meta && has_attr meta content
          then c <- content_stripped meta ;;
               collect_topics rest (topics ++ [c])
          else collect_topics rest topics
      | None => collect_topics rest topics
      end
  end.

(** One item of the breadcrumb list. *)
Definition crumb (li : node) : pystr :=
  match find li a_item with
  | Some (Tag _ _ _ as a) =>
      match find a itemprop_name with
      | Some name => if truth name then get_text_strip name
                     else get_text_strip a
      | None => get_text_strip a
      end
  | _ =>
      match find li itemprop_name with
      | Some name => if truth name then get_text_strip name else []
      | None => []
      end
  end.

Section Parsing.

Variable requests_get : network.
Variable lxml : pystr -> list node.

(** [tag.decode_contents()]: the markup of the contents of a tag, as the
    formatter of bs4 renders it. *)
Variable decode_contents : node -> pystr.

Variable other_decimal : N -> option Z.

(** The title that the first [h1] gives. *)
Definition headline (h1_tag : node) : pystr :=
  let headline_html := strip (decode_contents h1_tag) in
  let fixed := replace (replace headline_html laquo amp_laquo)
                       raquo amp_raquo in
  fixed.

(** [HTMLParser._fill_article_with_meta_information]: the parser comes
    back with the fields set so far, also when an exception leaves the
    method. *)
Definition _fill_article_with_meta_information (self : t)
  (article_soup : node) : t * option exn :=
  let h1_tag := find article_soup h1 in
  let self :=
    match h1_tag with
    | Some h1_tag =>
        if truth h1_tag then set_title self (headline h1_tag)
        else set_title self NOT_FOUND
    | None => set_title self NOT_FOUND
    end in
  let self := set_author self [NOT_FOUND] in
  let time_tag := find article_soup time in
  let raw_date :=
    match time_tag with
    | Some time_tag => if truth time_tag then get_text_strip time_tag else []
    | None => []
    end in
  match unify_date_format other_decimal raw_date with
  | Raise e => (self, Some e)
  | Return d =>
      let self := set_date self d in
      let about_ul := find article_soup ul_about in
      match
        match about_ul with
        | Some about_ul =>
            if truth about_ul
            then collect_topics (find_all about_ul li_itemListElement) []
            else Return []
        | None => Return []
        end
      with
      | Raise e => (self, Some e)
      | Return topics =>
          let self :=
            set_topics self
              (match topics with [] => [NOT_FOUND] | _ :: _ => topics end) in
          let bc_ol := find article_soup ol_breadcrumb in
          match bc_ol with
          | Some bc_ol =>
              if truth bc_ol
              then (set_map self
                      (List.map crumb (find_all bc_ol li_itemListElement)),
                    None)
              else (set_map self [], None)
          | None => (set_map self [], None)
          end
      end
  end.

(** [HTMLParser.parse] *)
Definition parse (self : t) (sent : list Request)
  : t * list Request * result article.Article :=
  let '(sent', response) :=
    make_request requests_get sent (full_url self) (config self) in
  match response with
  | Raise e => (self, sent', Raise e)
  | Return response =>
      let response :=
        set_encoding response (Config.get_encoding (config self)) in
      if ok response then
        let soup := BeautifulSoup lxml (text response) in
        let self := _fill_article_with_text self soup in
        match _fill_article_with_meta_information self soup with
        | (self, Some e) => (self, sent', Raise e)
        | (self, None) => (self, sent', Return (article self))
        end
      else
        let self := set_text self [] in
        (self, sent', Return (article self))
  end.

End Parsing.

End HTMLParser.

(* ===================================================================== *)
(** ** main *)

Module io.

(** Modelled from the spec: [to_raw] and [to_meta] of
    [core_utils.article.io], the persistence collaborator that receives
    each article record (the raw text and the structured fields, keyed by
    the ordinal id); a call is recorded with the article it was given. *)
Inductive call :=
| to_raw (a : article.Article)
| to_meta (a : article.Article).

End io.

Section Main.

Variable requests_get : network.
Variable lxml : pystr -> list node.
Variable decode_contents : node -> pystr.
Variable other_decimal : N -> option Z.

(** The loop of [main] over [enumerate(crawler.urls, 1)]: a parser per
    URL, and the article that [parse] returns handed to [to_raw] and
    [to_meta]; [parse] returns the article of its parser, so the
    [isinstance] test holds each time.  An exception leaves the loop
    with what was done so far. *)
Fixpoint parse_each (config : Config.t) (sent : list Request)
  (calls : list io.call) (idx : Z) (urls : list pystr)
  : list Request * list io.call * option exn :=
  match urls with
  | [] => (sent, calls, None)
  | url :: rest =>
      let parser := HTMLParser.init url idx config in
      match HTMLParser.parse requests_get lxml decode_contents other_decimal
                             parser sent with
      | (_, sent', Raise e) => (sent', calls, Some e)
      | (_, sent', Return article) =>
          parse_each config sent'
                     (calls ++ [io.to_raw article; io.to_meta article])
                     (idx + 1)%Z rest
      end
  end.

(** [main], from the point where [prepare_environment] has returned and
    the configuration file has been read as [data]: the requests made,
    the calls to the persistence functions, and the exception if one
    was raised. *)
Definition main (data : ConfigDTO)
  : list Request * list io.call * option exn :=
  match Config.init data with
  | Raise e => ([], [], Some e)
  | Return config =>
      let crawler := Crawler.init config in
      match Crawler.find_articles requests_get lxml crawler [] with
      | (_, sent, Some e) => (sent, [], Some e)
      | (crawler, sent, None) =>
          parse_each config sent [] 1%Z (Crawler.urls crawler)
      end
  end.

End Main.

(* ===================================================================== *)
(** ** Definitions used by the statements *)

(** The same configuration with another [total_articles] / [timeout]. *)
Definition with_total_articles (data : ConfigDTO) (v : value) : ConfigDTO :=
  {| seed_urls := seed_urls data; total_articles := v;
     headers := headers data; encoding := encoding data;
     timeout := timeout data;
     should_verify_certificate := should_verify_certificate data;
     headless_mode := headless_mode data |}.

Definition with_timeout (data : ConfigDTO) (v : value) : ConfigDTO :=
  {| seed_urls := seed_urls data; total_articles := total_articles data;
     headers := headers data; encoding := encoding data;
     timeout := v;
     should_verify_certificate := should_verify_certificate data;
     headless_mode := headless_mode data |}.

(** The seed list is a list of strings that start with a scheme. *)
Definition seeds_accepted (data : ConfigDTO) : bool :=
  isinstance_list (seed_urls data)
  && forallb (fun url => isinstance_str url
                         && startswith_any (as_str url) Config.http_schemes)
             (as_list (seed_urls data)).

(** A configuration file that passes, with a given article count. *)
Definition sample_config (count : value) : ConfigDTO :=
  {| seed_urls := PyList [PyStr (str "https://example.com/page")];
     total_articles := count;
     headers := PyDict [];
     encoding := PyStr (str "utf-8");
     timeout := PyInt 5;
     should_verify_certificate := PyBool true;
     headless_mode := PyBool false |}.

(** The guillemets of a text written as references, every other
    character kept. *)
Definition escape_guillemets (s : pystr) : pystr :=
  flat_map (fun c => if N.eqb c 171 then HTMLParser.amp_laquo
                     else if N.eqb c 187 then HTMLParser.amp_raquo
                     else [c]) s.

(** The container chain of an article page: the content region, inside
    it the marked sub-region, inside that the value region. *)
Definition container_chain (article_soup : node) : option node :=
  match find article_soup HTMLParser.div_articleBody with
  | None => None
  | Some body =>
      match find body HTMLParser.div_field with
      | None => None
      | Some html_field => find html_field HTMLParser.div_value
      end
  end.

(** The texts of the paragraphs of a region, the empty ones dropped,
    joined by newlines. *)
Definition paragraphs_text (value_div : node) : pystr :=
  join HTMLParser.newline
       (filter nonempty
               (List.map get_text_strip (find_all value_div HTMLParser.p))).

(** An article page whose container chain holds the given paragraphs. *)
Definition paragraph (s : pystr) : node :=
  Tag (str "p") [] [NavigableString s].

Definition article_page (paragraphs : list node) : node :=
  document
    [Tag (str "html") []
       [Tag (str "body") []
          [Tag (str "div") [(str "itemprop", PyStr (str "articleBody"))]
             [Tag (str "div")
                [(str "class",
                  PyList [PyStr (str "field"); PyStr (str "ft_html");
                          PyStr (str "f_content"); PyStr (str "auto_field")])]
                [Tag (str "div") [(str "class", PyList [PyStr (str "value")])]
                   paragraphs]]]]].

(** The part of a text before its slash number [n], counted from 0. *)
Fixpoint before_slash (n : nat) (u : pystr) : pystr :=
  match u with
  | [] => []
  | c :: u' =>
      if N.eqb c Crawler.slash then
        match n with
        | O => []
        | S n' => c :: before_slash n' u'
        end
      else c :: before_slash n u'
  end.

(** What stands before the third slash of a text, the whole text when
    it has fewer slashes. *)
Definition before_third_slash (u : pystr) : pystr := before_slash 2 u.

(** The scheme and host of an absolute URL as a URL is read: the scheme
    with its two slashes, and after them what stands before the first
    slash, question mark or number sign. *)
Definition ends_host (c : N) : bool :=
  N.eqb c 47 || N.eqb c 63 || N.eqb c 35.

Fixpoint host (u : pystr) : pystr :=
  match u with
  | [] => []
  | c :: u' => if ends_host c then [] else c :: host u'
  end.

Definition http_scheme : pystr := Eval cbv in str "http://".
Definition https_scheme : pystr := Eval cbv in str "https://".

Definition scheme_and_host (u : pystr) : pystr :=
  if startswith u http_scheme then http_scheme ++ host (skipn 7 u)
  else if startswith u https_scheme then https_scheme ++ host (skipn 8 u)
  else [].

(** No question mark and no number sign. *)
Definition no_query_or_fragment (u : pystr) : bool :=
  forallb (fun c => negb (N.eqb c 63 || N.eqb c 35)) u.

Definition seed_with_query : pystr :=
  Eval cbv in str "https://example.com?page=2".

(** The URL that a non-empty string [h] found as the href gives. *)
Definition normalized (self : Crawler.t) (h : pystr) : pystr :=
  if startswith_any h Config.http_schemes then h
  else match Config.get_seed_urls (Crawler.config self) with
       | [] => []
       | base :: _ => before_third_slash base ++ h
       end.

(** A text that is not empty and does not end with white space. *)
Definition ends_well (x : pystr) : Prop :=
  x <> [] /\ isspace (last x 0%N) = false.

(** A crawler over one seed, and an anchor with a given [href]. *)
Definition sample_crawler (count : Z) (seeds : list pystr) : Crawler.t :=
  Crawler.init
    {| Config._seed_urls := seeds;
       Config._num_articles := Int count;
       Config._headers := [];
       Config._encoding := str "utf-8";
       Config._timeout := Int 5;
       Config._should_verify_certificate := true;
       Config._headless_mode := false |}.

Definition sample_data (count : Z) (seeds : list pystr) : ConfigDTO :=
  {| seed_urls := PyList (List.map PyStr seeds);
     total_articles := PyInt count;
     headers := PyDict [];
     encoding := PyStr (str "utf-8");
     timeout := PyInt 5;
     should_verify_certificate := PyBool true;
     headless_mode := PyBool false |}.

Definition anchor (v : value) : node :=
  Tag (str "a") [(Crawler.href, v)] [].

(** What a regular expression matches: the text [s] and the groups it
    adds to [g]. *)
Fixpoint denotes (other_decimal : N -> option Z) (r : regex) (s : pystr)
  (g g' : groups) : Prop :=
  match r with
  | Chr c => s = [c] /\ g' = g
  | Range lo hi =>
      exists d, s = [d] /\ ((lo <=? d) && (d <=? hi))%N = true /\ g' = g
  | re.Digit =>
      exists d, s = [d] /\ is_decimal other_decimal d = true /\ g' = g
  | Cat r1 r2 =>
      exists s1 s2 gm,
        s = s1 ++ s2
        /\ denotes other_decimal r1 s1 g gm
        /\ denotes other_decimal r2 s2 gm g'
  | Alt r1 r2 =>
      denotes other_decimal r1 s g g' \/ denotes other_decimal r2 s g g'
  | Group name r1 =>
      exists g1, denotes other_decimal r1 s g g1 /\ g' = (name, s) :: g1
  end.

(** The exact pattern of the specification: two digits, a dot, two
    digits, a dot, four digits. *)
Definition ascii_digit (c : N) : bool := ((48 <=? c) && (c <=? 57))%N.

Definition exact_pattern (s : pystr) : bool :=
  match s with
  | [d1; d2; p1; m1; m2; p2; y1; y2; y3; y4] =>
      ascii_digit d1 && ascii_digit d2 && N.eqb p1 dot
      && ascii_digit m1 && ascii_digit m2 && N.eqb p2 dot
      && ascii_digit y1 && ascii_digit y2 && ascii_digit y3 && ascii_digit y4
  | _ => false
  end.

Definition midnight (y m d : Z) : datetime :=
  {| year := y; month := m; day := d; hour := 0; minute := 0; second := 0 |}.

(** The URL that a header offers: the one of its first anchor with an
    href, when the extraction returns a non-empty one. *)
Definition offered (cfg : Config.t) (header : node) : list pystr :=
  match find header Crawler.a_with_href with
  | None => []
  | Some a_tag =>
      match Crawler._extract_url (Crawler.init cfg) a_tag with
      | Return u => if nonempty u then [u] else []
      | Raise _ => []
      end
  end.

(** The URLs that a page offers, in document order. *)
Definition page_stream (cfg : Config.t) (soup : node) : list pystr :=
  flat_map (offered cfg) (find_all soup Crawler.h3).

(** The URLs that the seeds offer, in the order of the seeds and of
    each page, when every seed is fetched in turn after the requests
    [sent]; a failed fetch ends the sequence and a response that is not
    ok offers nothing. *)
Fixpoint discovered (requests_get : network) (lxml : pystr -> list node)
  (cfg : Config.t) (sent : list Request) (seeds : list pystr) : list pystr :=
  match seeds with
  | [] => []
  | seed_url :: rest =>
      let '(sent', response) := make_request requests_get sent seed_url cfg in
      match response with
      | Raise _ => []
      | Return response =>
          (if ok response
           then page_stream cfg (BeautifulSoup lxml (text response))
           else [])
          ++ discovered requests_get lxml cfg sent' rest
      end
  end.

(** First-discovered order: every URL at the place of its first
    occurrence, after those already in [acc]. *)
Definition note (acc : list pystr) (u : pystr) : list pystr :=
  if contains acc u then acc else acc ++ [u].

Definition first_occurrences (acc stream : list pystr) : list pystr :=
  fold_left note stream acc.

(** The cap as a length. *)
Definition cap (cfg : Config.t) : nat :=
  Z.to_nat (int_value (Config.get_num_articles cfg)).

(** The request that [make_request] sends for a URL. *)
Definition request_for (cfg : Config.t) (u : pystr) : Request :=
  {| url := u;
     request_headers := Config.get_headers cfg;
     request_timeout := Config.get_timeout cfg;
     verify := Config.get_verify_certificate cfg |}.

(** A listing page with one header and anchor per link, a network that
    answers every request with it, and one that fails for one URL. *)
Definition listing (links : list pystr) : list node :=
  [Tag (str "html") []
     [Tag (str "body") []
        (List.map
           (fun l => Tag (str "h3") []
                       [Tag (str "a") [(Crawler.href, PyStr l)]
                          [NavigableString (str "headline")]])
           links)]].

Definition sample_response : Response :=
  {| ok := true; response_encoding := str "utf-8";
     decoded := fun _ => str "<html>...</html>" |}.

Definition always_ok : network := fun _ _ => Return sample_response.

Definition fails_for (bad : pystr) : network :=
  fun _ rq =>
    if str_eqb (url rq) bad then Raise RequestException
    else Return sample_response.

Definition seed_one : pystr := Eval cbv in str "https://example.com/one".
Definition seed_two : pystr := Eval cbv in str "https://example.com/two".

Definition link_a : pystr := Eval cbv in str "https://example.com/a".
Definition link_b : pystr := Eval cbv in str "/b".

(** A tree builder that gives the same listing for every markup. *)
Definition sample_lxml (links : list pystr) : pystr -> list node :=
  fun _ => listing links.

Definition with_urls (self : Crawler.t) (us : list pystr) : Crawler.t :=
  {| Crawler.config := Crawler.config self; Crawler.urls := us |}.

(** The ranges that validation asks of the values of a [Config]. *)
Definition in_range (c : Config.t) : Prop :=
  Forall (fun u => startswith_any u Config.http_schemes = true)
         (Config.get_seed_urls c)
  /\ (1 <= int_value (Config.get_num_articles c) <= 150)%Z
  /\ (0 < int_value (Config.get_timeout c) < 60)%Z.

(** The same configuration with another seed list. *)
Definition with_seed_urls (data : ConfigDTO) (v : value) : ConfigDTO :=
  {| seed_urls := v; total_articles := total_articles data;
     headers := headers data; encoding := encoding data;
     timeout := timeout data;
     should_verify_certificate := should_verify_certificate data;
     headless_mode := headless_mode data |}.

(** A seed that validation refuses: not a string, or a string without
    scheme. *)
Definition bad_seed (v : value) : bool :=
  negb (isinstance_str v)
  || negb (startswith_any (as_str v) Config.http_schemes).

(** An integer, or a boolean, strictly between 0 and 60. *)
Definition timeout_accepted (v : value) : bool :=
  isinstance_int v
  && (0 <? int_value (as_pyint v))%Z && (int_value (as_pyint v) <? 60)%Z.

(** A tag that does not hold the empty list as its href, and a tree
    builder all of whose documents hold only such tags; the parsers of
    bs4 store a string under href. *)
Definition href_not_empty_list (n : node) : Prop :=
  match n with
  | Tag _ attrs _ => lookup Crawler.href attrs <> Some (PyList [])
  | _ => True
  end.

Definition plain_hrefs (lxml : pystr -> list node) : Prop :=
  forall markup n,
    In n (descendants (BeautifulSoup lxml markup)) -> href_not_empty_list n.

(** The text that an article page gives as its date: the stripped text
    of the first time element, empty without one. *)
Definition raw_date (article_soup : node) : pystr :=
  match find article_soup HTMLParser.time with
  | Some time_tag => get_text_strip time_tag
  | None => []
  end.

(** The title that an article page gives. *)
Definition title_of (decode_contents : node -> pystr) (article_soup : node)
  : pystr :=
  match find article_soup HTMLParser.h1 with
  | Some h1_tag => HTMLParser.headline decode_contents h1_tag
  | None => HTMLParser.NOT_FOUND
  end.

(** The topics that the marked list of an article page gives, before the
    default is applied. *)
Definition topics_of (article_soup : node) : result (list pystr) :=
  match find article_soup HTMLParser.ul_about with
  | Some about_ul =>
      HTMLParser.collect_topics
        (find_all about_ul HTMLParser.li_itemListElement) []
  | None => Return []
  end.

(** The breadcrumb path of an article page. *)
Definition crumbs_of (article_soup : node) : list pystr :=
  match find article_soup HTMLParser.ol_breadcrumb with
  | Some bc_ol =>
      List.map HTMLParser.crumb
               (find_all bc_ol HTMLParser.li_itemListElement)
  | None => []
  end.

(** The request that [parse] makes. *)
Definition article_request (self : HTMLParser.t) : Request :=
  request_for (HTMLParser.config self) (HTMLParser.full_url self).

(** An article page with a given date text and nothing else. *)
Definition dated_page (date_text : pystr) : list node :=
  [Tag (str "html") []
     [Tag (str "body") []
        [Tag (str "time") [] [NavigableString date_text]]]].

Definition bare_page : list node :=
  [Tag (str "html") [] [Tag (str "body") [] []]].

Definition sample_parser : HTMLParser.t :=
  HTMLParser.init link_a 1 (Crawler.config (sample_crawler 5 [seed_one])).

Definition no_decimal : N -> option Z := fun _ => None.

Definition plain_contents : node -> pystr := fun n => concat (strings n).

(** The calls that hand over a sequence of articles, and the ordinal
    ids from [idx] on. *)
Definition handed (articles : list article.Article) : list io.call :=
  flat_map (fun a => [io.to_raw a; io.to_meta a]) articles.

Fixpoint ids_from (idx : Z) (n : nat) : list Z :=
  match n with
  | O => []
  | S k => idx :: ids_from (idx + 1)%Z k
  end.

(** The exceptions of [_validate_config_content]. *)
Definition configuration_error (e : exn) : bool :=
  match e with
  | IncorrectSeedURLError | NumberOfArticlesOutOfRangeError
  | IncorrectNumberOfArticlesError | IncorrectHeadersError
  | IncorrectEncodingError | IncorrectTimeoutError | IncorrectVerifyError =>
      true
  | _ => false
  end.

(** The numbers that ASCII digits write. *)
Definition digit (c : N) : Z := (Z.of_N c - 48)%Z.

Definition two_digits (a b : N) : Z := (10 * digit a + digit b)%Z.

Definition four_digits (a b c d : N) : Z :=
  (1000 * digit a + 100 * digit b + 10 * digit c + digit d)%Z.

(** The topic that one item of the topics list gives: the stripped
    content of its first meta element marked as name, when that element
    has a content attribute holding a string. *)
Definition item_topic (li : node) : list pystr :=
  match find li HTMLParser.meta_name with
  | Some (Tag _ attrs _) =>
      match lookup HTMLParser.content attrs with
      | Some (PyStr s) => [strip s]
      | _ => []
      end
  | _ => []
  end.

(** A network on which every page answers, but never with success. *)
Definition always_down : network :=
  fun _ _ => Return {| ok := false; response_encoding := str "utf-8";
                       decoded := fun _ => str "Not Found" |}.

(** An article page with a date and a topics list of two items, the
    second without a meta element. *)
Definition topics_page : list node :=
  [Tag (str "html") []
     [Tag (str "body") []
        [Tag (str "time") [] [NavigableString (str "05.03.2021")];
         Tag (str "ul") [(str "itemprop", PyStr (str "about"))]
           [Tag (str "li") [(str "itemprop", PyStr (str "itemListElement"))]
              [Tag (str "meta")
                 [(str "itemprop", PyStr (str "name"));
                  (str "content", PyStr (str " Sport "))] []];
            Tag (str "li") [(str "itemprop", PyStr (str "itemListElement"))]
              [NavigableString (str "no meta")]]]]].

(** The whitespace-trimmed text of an element: all of its text, read in
    document order, with the white space at its two ends removed. *)
Definition trimmed_text (n : node) : pystr := strip (concat (strings n)).

(** The text of an element read leaf by leaf: every text leaf trimmed on
    its own, comments left out, and the results set side by side with
    nothing between them. *)
Fixpoint leaf_texts (n : node) : pystr :=
  match n with
  | NavigableString s => strip s
  | Comment _ => []
  | Tag _ _ contents => flat_map leaf_texts contents
  end.

(** A paragraph with inline markup. *)
Definition marked_paragraph : node :=
  Tag (str "p") []
    [NavigableString (str "Hello ");
     Tag (str "b") [] [NavigableString (str "world")];
     NavigableString (str " and more ")].

(** The first element with a given name below a node, in document
    order. *)
Fixpoint first_below (name : pystr) (n : node) : option node :=
  match n with
  | Tag _ _ contents =>
      (fix among (l : list node) : option node :=
         match l with
         | [] => None
         | c :: l' =>
             match
               match c with
               | Tag c_name _ _ =>
                   if str_eqb c_name name then Some c else first_below name c
               | _ => None
               end
             with
             | Some x => Some x
             | None => among l'
             end
         end) contents
  | _ => None
  end.

(** The guillemets written as their named references. *)
Definition laquo_reference : pystr := Eval cbv in str "&laquo;".
Definition raquo_reference : pystr := Eval cbv in str "&raquo;".

Definition guillemets_as_references (s : pystr) : pystr :=
  flat_map (fun c => if N.eqb c 171 then laquo_reference
                     else if N.eqb c 187 then raquo_reference
                     else [c]) s.

(** [core] is [s] without the white space at its two ends. *)
Definition trimmed (s core : pystr) : Prop :=
  exists lead trail,
    s = lead ++ core ++ trail
    /\ Forall (fun c => isspace c = true) lead
    /\ Forall (fun c => isspace c = true) trail
    /\ (core = []
        \/ (isspace (hd 0%N core) = false
            /\ isspace (last core 0%N) = false)).

(** Two article pages: one whose first h1 comes after an h2 and holds a
    title in guillemets between white space, and one without an h1. *)
Definition titled_page : node :=
  document
    [Tag (str "html") []
       [Tag (str "body") []
          [Tag (str "h2") [] [NavigableString (str "Section")];
           Tag (str "h1") []
             [NavigableString ([32; 9; 171] ++ str "Title" ++ [187; 32; 10])%N];
           Tag (str "h1") [] [NavigableString (str "Second")]]]].

Definition untitled_page : node :=
  document
    [Tag (str "html") []
       [Tag (str "body") []
          [Tag (str "h2") [] [NavigableString (str "Section")]]]].

(** A page that is a listing with two links and an article with a date
    at once. *)
Definition listing_with_date : list node :=
  [Tag (str "html") []
     [Tag (str "body") []
        [Tag (str "h3") []
           [Tag (str "a") [(Crawler.href, PyStr link_a)]
              [NavigableString (str "first")]];
         Tag (str "h3") []
           [Tag (str "a") [(Crawler.href, PyStr link_b)]
              [NavigableString (str "second")]];
         Tag (str "time") [] [NavigableString (str "05.03.2021")]]]].

(** The elements with a given name below a node, in document order. *)
Definition named (name : pystr) (n : node) : bool :=
  match n with
  | Tag n_name _ _ => str_eqb n_name name
  | _ => false
  end.

Definition elements_named (name : pystr) (n : node) : list node :=
  filter (named name) (descendants n).

(** The body text that a value region gives, leaf by leaf: the texts of
    its paragraph elements, the empty ones dropped, joined by
    newlines. *)
Definition leafwise_body (value_div : node) : pystr :=
  join [10%N]
       (filter nonempty
               (List.map leaf_texts (elements_named (str "p") value_div))).

(** Article pages whose container chain breaks at the marked sub-region
    and at the value region. *)
Definition page_without_field : node :=
  document
    [Tag (str "div") [(str "itemprop", PyStr (str "articleBody"))]
       [Tag (str "div") [(str "class", PyList [PyStr (str "value")])]
          [paragraph (str "A")]]].

Definition page_without_value : node :=
  document
    [Tag (str "div") [(str "itemprop", PyStr (str "articleBody"))]
       [Tag (str "div")
          [(str "class",
            PyList [PyStr (str "field"); PyStr (str "ft_html");
                    PyStr (str "f_content"); PyStr (str "auto_field")])]
          [paragraph (str "A")]]].

(* ===================================================================== *)
(** ** Config: the article count and the booleans *)

Section ConfigFacts.

Lemma seed_checks_pass (data : ConfigDTO) :
  seeds_accepted data = true ->
  negb (isinstance_list (seed_urls data)) = false
  /\ existsb
       (fun url => negb (isinstance_str url)
                   || negb (startswith_any (as_str url) Config.http_schemes))
       (as_list (seed_urls data)) = false.
Proof.
  unfold seeds_accepted. intros H.
  apply andb_true_iff in H. destruct H as [Hl Hall]. split.
  - now rewrite Hl.
  - induction (as_list (seed_urls data)) as [|u l IH]; simpl in *; trivial.
    apply andb_true_iff in Hall. destruct Hall as [Hu Hrest].
    apply andb_true_iff in Hu. destruct Hu as [Hs Hp].
    rewrite Hs, Hp, (IH Hrest). reflexivity.
Qed.

Lemma validated_seeds_accepted (data : ConfigDTO) :
  Config._validate_config_content data = None -> seeds_accepted data = true.
Proof.
  unfold Config._validate_config_content, seeds_accepted. intros H.
  destruct (isinstance_list (seed_urls data)); simpl in *; try discriminate.
  match type of H with
  | (if existsb ?f ?l then _ else _) = _ =>
      destruct (existsb f l) eqn:E; try discriminate
  end.
  clear H. induction (as_list (seed_urls data)) as [|u l IH]; simpl in *; trivial.
  apply orb_false_iff in E. destruct E as [Eu El].
  apply orb_false_iff in Eu. destruct Eu as [Es Ep].
  apply negb_false_iff in Es. apply negb_false_iff in Ep.
  rewrite Es, Ep, (IH El). reflexivity.
Qed.

(** The outcome of validation once the seed checks have passed. *)
Lemma validate_after_seeds (data : ConfigDTO) :
  seeds_accepted data = true ->
  Config._validate_config_content data =
  if negb (isinstance_int (total_articles data))
     || (int_value (as_pyint (total_articles data)) <=? 0)%Z then
    Some IncorrectNumberOfArticlesError
  else if (int_value (as_pyint (total_articles data)) >? 150)%Z then
    Some NumberOfArticlesOutOfRangeError
  else if negb (isinstance_dict (headers data)) then
    Some IncorrectHeadersError
  else if negb (isinstance_str (encoding data)) then
    Some IncorrectEncodingError
  else if negb (isinstance_int (timeout data))
          || negb ((0 <? int_value (as_pyint (timeout data)))%Z
                   && (int_value (as_pyint (timeout data)) <? 60)%Z) then
    Some IncorrectTimeoutError
  else if negb (isinstance_bool (should_verify_certificate data))
          || negb (isinstance_bool (headless_mode data)) then
    Some IncorrectVerifyError
  else None.
Proof.
  intros H. destruct (seed_checks_pass data H) as [H1 H2].
  unfold Config._validate_config_content. rewrite H1, H2. reflexivity.
Qed.

(** What is left of a passing configuration when the article count is
    put aside. *)
Lemma validated_rest (data : ConfigDTO) :
  Config._validate_config_content data = None ->
  isinstance_dict (headers data) = true
  /\ isinstance_str (encoding data) = true
  /\ (negb (isinstance_int (timeout data))
      || negb ((0 <? int_value (as_pyint (timeout data)))%Z
               && (int_value (as_pyint (timeout data)) <? 60)%Z)) = false
  /\ (negb (isinstance_bool (should_verify_certificate data))
      || negb (isinstance_bool (headless_mode data))) = false
  /\ (negb (isinstance_int (total_articles data))
      || (int_value (as_pyint (total_articles data)) <=? 0)%Z) = false
  /\ (int_value (as_pyint (total_articles data)) >? 150)%Z = false.
Proof.
  intros H. pose proof (validated_seeds_accepted data H) as Hs.
  rewrite (validate_after_seeds data Hs) in H.
  repeat match type of H with
         | (if ?c then _ else _) = _ =>
             destruct c eqn:?; try discriminate
         end.
  repeat split; trivial.
  - destruct (isinstance_dict (headers data)); trivial; discriminate.
  - destruct (isinstance_str (encoding data)); trivial; discriminate.
Qed.

End ConfigFacts.

(** C3 (as the code has it): with an acceptable seed list, the article
    counts 0, -1 and "abc" are refused with
    IncorrectNumberOfArticlesError and the count 151 with
    NumberOfArticlesOutOfRangeError; the counts 1 and 150 raise neither,
    and validation passes with them whenever the rest of the
    configuration passes. *)
Theorem article_count_error_kinds (data : ConfigDTO)
  (Hseeds : seeds_accepted data = true) :
  (forall v, In v [PyInt 0; PyInt (-1); PyStr (str "abc")] ->
     Config._validate_config_content (with_total_articles data v)
     = Some IncorrectNumberOfArticlesError)
  /\ Config._validate_config_content (with_total_articles data (PyInt 151))
     = Some NumberOfArticlesOutOfRangeError
  /\ (forall v, In v [PyInt 1; PyInt 150] ->
        Config._validate_config_content (with_total_articles data v)
        <> Some IncorrectNumberOfArticlesError
        /\ Config._validate_config_content (with_total_articles data v)
           <> Some NumberOfArticlesOutOfRangeError
        /\ (Config._validate_config_content data = None ->
            Config._validate_config_content (with_total_articles data v)
            = None)).
Proof.
  assert (Hs : forall v, seeds_accepted (with_total_articles data v) = true)
    by (intros v; exact Hseeds).
  split; [|split].
  - intros v Hv. rewrite (validate_after_seeds _ (Hs v)).
    simpl in Hv. destruct Hv as [<-|[<-|[<-|[]]]]; reflexivity.
  - rewrite (validate_after_seeds _ (Hs _)). reflexivity.
  - intros v Hv. rewrite (validate_after_seeds _ (Hs v)).
    assert (Hc : (negb (isinstance_int v)
                  || (int_value (as_pyint v) <=? 0)%Z) = false
                 /\ (int_value (as_pyint v) >? 150)%Z = false)
      by (simpl in Hv; destruct Hv as [<-|[<-|[]]]; split; reflexivity).
    destruct Hc as [Hc1 Hc2]. cbn [total_articles with_total_articles].
    rewrite Hc1, Hc2.
    split; [|split].
    + repeat match goal with
             | |- (if ?c then _ else _) <> _ => destruct c
             end; discriminate.
    + repeat match goal with
             | |- (if ?c then _ else _) <> _ => destruct c
             end; discriminate.
    + intros Hok. destruct (validated_rest data Hok)
        as (Hh & He & Ht & Hb & _ & _).
      cbn [headers encoding timeout should_verify_certificate headless_mode
           with_total_articles].
      rewrite Hh, He, Ht, Hb. reflexivity.
Qed.

Lemma article_count_error_kinds_witness :
  seeds_accepted (sample_config (PyInt 3)) = true
  /\ Config._validate_config_content (sample_config (PyInt 0))
     = Some IncorrectNumberOfArticlesError
  /\ Config._validate_config_content (sample_config (PyInt 151))
     = Some NumberOfArticlesOutOfRangeError
  /\ Config._validate_config_content (sample_config (PyInt 150)) = None.
Proof.
  assert (H : seeds_accepted (sample_config (PyInt 3)) = true)
    by reflexivity.
  destruct (article_count_error_kinds (sample_config (PyInt 3)) H)
    as (H0 & H151 & H150).
  split; [exact H|]. split; [|split].
  - apply (H0 (PyInt 0)). simpl. auto.
  - exact H151.
  - apply (H150 (PyInt 150)); [simpl; auto | reflexivity].
Defined.

(** C3 as stated fails: the count 0 and the count 151 are refused with
    different error kinds, so no single kind covers 0, -1, 151 and
    "abc". *)
Lemma article_count_no_single_kind :
  Config._validate_config_content (sample_config (PyInt 0))
  = Some IncorrectNumberOfArticlesError
  /\ Config._validate_config_content (sample_config (PyInt 151))
     = Some NumberOfArticlesOutOfRangeError
  /\ ~ exists e,
        forall v, In v [PyInt 0; PyInt (-1); PyInt 151; PyStr (str "abc")] ->
          Config._validate_config_content (sample_config v) = Some e.
Proof.
  split; [reflexivity|]. split; [reflexivity|].
  intros [e He].
  pose proof (He (PyInt 0) (or_introl eq_refl)) as H0.
  pose proof (He (PyInt 151) (or_intror (or_intror (or_introl eq_refl))))
    as H151.
  vm_compute in H0, H151. congruence.
Qed.

(** The attributes of the object that [__init__] returns are the values
    that were read, unchanged. *)
Lemma init_keeps_values (data : ConfigDTO) (c : Config.t) :
  Config.init data = Return c -> Config.attributes c = data.
Proof.
  unfold Config.init. intros H.
  destruct (Config._validate_config_content data) eqn:Hv; [discriminate|].
  injection H as <-.
  pose proof (validated_seeds_accepted data Hv) as Hs.
  destruct (validated_rest data Hv) as (Hh & He & Ht & Hb & Hn & _).
  unfold seeds_accepted in Hs. apply andb_true_iff in Hs.
  destruct Hs as [Hl Hall].
  apply orb_false_iff in Ht. destruct Ht as [Ht _].
  apply orb_false_iff in Hb. destruct Hb as [Hb1 Hb2].
  apply orb_false_iff in Hn. destruct Hn as [Hn _].
  clear Hv.
  assert (Hsu : PyList (List.map PyStr (List.map as_str
                                          (as_list (seed_urls data))))
                = seed_urls data).
  { destruct (seed_urls data) as [| | | | |items|]; try discriminate.
    cbn [as_list] in *. f_equal. clear Hl.
    induction items as [|u l IH]; cbn [List.map forallb] in *; trivial.
    apply andb_true_iff in Hall. destruct Hall as [Hu Hrest].
    apply andb_true_iff in Hu. destruct Hu as [Hu _].
    rewrite (IH Hrest). destruct u; try discriminate. reflexivity. }
  unfold Config.attributes; cbn [Config._seed_urls Config._num_articles
    Config._headers Config._encoding Config._timeout
    Config._should_verify_certificate Config._headless_mode].
  rewrite Hsu. clear Hsu Hall.
  destruct data as [su ta he en ti sv hm];
    cbn [seed_urls total_articles headers encoding timeout
         should_verify_certificate headless_mode] in *.
  destruct ta; try discriminate; destruct he; try discriminate;
    destruct en; try discriminate; destruct ti; try discriminate;
    destruct sv; try discriminate; destruct hm; try discriminate;
    reflexivity.
Qed.

(** C9: a configuration that passes still passes when its article count
    or its timeout is the boolean True, and the object that [__init__]
    returns then holds the boolean as its article count. *)
Theorem booleans_pass_as_integers (data : ConfigDTO)
  (Hvalid : Config._validate_config_content data = None) :
  Config._validate_config_content (with_total_articles data (PyBool true))
  = None
  /\ Config._validate_config_content (with_timeout data (PyBool true)) = None
  /\ exists c,
       Config.init (with_total_articles data (PyBool true)) = Return c
       /\ Config.get_num_articles c = Bool true
       /\ total_articles (Config.attributes c) = PyBool true.
Proof.
  pose proof (validated_seeds_accepted data Hvalid) as Hs.
  destruct (validated_rest data Hvalid) as (Hh & He & Ht & Hb & Hn & Hm).
  assert (H1 : Config._validate_config_content
                 (with_total_articles data (PyBool true)) = None).
  { rewrite validate_after_seeds by exact Hs.
    cbn [total_articles headers encoding timeout should_verify_certificate
         headless_mode with_total_articles].
    rewrite Hh, He, Ht, Hb. reflexivity. }
  split; [exact H1|]. split.
  - rewrite validate_after_seeds by exact Hs.
    cbn [total_articles headers encoding timeout should_verify_certificate
         headless_mode with_timeout].
    rewrite Hh, He, Hb, Hn, Hm. reflexivity.
  - unfold Config.init. rewrite H1. eexists. split; [reflexivity|].
    split; reflexivity.
Qed.

Lemma booleans_pass_as_integers_witness :
  Config._validate_config_content (sample_config (PyBool true)) = None.
Proof.
  exact (proj1 (booleans_pass_as_integers (sample_config (PyInt 3))
                  eq_refl)).
Defined.

(* ===================================================================== *)
(** ** Strings *)

Section StringFacts.

Lemma str_eqb_eq (a b : pystr) : str_eqb a b = true <-> a = b.
Proof.
  unfold str_eqb. destruct (list_eq_dec N.eq_dec a b); split; congruence.
Qed.

Lemma str_eqb_refl (a : pystr) : str_eqb a a = true.
Proof. now apply str_eqb_eq. Qed.

Lemma contains_In (l : list pystr) (x : pystr) :
  contains l x = true <-> In x l.
Proof.
  unfold contains. rewrite existsb_exists. split.
  - intros [y [Hy He]]. apply str_eqb_eq in He. now subst.
  - intros H. exists x. split; [exact H | apply str_eqb_refl].
Qed.

Lemma startswith_app (s p : pystr) :
  startswith s p = true <-> exists t, s = p ++ t.
Proof.
  revert s. induction p as [|c p IH]; intros s; simpl.
  - split; [intros _; now exists s | intros _; now destruct s].
  - destruct s as [|d s']; simpl.
    + split; [discriminate | intros [t Ht]; discriminate].
    + rewrite andb_true_iff, N.eqb_eq, IH. split.
      * intros [-> [t ->]]. now exists t.
      * intros [t Ht]. injection Ht as -> ->. split; [reflexivity|now exists t].
Qed.

(** Replacing one character: every occurrence gives way to [new] and
    nothing else changes. *)
Lemma replace_char (s new : pystr) (c : N) :
  replace s [c] new = flat_map (fun d => if N.eqb d c then new else [d]) s.
Proof.
  unfold replace. induction s as [|d s' IH]; simpl; trivial.
  rewrite andb_true_r, N.eqb_sym.
  destruct (N.eqb d c); simpl; now rewrite IH.
Qed.

Lemma flat_map_flat_map {A B C} (f : A -> list B) (g : B -> list C)
  (l : list A) :
  flat_map g (flat_map f l) = flat_map (fun a => flat_map g (f a)) l.
Proof.
  induction l as [|a l IH]; simpl; trivial.
  now rewrite flat_map_app, IH.
Qed.

Lemma replace_guillemets (s : pystr) :
  replace (replace s HTMLParser.laquo HTMLParser.amp_laquo)
          HTMLParser.raquo HTMLParser.amp_raquo
  = escape_guillemets s.
Proof.
  unfold HTMLParser.laquo, HTMLParser.raquo.
  rewrite !replace_char, flat_map_flat_map. unfold escape_guillemets.
  apply flat_map_ext. intros c.
  destruct (N.eqb c 171) eqn:E1; [reflexivity|].
  simpl. rewrite app_nil_r. reflexivity.
Qed.

Lemma lstrip_head (s : pystr) :
  lstrip s = [] \/ exists c t, lstrip s = c :: t /\ isspace c = false.
Proof.
  induction s as [|c s IH]; simpl; [now left|].
  destruct (isspace c) eqn:E; [exact IH|].
  right. now exists c, s.
Qed.

(** A stripped text does not end with white space. *)
Lemma strip_last (s : pystr) (d : N) :
  strip s <> [] -> isspace (last (strip s) d) = false.
Proof.
  unfold strip, rstrip. intros H.
  destruct (lstrip_head (rev (lstrip s))) as [E|[c [t [E Hc]]]];
    rewrite E in *.
  - now contradiction H.
  - simpl. now rewrite last_last.
Qed.

Lemma nonempty_true (s : pystr) : nonempty s = true <-> s <> [].
Proof. destruct s; simpl; split; congruence. Qed.

Lemma last_app_nonempty {A} (a b : list A) (d : A) :
  b <> [] -> last (a ++ b) d = last b d.
Proof.
  intros Hb. induction a as [|x a IH]; simpl; trivial.
  destruct (a ++ b) eqn:E; [|exact IH].
  apply app_eq_nil in E. destruct E as [_ E]. now contradiction Hb.
Qed.

(** Texts that do not end with white space, concatenated or joined, do
    not end with white space. *)
Lemma concat_ends_well (L : list pystr) :
  Forall ends_well L -> L <> [] -> ends_well (concat L).
Proof.
  induction L as [|x L IH]; intros HL Hne; [now contradiction Hne|].
  inversion HL as [|? ? Hx HL']; subst. simpl.
  destruct L as [|y L].
  - simpl. rewrite app_nil_r. exact Hx.
  - destruct (IH HL') as [Hc Hs]; [discriminate|]. split.
    + intros E. apply app_eq_nil in E. now destruct E.
    + now rewrite last_app_nonempty.
Qed.

Lemma join_ends_well (sep : pystr) (L : list pystr) :
  Forall ends_well L -> L <> [] -> ends_well (join sep L).
Proof.
  induction L as [|x L IH]; intros HL Hne; [now contradiction Hne|].
  inversion HL as [|? ? Hx HL']; subst.
  destruct L as [|y L]; [exact Hx|].
  destruct (IH HL') as [Hc Hs]; [discriminate|].
  change (join sep (x :: y :: L)) with (x ++ sep ++ join sep (y :: L)).
  split.
  - intros E. apply app_eq_nil in E. destruct E as [_ E].
    apply app_eq_nil in E. now destruct E.
  - rewrite app_assoc. now rewrite last_app_nonempty.
Qed.

Lemma get_text_strip_ends_well (n : node) :
  get_text_strip n <> [] -> ends_well (get_text_strip n).
Proof.
  unfold get_text_strip. intros H.
  apply concat_ends_well.
  - apply Forall_forall. intros x Hx. apply filter_In in Hx.
    destruct Hx as [Hin Hne]. apply in_map_iff in Hin.
    destruct Hin as [s [<- _]]. apply nonempty_true in Hne.
    split; [exact Hne | now apply strip_last].
  - intros E. rewrite E in H. now contradiction H.
Qed.

End StringFacts.

(** Induction over a tree with the hypothesis on every child. *)
Lemma node_induction (P : node -> Prop) :
  (forall name attrs contents,
     Forall P contents -> P (Tag name attrs contents)) ->
  (forall s, P (NavigableString s)) ->
  (forall s, P (Comment s)) ->
  forall n, P n.
Proof.
  intros HT HS HC. fix IH 1. intros [name attrs contents|s|s].
  - apply HT. induction contents as [|c cs IHcs]; constructor.
    + apply IH.
    + exact IHcs.
  - apply HS.
  - apply HC.
Qed.

(* ===================================================================== *)
(** ** HTMLParser: body text and title *)

Section ParserFacts.

(** What [find] returns is a tag, and a tag is true. *)
Lemma find_is_tag (n : node) (c : criteria) (x : node) :
  find n c = Some x ->
  exists name attrs contents, x = Tag name attrs contents.
Proof.
  unfold find, find_all. intros H.
  assert (Hin : In x (filter (matches c) (descendants n))).
  { destruct (filter (matches c) (descendants n)); simpl in H;
      [discriminate|]. injection H as ->. now left. }
  apply filter_In in Hin. destruct Hin as [_ Hm].
  destruct x; simpl in Hm; try discriminate. eauto.
Qed.

Lemma map_filter_comm {A B} (f : A -> B) (g : B -> bool) (l : list A) :
  List.map f (filter (fun x => g (f x)) l) = filter g (List.map f l).
Proof.
  induction l as [|a l IH]; simpl; trivial.
  destruct (g (f a)); simpl; now rewrite IH.
Qed.

Lemma paragraphs_text_ends_well (v : node) :
  paragraphs_text v = [] \/ ends_well (paragraphs_text v).
Proof.
  unfold paragraphs_text.
  set (L := filter nonempty
              (List.map get_text_strip (find_all v HTMLParser.p))).
  destruct L as [|x L'] eqn:E; [now left|]. right.
  apply join_ends_well; [|discriminate].
  rewrite <- E. apply Forall_forall. intros y Hy. unfold L in Hy.
  apply filter_In in Hy. destruct Hy as [Hin Hne].
  apply in_map_iff in Hin. destruct Hin as [q [<- _]].
  apply get_text_strip_ends_well. now apply nonempty_true.
Qed.

Lemma fill_text_sets_text (self : HTMLParser.t) (article_soup : node) :
  HTMLParser._fill_article_with_text self article_soup
  = HTMLParser.set_text self
      match container_chain article_soup with
      | None => []
      | Some value_div => paragraphs_text value_div
      end.
Proof.
  unfold HTMLParser._fill_article_with_text, container_chain.
  destruct (find article_soup HTMLParser.div_articleBody) as [body|] eqn:E1;
    [|reflexivity].
  destruct (find_is_tag _ _ E1) as (n1 & a1 & k1 & ->).
  cbn [truth negb].
  destruct (find (Tag n1 a1 k1) HTMLParser.div_field) as [field|] eqn:E2;
    [|reflexivity].
  destruct (find_is_tag _ _ E2) as (n2 & a2 & k2 & ->).
  cbn [truth negb].
  destruct (find (Tag n2 a2 k2) HTMLParser.div_value) as [v|] eqn:E3;
    [|reflexivity].
  destruct (find_is_tag _ _ E3) as (n3 & a3 & k3 & ->).
  cbn [truth negb]. unfold paragraphs_text.
  now rewrite map_filter_comm.
Qed.

End ParserFacts.

Section LeafTexts.

(** Stripping the text leaves, dropping the empty ones and gluing the
    rest. *)
Lemma glue_app (l1 l2 : list pystr) :
  concat (filter nonempty (List.map strip (l1 ++ l2)))
  = concat (filter nonempty (List.map strip l1))
    ++ concat (filter nonempty (List.map strip l2)).
Proof. now rewrite map_app, filter_app, concat_app. Qed.

Lemma glue_flat_map {A} (g : A -> list pystr) (l : list A) :
  concat (filter nonempty (List.map strip (flat_map g l)))
  = flat_map (fun a => concat (filter nonempty (List.map strip (g a)))) l.
Proof.
  induction l as [|a l IH]; [reflexivity|].
  cbn [flat_map]. now rewrite glue_app, IH.
Qed.

Lemma strings_of_tag (name : pystr) (attrs : list (pystr * value))
  (contents : list node) :
  strings (Tag name attrs contents)
  = flat_map
      (fun c => match c with NavigableString s => [s] | _ => [] end
                ++ strings c)
      contents.
Proof.
  unfold strings at 1. cbn [descendants]. rewrite flat_map_flat_map.
  reflexivity.
Qed.

Lemma flat_map_agree {A B} (f g : A -> list B) (l : list A) :
  (forall a, In a l -> f a = g a) -> flat_map f l = flat_map g l.
Proof.
  induction l as [|a l IH]; intros H; [reflexivity|].
  cbn [flat_map]. rewrite (H a (or_introl eq_refl)), IH; [reflexivity|].
  intros b Hb. apply H. now right.
Qed.

Lemma glue_leaf_texts (n : node) :
  concat (filter nonempty
            (List.map strip
               (match n with NavigableString s => [s] | _ => [] end
                ++ strings n)))
  = leaf_texts n.
Proof.
  induction n as [name attrs contents IH|s|s] using node_induction.
  - cbn [app leaf_texts]. rewrite strings_of_tag, glue_flat_map.
    apply flat_map_agree. intros c Hc. rewrite Forall_forall in IH.
    exact (IH c Hc).
  - cbn. destruct (strip s) as [|c t]; [reflexivity|].
    cbn. now rewrite app_nil_r.
  - reflexivity.
Qed.

(** [get_text(strip=True)] of a tag reads its text leaf by leaf. *)
Lemma get_text_strip_leafwise (name : pystr) (attrs : list (pystr * value))
  (contents : list node) :
  get_text_strip (Tag name attrs contents)
  = leaf_texts (Tag name attrs contents).
Proof.
  unfold get_text_strip.
  exact (glue_leaf_texts (Tag name attrs contents)).
Qed.

Lemma find_all_named (n : node) (name : pystr) :
  find_all n {| by_name := Some name; by_attrs := [] |}
  = elements_named name n.
Proof.
  unfold find_all, elements_named. apply filter_ext. intros [nm a k|t|t];
    cbn; [apply andb_true_r | reflexivity | reflexivity].
Qed.

Lemma paragraphs_text_leafwise (v : node) :
  paragraphs_text v = leafwise_body v.
Proof.
  unfold paragraphs_text, leafwise_body. f_equal. f_equal.
  change HTMLParser.p
    with {| by_name := Some (str "p"); by_attrs := [] |}.
  rewrite find_all_named. apply map_ext_in. intros q Hq.
  unfold elements_named in Hq. apply filter_In in Hq. destruct Hq as [_ Hq].
  destruct q as [nm a k|t|t]; try discriminate.
  apply get_text_strip_leafwise.
Qed.

End LeafTexts.

(** C7 (as the code has it): the body text is empty when a link of the
    container chain is missing, and no exception arises; otherwise it is
    the newline-joined texts of the paragraph elements of the value
    region whose text is not empty, the text of a paragraph being its
    text leaves each trimmed on its own and set side by side.  For a
    paragraph of one text leaf that is its whitespace-trimmed text; with
    inline markup the spaces at the edges of the leaves are lost.  The
    text never ends with a newline or other white space, the other
    fields are left alone, and the paragraphs "A" and "" give "A". *)
Theorem body_text_from_container_chain (self : HTMLParser.t)
  (article_soup : node) :
  let body_of page :=
    article.text
      (HTMLParser.article (HTMLParser._fill_article_with_text self page)) in
  let filled := HTMLParser._fill_article_with_text self article_soup in
  let body_text := body_of article_soup in
  body_text = match container_chain article_soup with
              | None => []
              | Some value_div => leafwise_body value_div
              end
  /\ (body_text = []
      \/ (isspace (last body_text 0%N) = false
          /\ last body_text 0%N <> 10%N))
  /\ article.title (HTMLParser.article filled)
     = article.title (HTMLParser.article self)
  /\ article.date (HTMLParser.article filled)
     = article.date (HTMLParser.article self)
  /\ (forall s, leaf_texts (paragraph s) = strip s
                /\ trimmed_text (paragraph s) = strip s)
  /\ body_of (article_page [paragraph (str "A"); paragraph (str "")])
     = str "A"
  /\ body_of (article_page [paragraph (str " A "); paragraph (str "  ");
                            paragraph (str "B")])
     = str "A" ++ [10%N] ++ str "B"
  /\ body_of (article_page [marked_paragraph]) = str "Helloworldand more"
  /\ body_of untitled_page = []
  /\ body_of page_without_field = []
  /\ body_of page_without_value = [].
Proof.
  cbv zeta. rewrite !fill_text_sets_text.
  cbn [HTMLParser.set_text HTMLParser.with_article HTMLParser.article
       article.text article.title article.date].
  split.
  { destruct (container_chain article_soup) as [v|]; [|reflexivity].
    apply paragraphs_text_leafwise. }
  split.
  { destruct (container_chain article_soup) as [v|]; [|now left].
    destruct (paragraphs_text_ends_well v) as [E|[Hne Hs]]; [now left|].
    right. split; [exact Hs|]. intros E. rewrite E in Hs. discriminate. }
  split; [reflexivity|]. split; [reflexivity|]. split.
  { intros s. unfold trimmed_text, paragraph, strings.
    cbn. rewrite !app_nil_r. split; reflexivity. }
  repeat split; vm_compute; reflexivity.
Qed.

(** C7 as stated fails: for a paragraph with inline markup the body text
    is not the whitespace-trimmed text of the paragraph, although the
    container chain resolves. *)
Lemma inline_markup_loses_spaces :
  article.text
    (HTMLParser.article
       (HTMLParser._fill_article_with_text sample_parser
          (article_page [marked_paragraph])))
  = str "Helloworldand more"
  /\ trimmed_text marked_paragraph = str "Hello world and more"
  /\ container_chain (article_page [marked_paragraph]) <> None.
Proof.
  split; [reflexivity|]. split; [reflexivity|]. vm_compute. discriminate.
Qed.

(** The title that [_fill_article_with_meta_information] stores,
    whatever the rest of the method does. *)
Lemma meta_title (decode_contents : node -> pystr)
  (other_decimal : N -> option Z) (self : HTMLParser.t)
  (article_soup : node) :
  article.title
    (HTMLParser.article
       (fst (HTMLParser._fill_article_with_meta_information
               decode_contents other_decimal self article_soup)))
  = match find article_soup HTMLParser.h1 with
    | Some h1_tag => escape_guillemets (strip (decode_contents h1_tag))
    | None => HTMLParser.NOT_FOUND
    end.
Proof.
  unfold HTMLParser._fill_article_with_meta_information.
  set (titled :=
         match find article_soup HTMLParser.h1 with
         | Some h1_tag =>
             if truth h1_tag
             then HTMLParser.set_title self
                    (HTMLParser.headline decode_contents h1_tag)
             else HTMLParser.set_title self HTMLParser.NOT_FOUND
         | None => HTMLParser.set_title self HTMLParser.NOT_FOUND
         end).
  assert (Ht : article.title (HTMLParser.article titled)
               = match find article_soup HTMLParser.h1 with
                 | Some h1_tag =>
                     escape_guillemets (strip (decode_contents h1_tag))
                 | None => HTMLParser.NOT_FOUND
                 end).
  { unfold titled.
    destruct (find article_soup HTMLParser.h1) as [h|] eqn:E;
      [|reflexivity].
    destruct (find_is_tag _ _ E) as (n & a & k & ->).
    cbn [truth]. unfold HTMLParser.headline.
    rewrite replace_guillemets. reflexivity. }
  rewrite <- Ht. clearbody titled.
  repeat match goal with
         | |- context [match ?x with _ => _ end] =>
             match x with
             | context [match _ with _ => _ end] => fail 1
             | _ => destruct x
             end
         | |- context [if ?x then _ else _] => destruct x
         end; reflexivity.
Qed.

Section TitleFacts.

Lemma hd_error_app {A} (l1 l2 : list A) :
  hd_error (l1 ++ l2)
  = match hd_error l1 with Some x => Some x | None => hd_error l2 end.
Proof. destruct l1; reflexivity. Qed.

(** [find] by name gives the first element of that name in document
    order. *)
Lemma find_first_below (name : pystr) (n : node) :
  find n {| by_name := Some name; by_attrs := [] |} = first_below name n.
Proof.
  unfold find. rewrite find_all_named. unfold elements_named.
  induction n as [nm attrs contents IH|s|s] using node_induction;
    [|reflexivity|reflexivity].
  cbn [descendants first_below].
  induction contents as [|c l IHl]; [reflexivity|].
  inversion IH as [|? ? Hc Hl]; subst.
  cbn [flat_map]. rewrite filter_app, hd_error_app, (IHl Hl).
  destruct c as [c_name a k|t|t]; cbn [filter named];
    [|reflexivity|reflexivity].
  destruct (str_eqb c_name name); [reflexivity|].
  rewrite Hc. reflexivity.
Qed.

Lemma lstrip_split (s : pystr) :
  exists lead,
    s = lead ++ lstrip s /\ Forall (fun c => isspace c = true) lead.
Proof.
  induction s as [|c s [lead [Hs Hl]]]; [now exists []|].
  cbn [lstrip]. destruct (isspace c) eqn:E.
  - exists (c :: lead). split; [cbn; now f_equal | now constructor].
  - now exists [].
Qed.

(** [strip] removes the white space at the two ends and nothing else. *)
Lemma strip_trimmed (s : pystr) : trimmed s (strip s).
Proof.
  destruct (lstrip_split s) as [lead [Hs Hlead]].
  destruct (lstrip_split (rev (lstrip s))) as [t [Ht Htrail]].
  assert (Hmid : lstrip s = strip s ++ rev t).
  { unfold strip, rstrip. rewrite <- (rev_involutive (lstrip s)) at 1.
    rewrite Ht at 1. now rewrite rev_app_distr. }
  exists lead, (rev t). split; [now rewrite <- Hmid|].
  split; [exact Hlead|]. split; [now apply Forall_rev|].
  destruct (strip s) as [|c core] eqn:E; [now left|]. right. split.
  - destruct (lstrip_head s) as [H0|[c' [t' [Hc' Hsp]]]];
      rewrite Hmid in *; cbn in *; [discriminate|].
    injection Hc' as <- _. exact Hsp.
  - rewrite <- E. apply strip_last. now rewrite E.
Qed.

End TitleFacts.

(** C8: the stored title is the inner markup of the first h1 in
    document order, without the white space at its two ends and with
    every guillemet written as its named reference, every other
    character kept; without an h1 it is "NOT FOUND".  This holds whether
    or not the rest of the method raises.  A page whose first h1 follows
    an h2 and holds the title in guillemets between white space gets the
    two references, and a page with an h2 only gets "NOT FOUND". *)
Theorem title_escapes_guillemets (decode_contents : node -> pystr)
  (other_decimal : N -> option Z) (self : HTMLParser.t)
  (article_soup : node) :
  let title_from decode other page :=
    article.title
      (HTMLParser.article
         (fst (HTMLParser._fill_article_with_meta_information
                 decode other self page))) in
  match first_below (str "h1") article_soup with
  | Some h1_tag =>
      title_from decode_contents other_decimal article_soup
      = guillemets_as_references (strip (decode_contents h1_tag))
      /\ trimmed (decode_contents h1_tag) (strip (decode_contents h1_tag))
  | None =>
      title_from decode_contents other_decimal article_soup = str "NOT FOUND"
  end
  /\ guillemets_as_references ([171%N] ++ str "Title" ++ [187%N])
     = str "&laquo;Title&raquo;"
  /\ (forall c, c <> 171%N -> c <> 187%N ->
                guillemets_as_references [c] = [c])
  /\ title_from plain_contents no_decimal titled_page
     = str "&laquo;Title&raquo;"
  /\ title_from plain_contents no_decimal untitled_page = str "NOT FOUND".
Proof.
  cbv zeta. split; [|split; [reflexivity|split]].
  - rewrite meta_title. rewrite <- find_first_below.
    change {| by_name := Some (str "h1"); by_attrs := [] |}
      with HTMLParser.h1.
    destruct (find article_soup HTMLParser.h1) as [h|]; [|reflexivity].
    split; [reflexivity | apply strip_trimmed].
  - intros c H1 H2. unfold guillemets_as_references. cbn [flat_map].
    apply N.eqb_neq in H1. apply N.eqb_neq in H2. now rewrite H1, H2.
  - split; vm_compute; reflexivity.
Qed.


(* ===================================================================== *)
(** ** Crawler._extract_url *)

Section ExtractUrl.

Lemma split_first_field (t : pystr) :
  exists fs, split_char Crawler.slash t = before_slash 0 t :: fs.
Proof.
  induction t as [|c t [fs IH]]; simpl.
  - now exists [].
  - destruct (N.eqb c Crawler.slash).
    + eexists. reflexivity.
    + rewrite IH. eexists. reflexivity.
Qed.

Lemma before_slash_prefix (n : nat) (u : pystr) :
  exists tail, u = before_slash n u ++ tail.
Proof.
  revert n. induction u as [|c u IH]; intros n; simpl.
  - now exists [].
  - destruct (N.eqb c Crawler.slash).
    + destruct n as [|n'].
      * now exists (c :: u).
      * destruct (IH n') as [tail Ht]. exists tail. simpl. now f_equal.
    + destruct (IH n) as [tail Ht]. exists tail. simpl. now f_equal.
Qed.

(** On a URL that starts with a scheme, the fields 0 and 2 of the split
    exist and rebuild the scheme and host. *)
Lemma split_before_third_slash (base : pystr) :
  startswith_any base Config.http_schemes = true ->
  exists part0 part2,
    item (split_char Crawler.slash base) 0 = Return part0
    /\ item (split_char Crawler.slash base) 2 = Return part2
    /\ part0 ++ Crawler.double_slash ++ part2 = before_third_slash base.
Proof.
  unfold startswith_any, Config.http_schemes. cbn [existsb].
  rewrite orb_false_r. intros H. apply orb_true_iff in H.
  destruct H as [H|H]; apply startswith_app in H; destruct H as [t ->];
    destruct (split_first_field t) as [fs Hfs].
  - exists (str "http:"), (before_slash 0 t).
    unfold before_third_slash. cbn. rewrite Hfs. cbn. auto.
  - exists (str "https:"), (before_slash 0 t).
    unfold before_third_slash. cbn. rewrite Hfs. cbn. auto.
Qed.

Lemma init_seeds_have_scheme (data : ConfigDTO) (c : Config.t) :
  Config.init data = Return c ->
  Forall (fun u => startswith_any u Config.http_schemes = true)
         (Config.get_seed_urls c).
Proof.
  unfold Config.init. intros H.
  destruct (Config._validate_config_content data) eqn:Hv; [discriminate|].
  injection H as <-. cbn.
  pose proof (validated_seeds_accepted data Hv) as Hs.
  unfold seeds_accepted in Hs. apply andb_true_iff in Hs.
  destruct Hs as [_ Hall].
  induction (as_list (seed_urls data)) as [|u l IH]; cbn in *; [constructor|].
  apply andb_true_iff in Hall. destruct Hall as [Hu Hrest].
  apply andb_true_iff in Hu. destruct Hu as [_ Hu].
  constructor; [exact Hu | exact (IH Hrest)].
Qed.

Lemma extract_url_of_string (self : Crawler.t) (h : pystr) :
  Forall (fun u => startswith_any u Config.http_schemes = true)
         (Config.get_seed_urls (Crawler.config self)) ->
  (match
     (if negb (nonempty h) then Return []
      else if startswith_any h Config.http_schemes then Return h
      else
        match Config.get_seed_urls (Crawler.config self) with
        | [] => Return []
        | base :: _ =>
            part0 <- item (split_char Crawler.slash base) 0 ;;
            part2 <- item (split_char Crawler.slash base) 2 ;;
            Return ((part0 ++ Crawler.double_slash ++ part2) ++ h)
        end)
   with
   | Return u => u = if nonempty h then normalized self h else []
   | Raise _ => False
   end).
Proof.
  intros Hseeds. unfold normalized.
  destruct (nonempty h); cbn [negb]; [|reflexivity].
  destruct (startswith_any h Config.http_schemes); [reflexivity|].
  destruct (Config.get_seed_urls (Crawler.config self)) as [|base rest];
    [reflexivity|].
  inversion Hseeds as [|? ? Hb _]; subst.
  destruct (split_before_third_slash base Hb) as (p0 & p2 & H0 & H2 & Hd).
  rewrite H0. cbn [bind]. rewrite H2. cbn [bind]. now rewrite Hd.
Qed.

Lemma host_prefix (t : pystr) :
  exists more, before_slash 0 t = host t ++ more.
Proof.
  induction t as [|c t [more IH]]; [now exists []|].
  cbn [before_slash host]. unfold ends_host, Crawler.slash.
  destruct (N.eqb c 47); [now exists []|]. cbn [orb].
  destruct (N.eqb c 63 || N.eqb c 35).
  - now exists (c :: before_slash 0 t).
  - exists more. cbn. now f_equal.
Qed.

Lemma host_without_query (t : pystr) :
  no_query_or_fragment (before_slash 0 t) = true ->
  before_slash 0 t = host t.
Proof.
  induction t as [|c t IH]; [reflexivity|].
  cbn [before_slash host]. unfold ends_host, Crawler.slash.
  destruct (N.eqb c 47); [reflexivity|]. cbn [orb].
  unfold no_query_or_fragment. cbn [forallb]. intros H.
  apply andb_true_iff in H. destruct H as [Hc Ht].
  apply negb_true_iff in Hc. rewrite Hc. f_equal. now apply IH.
Qed.

(** What the code puts before a relative href against the scheme and
    host of the seed: the second starts the first, and they are equal
    when no question mark or number sign stands before the third
    slash. *)
Lemma third_slash_and_host_after (scheme t : pystr) :
  before_third_slash (scheme ++ t) = scheme ++ before_slash 0 t ->
  scheme_and_host (scheme ++ t) = scheme ++ host t ->
  (exists more,
     before_third_slash (scheme ++ t) = scheme_and_host (scheme ++ t) ++ more)
  /\ (no_query_or_fragment (before_third_slash (scheme ++ t)) = true ->
      no_query_or_fragment (before_slash 0 t) = true ->
      before_third_slash (scheme ++ t) = scheme_and_host (scheme ++ t)).
Proof.
  intros Hb Hs. rewrite Hb, Hs. split.
  - destruct (host_prefix t) as [more Hm]. exists more.
    now rewrite Hm, app_assoc.
  - intros _ Hq. f_equal. now apply host_without_query.
Qed.

Lemma third_slash_and_host (base : pystr) :
  startswith_any base Config.http_schemes = true ->
  (exists more, before_third_slash base = scheme_and_host base ++ more)
  /\ (no_query_or_fragment (before_third_slash base) = true ->
      before_third_slash base = scheme_and_host base).
Proof.
  unfold startswith_any, Config.http_schemes. cbn [existsb].
  rewrite orb_false_r. intros H. apply orb_true_iff in H.
  destruct H as [H|H]; apply startswith_app in H; destruct H as [t ->].
  - destruct (@third_slash_and_host_after (str "http://") t
                eq_refl eq_refl) as [Hp He].
    split; [exact Hp|]. intros Hq. apply He; [exact Hq | exact Hq].
  - destruct (@third_slash_and_host_after (str "https://") t
                eq_refl eq_refl) as [Hp He].
    split; [exact Hp|]. intros Hq. apply He; [exact Hq | exact Hq].
Qed.

End ExtractUrl.

(** C5: with a configuration that [Config] has accepted, an anchor whose
    href is a non-empty string (or a list that starts with one) gives
    the href itself when it starts with http:// or https://, and
    otherwise what stands before the third slash of the first seed URL,
    followed by the href; with no seed it gives the empty string.  What
    stands before the third slash is a prefix of the seed and begins
    with the seed's scheme and host; it is the scheme and host when it
    holds no question mark and no number sign.  The href "/news/123"
    under the seed "https://example.com/page" gives
    "https://example.com/news/123", and under the seed
    "https://example.com?page=2" it gives
    "https://example.com?page=2/news/123". *)
Theorem url_normalization (data : ConfigDTO) (self : Crawler.t)
  (name : pystr) (attrs : list (pystr * value)) (contents : list node)
  (v : value) (h : pystr)
  (Hconfig : Config.init data = Return (Crawler.config self))
  (Hhref : lookup Crawler.href attrs = Some v)
  (Hv : v = PyStr h \/ exists more, v = PyList (PyStr h :: more))
  (Hne : h <> []) :
  (startswith_any h Config.http_schemes = true ->
   Crawler._extract_url self (Tag name attrs contents) = Return h)
  /\ (startswith_any h Config.http_schemes = false ->
      Crawler._extract_url self (Tag name attrs contents)
      = Return match Config.get_seed_urls (Crawler.config self) with
               | [] => []
               | base :: _ => before_third_slash base ++ h
               end)
  /\ (forall base rest,
        Config.get_seed_urls (Crawler.config self) = base :: rest ->
        (exists tail, base = before_third_slash base ++ tail)
        /\ (exists more,
              before_third_slash base = scheme_and_host base ++ more)
        /\ (no_query_or_fragment (before_third_slash base) = true ->
            before_third_slash base = scheme_and_host base))
  /\ scheme_and_host (str "https://example.com/page") ++ str "/news/123"
     = str "https://example.com/news/123"
  /\ Crawler._extract_url
       (sample_crawler 5 [str "https://example.com/page"])
       (anchor (PyStr (str "/news/123")))
     = Return (str "https://example.com/news/123")
  /\ Crawler._extract_url (sample_crawler 5 [seed_with_query])
       (anchor (PyStr (str "/news/123")))
     = Return (str "https://example.com?page=2/news/123").
Proof.
  pose proof (init_seeds_have_scheme _ Hconfig) as Hseeds.
  pose proof (extract_url_of_string self h Hseeds) as Hex.
  assert (Hn : nonempty h = true) by now apply nonempty_true.
  assert (Hrun : Crawler._extract_url self (Tag name attrs contents)
                 = Return (normalized self h)).
  { unfold Crawler._extract_url. cbn [get bind]. rewrite Hhref.
    destruct Hv as [->|[more ->]]; cbn [item nth_error bind];
      rewrite Hn in Hex |- *;
      match type of Hex with
      | match ?e with _ => _ end =>
          destruct e as [u|e'] eqn:E; [now subst u | contradiction]
      end. }
  rewrite Hrun. unfold normalized.
  split; [now intros ->|]. split; [now intros ->|]. split.
  - intros base rest Hb. rewrite Hb in Hseeds.
    inversion Hseeds as [|? ? Hs _]; subst.
    split; [apply before_slash_prefix | now apply third_slash_and_host].
  - split; [reflexivity|]. split; reflexivity.
Qed.

Lemma url_normalization_witness :
  Crawler._extract_url
    (sample_crawler 5 [str "https://example.com/page"])
    (anchor (PyStr (str "/news/123")))
  = Return (str "https://example.com/news/123").
Proof.
  assert (H : Config.init (sample_data 5 [str "https://example.com/page"])
              = Return (Crawler.config
                          (sample_crawler 5 [str "https://example.com/page"])))
    by reflexivity.
  destruct (url_normalization
              (sample_data 5 [str "https://example.com/page"])
              (sample_crawler 5 [str "https://example.com/page"])
              (str "a") [(Crawler.href, PyStr (str "/news/123"))] []
              (h := str "/news/123") H eq_refl (or_introl eq_refl))
    as (_ & Hrel & _); [discriminate|].
  exact (Hrel eq_refl).
Defined.

(** C5, where the claim fails: the seed "https://example.com?page=2" is
    accepted, its scheme and host are "https://example.com", and the
    href "/news/123" is put after the whole seed, query included. *)
Lemma query_seed_keeps_query :
  Crawler._extract_url (sample_crawler 5 [seed_with_query])
    (anchor (PyStr (str "/news/123")))
  = Return (str "https://example.com?page=2/news/123")
  /\ scheme_and_host seed_with_query ++ str "/news/123"
     = str "https://example.com/news/123"
  /\ Config.init (sample_data 5 [seed_with_query])
     = Return (Crawler.config (sample_crawler 5 [seed_with_query])).
Proof. split; [reflexivity|]. split; reflexivity. Qed.

(** An anchor whose href is the empty list makes [_extract_url] raise
    IndexError, whatever the configuration. *)
Lemma extract_url_empty_list_raises (self : Crawler.t) (name : pystr)
  (others : list (pystr * value)) (contents : list node) :
  Crawler._extract_url self
    (Tag name ((Crawler.href, PyList []) :: others) contents)
  = Raise IndexError.
Proof. reflexivity. Qed.

(** Every other anchor gives a URL under an accepted configuration: a
    missing, non-string or empty href the empty string, a list its first
    item, and the split of the first seed has the fields 0 and 2. *)
Lemma extract_url_returns_otherwise (data : ConfigDTO) (self : Crawler.t)
  (name : pystr) (attrs : list (pystr * value)) (contents : list node) :
  Config.init data = Return (Crawler.config self) ->
  lookup Crawler.href attrs <> Some (PyList []) ->
  exists u,
    Crawler._extract_url self (Tag name attrs contents) = Return u
    /\ (lookup Crawler.href attrs = None -> u = [])
    /\ (forall v, lookup Crawler.href attrs = Some v ->
        isinstance_str v = false -> isinstance_list v = false -> u = [])
    /\ (lookup Crawler.href attrs = Some (PyStr []) -> u = [])
    /\ (forall h more,
          lookup Crawler.href attrs = Some (PyList (PyStr h :: more)) ->
          u = if nonempty h then normalized self h else []).
Proof.
  intros Hconfig Hnot.
  pose proof (init_seeds_have_scheme _ Hconfig) as Hseeds.
  unfold Crawler._extract_url. cbn [get bind].
  assert (Hstr : forall h,
     exists u,
       (if negb (nonempty h) then Return []
        else if startswith_any h Config.http_schemes then Return h
        else
          match Config.get_seed_urls (Crawler.config self) with
          | [] => Return []
          | base :: _ =>
              part0 <- item (split_char Crawler.slash base) 0 ;;
              part2 <- item (split_char Crawler.slash base) 2 ;;
              Return ((part0 ++ Crawler.double_slash ++ part2) ++ h)
          end) = Return u
       /\ u = if nonempty h then normalized self h else []).
  { intros h. pose proof (extract_url_of_string self h Hseeds) as Hex.
    match type of Hex with
    | match ?e with _ => _ end =>
        destruct e as [u|e'] eqn:E; [exists u; now split | contradiction]
    end. }
  destruct (lookup Crawler.href attrs) as [v|] eqn:Hl.
  - destruct v as [| b | z | f | h | items | d];
      try (exists []; cbn [bind]; repeat split; intros; congruence).
    + cbn [bind]. destruct (Hstr h) as (u & Hu & Hval). exists u.
      split; [exact Hu|]. split; [discriminate|]. split; [|split].
      * intros v E. injection E as <-. discriminate.
      * intros E. injection E as ->. exact Hval.
      * discriminate.
    + destruct items as [|x more]; [congruence|].
      cbn [item nth_error bind].
      destruct x as [| b | z | f | h | items' | d];
        try (exists []; repeat split; intros; congruence).
      destruct (Hstr h) as (u & Hu & Hval). exists u.
      split; [exact Hu|]. split; [discriminate|]. split; [|split].
      * intros v E. injection E as <-. discriminate.
      * discriminate.
      * intros h0 more0 E. injection E as -> ->. exact Hval.
  - exists []. cbn [bind]. repeat split; intros; congruence.
Qed.

(** What [_extract_url] gives, by the href of the tag, under seeds with
    a scheme. *)
Lemma extract_url_by_href (self : Crawler.t) (name : pystr)
  (attrs : list (pystr * value)) (contents : list node) :
  Forall (fun u => startswith_any u Config.http_schemes = true)
         (Config.get_seed_urls (Crawler.config self)) ->
  Crawler._extract_url self (Tag name attrs contents)
  = match lookup Crawler.href attrs with
    | Some (PyStr h) | Some (PyList (PyStr h :: _)) =>
        Return (if nonempty h then normalized self h else [])
    | Some (PyList []) => Raise IndexError
    | _ => Return []
    end.
Proof.
  intros Hseeds.
  assert (Hstr : forall h,
       (if negb (nonempty h) then Return []
        else if startswith_any h Config.http_schemes then Return h
        else
          match Config.get_seed_urls (Crawler.config self) with
          | [] => Return []
          | base :: _ =>
              part0 <- item (split_char Crawler.slash base) 0 ;;
              part2 <- item (split_char Crawler.slash base) 2 ;;
              Return ((part0 ++ Crawler.double_slash ++ part2) ++ h)
          end)
       = Return (if nonempty h then normalized self h else [])).
  { intros h. pose proof (extract_url_of_string self h Hseeds) as Hex.
    match type of Hex with
    | match ?e with _ => _ end =>
        destruct e as [u|e'] eqn:E; [now subst u | contradiction]
    end. }
  unfold Crawler._extract_url. cbn [get bind].
  destruct (lookup Crawler.href attrs) as [v|]; [|reflexivity].
  destruct v as [| b | z | f | h | items | d]; try reflexivity.
  - cbn [bind]. apply Hstr.
  - destruct items as [|x more]; [reflexivity|].
    cbn [item nth_error bind].
    destruct x as [| b | z | f | h | items' | d]; try reflexivity.
    apply Hstr.
Qed.

(** The split of a URL that starts with a scheme has three fields at
    least. *)
Lemma split_has_three_fields (base : pystr) :
  startswith_any base Config.http_schemes = true ->
  3 <= length (split_char Crawler.slash base).
Proof.
  unfold startswith_any, Config.http_schemes. cbn [existsb].
  rewrite orb_false_r. intros H. apply orb_true_iff in H.
  destruct H as [H|H]; apply startswith_app in H; destruct H as [t ->];
    destruct (split_first_field t) as [fs Hfs].
  - assert (E : split_char Crawler.slash (str "http://" ++ t)
                = str "http:" :: [] :: split_char Crawler.slash t)
      by reflexivity.
    assert (G : 3 <= length (split_char Crawler.slash (str "http://" ++ t)))
      by (rewrite E, Hfs; cbn [length]; lia).
    exact G.
  - assert (E : split_char Crawler.slash (str "https://" ++ t)
                = str "https:" :: [] :: split_char Crawler.slash t)
      by reflexivity.
    assert (G : 3 <= length (split_char Crawler.slash (str "https://" ++ t)))
      by (rewrite E, Hfs; cbn [length]; lia).
    exact G.
Qed.

(** C10: under a configuration that [Config] has accepted,
    [_extract_url] returns for every tag whose href is not the empty
    list, so for every href that is a string: a missing, non-string or
    empty href gives the empty string, a list that is not empty gives
    what its first item gives as the href when that item is a string and
    the empty string otherwise, and the split of every seed URL on the
    slash has three fields at least. *)
Theorem extract_url_returns_off_empty_list (data : ConfigDTO)
  (self : Crawler.t) (name : pystr) (attrs : list (pystr * value))
  (contents : list node)
  (Hconfig : Config.init data = Return (Crawler.config self))
  (Hhref : lookup Crawler.href attrs <> Some (PyList [])) :
  (exists u,
     Crawler._extract_url self (Tag name attrs contents) = Return u
     /\ (lookup Crawler.href attrs = None -> u = [])
     /\ (forall v, lookup Crawler.href attrs = Some v ->
         isinstance_str v = false -> isinstance_list v = false -> u = [])
     /\ (lookup Crawler.href attrs = Some (PyStr []) -> u = [])
     /\ (forall first more,
           lookup Crawler.href attrs = Some (PyList (first :: more)) ->
           Return u
           = if isinstance_str first
             then Crawler._extract_url self (anchor first)
             else Return []))
  /\ (forall h, exists u,
        Crawler._extract_url self (anchor (PyStr h)) = Return u)
  /\ Forall (fun base => 3 <= length (split_char Crawler.slash base))
            (Config.get_seed_urls (Crawler.config self)).
Proof.
  pose proof (init_seeds_have_scheme _ Hconfig) as Hseeds.
  split; [|split].
  - rewrite (extract_url_by_href self name attrs contents Hseeds).
    destruct (lookup Crawler.href attrs) as [v|] eqn:Hl.
    + destruct v as [| b | z | f | h | items | d];
        try (exists []; repeat split; intros; congruence).
      * eexists. split; [reflexivity|]. split; [discriminate|].
        split; [|split].
        -- intros v E. injection E as <-. discriminate.
        -- intros E. injection E as ->. reflexivity.
        -- discriminate.
      * destruct items as [|x more]; [congruence|].
        assert (Hx : forall first more',
                   Some (PyList (x :: more)) = Some (PyList (first :: more'))
                   -> first = x) by (intros ? ? E; now injection E).
        destruct x as [| b | z | f | h | items' | d];
          try (exists []; split; [reflexivity|]; split; [discriminate|];
               split; [intros v E; injection E as <-; discriminate|];
               split; [discriminate|];
               intros first more' E; rewrite (Hx _ _ E); reflexivity).
        eexists. split; [reflexivity|]. split; [discriminate|].
        split; [intros v E; injection E as <-; discriminate|].
        split; [discriminate|].
        intros first more' E. rewrite (Hx _ _ E). cbn [isinstance_str].
        unfold anchor.
        now rewrite (extract_url_by_href self (str "a")
                       [(Crawler.href, PyStr h)] [] Hseeds).
    + exists []. repeat split; intros; congruence.
  - intros h. eexists. unfold anchor.
    now rewrite (extract_url_by_href self (str "a")
                   [(Crawler.href, PyStr h)] [] Hseeds).
  - apply Forall_impl with (2 := Hseeds). intros base.
    apply split_has_three_fields.
Qed.

Lemma extract_url_returns_off_empty_list_witness :
  Crawler._extract_url (sample_crawler 5 [seed_one])
    (anchor (PyList [PyStr link_b; PyStr link_a]))
  = Return (str "https://example.com/b").
Proof.
  destruct (@extract_url_returns_off_empty_list
              (sample_data 5 [seed_one]) (sample_crawler 5 [seed_one])
              (str "a")
              [(Crawler.href, PyList [PyStr link_b; PyStr link_a])] []
              eq_refl)
    as [(u & Hu & _ & _ & _ & Hfirst) _]; [discriminate|].
  unfold anchor. rewrite Hu. rewrite (Hfirst _ _ eq_refl). reflexivity.
Defined.

(** C10, where the claim fails: under an accepted configuration an
    anchor whose href is the empty list makes [_extract_url] raise
    IndexError. *)
Lemma empty_list_href_raises :
  Crawler._extract_url (sample_crawler 5 [seed_one]) (anchor (PyList []))
  = Raise IndexError
  /\ Config.init (sample_data 5 [seed_one])
     = Return (Crawler.config (sample_crawler 5 [seed_one])).
Proof. split; reflexivity. Qed.

(* ===================================================================== *)
(** ** unify_date_format *)

Section DateFacts.

Variable other_decimal : N -> option Z.

(** The matcher finds only what the expression denotes. *)
Lemma run_sound (R : Type) (r : regex) :
  forall (s : pystr) (g : groups) (k : pystr -> groups -> option R) (x : R),
    run other_decimal r s g k = Some x ->
    exists s1 s2 g',
      s = s1 ++ s2 /\ denotes other_decimal r s1 g g' /\ k s2 g' = Some x.
Proof.
  induction r as [c|lo hi| |r1 IH1 r2 IH2|r1 IH1 r2 IH2|name r1 IH1];
    intros s g k x H; cbn [run] in H.
  - destruct s as [|d s']; [discriminate|].
    destruct (N.eqb d c) eqn:E; [|discriminate].
    apply N.eqb_eq in E. subst d.
    exists [c], s', g. cbn. auto.
  - destruct s as [|d s']; [discriminate|].
    destruct ((lo <=? d) && (d <=? hi))%N eqn:E; [|discriminate].
    exists [d], s', g. cbn. eauto 6.
  - destruct s as [|d s']; [discriminate|].
    destruct (is_decimal other_decimal d) eqn:E; [|discriminate].
    exists [d], s', g. cbn. eauto 6.
  - apply IH1 in H. destruct H as (s1 & s2 & gm & -> & D1 & H).
    apply IH2 in H. destruct H as (s3 & s4 & g' & -> & D2 & H).
    exists (s1 ++ s3), s4, g'. rewrite app_assoc. cbn.
    split; [reflexivity|]. split; [|exact H]. eauto 8.
  - destruct (run other_decimal r1 s g k) as [y|] eqn:E.
    + injection H as ->. apply IH1 in E.
      destruct E as (s1 & s2 & g' & -> & D1 & Hk).
      exists s1, s2, g'. cbn. auto.
    + apply IH2 in H. destruct H as (s1 & s2 & g' & -> & D2 & Hk).
      exists s1, s2, g'. cbn. auto.
  - apply IH1 in H. destruct H as (s1 & s2 & g1 & -> & D1 & Hk).
    exists s1, s2, ((name, s1) :: g1). cbn.
    split; [reflexivity|]. split; [eauto|].
    rewrite length_app, Nat.add_sub in Hk.
    rewrite firstn_app, Nat.sub_diag, firstn_all in Hk.
    cbn in Hk. now rewrite app_nil_r in Hk.
Qed.

Ltac open_denotes :=
  repeat match goal with
         | H : exists _, _ |- _ => destruct H
         | H : _ /\ _ |- _ => destruct H
         | H : _ \/ _ |- _ => destruct H
         end;
  subst.

(** The texts of the pattern of ["%d.%m.%Y"]: a day of one or two
    characters, a month of one or two, a year of four, with dots
    between, each closed as its group. *)
Lemma format_regex_shape (s : pystr) (found : groups) :
  denotes other_decimal format_regex s [] found ->
  exists D M Y,
    s = D ++ [dot] ++ M ++ [dot] ++ Y
    /\ found = [(char_Y, Y); (char_m, M); (char_d, D)]
    /\ (length D = 1 \/ length D = 2)
    /\ (length M = 1 \/ length M = 2)
    /\ length Y = 4.
Proof.
  unfold format_regex, directive_d, directive_m, directive_Y.
  cbn [denotes]. intros H. open_denotes;
    match goal with
    | |- exists D M Y, (?d ++ [dot] ++ ?m ++ [dot] ++ ?y) = _ /\ _ =>
        exists d, m, y
    end; cbn; auto 10.
Qed.

End DateFacts.

Lemma int_raises_value_error (other_decimal : N -> option Z) (t : pystr) :
  int other_decimal t = Raise ValueError
  \/ exists z, int other_decimal t = Return z.
Proof.
  unfold int. destruct (strip t) as [|c t']; [now left|].
  destruct (digits_value other_decimal 0 (c :: t')); eauto.
Qed.

(** C4 (as the code has it): "05.03.2021" gives 2021-03-05 and
    "2021-03-05" fails, but "5.3.2021" gives 2021-03-05 too.  Every
    input either fails with ValueError or gives a date; when it gives
    one the input is a day, a dot, a month, a dot and a year, the day
    and the month of one or two characters and the year of four, and the
    date is the one they write, at midnight: there is no fallback
    date. *)
Theorem date_format_outcomes (other_decimal : N -> option Z) (s : pystr) :
  unify_date_format other_decimal (str "05.03.2021")
  = Return (midnight 2021 3 5)
  /\ unify_date_format other_decimal (str "2021-03-05") = Raise ValueError
  /\ unify_date_format other_decimal (str "5.3.2021")
     = Return (midnight 2021 3 5)
  /\ (unify_date_format other_decimal s = Raise ValueError
      \/ exists dt, unify_date_format other_decimal s = Return dt)
  /\ (forall dt,
        unify_date_format other_decimal s = Return dt ->
        exists D M Y,
          s = D ++ [dot] ++ M ++ [dot] ++ Y
          /\ (length D = 1 \/ length D = 2)
          /\ (length M = 1 \/ length M = 2)
          /\ length Y = 4
          /\ int other_decimal D = Return (day dt)
          /\ int other_decimal M = Return (month dt)
          /\ int other_decimal Y = Return (year dt)
          /\ valid_date (year dt) (month dt) (day dt) = true
          /\ dt = midnight (year dt) (month dt) (day dt)).
Proof.
  split; [reflexivity|]. split; [reflexivity|]. split; [reflexivity|].
  unfold unify_date_format, strptime.
  destruct (match_ other_decimal format_regex s) as [[found rest]|] eqn:Em.
  2: { split; [now left | discriminate]. }
  destruct (nonempty rest) eqn:Er.
  1: { split; [now left | discriminate]. }
  destruct rest; [|discriminate]. clear Er.
  unfold match_ in Em. apply run_sound in Em.
  destruct Em as (s1 & s2 & g' & -> & Hden & Hk).
  injection Hk as -> ->. rewrite app_nil_r.
  apply format_regex_shape in Hden.
  destruct Hden as (D & M & Y & -> & -> & HD & HM & HY).
  cbn [group N.eqb char_d char_m char_Y Pos.eqb].
  split.
  - destruct (int_raises_value_error other_decimal D) as [->|[d ->]];
      [now left|]. cbn [bind].
    destruct (int_raises_value_error other_decimal M) as [->|[m ->]];
      [now left|]. cbn [bind].
    destruct (int_raises_value_error other_decimal Y) as [->|[y ->]];
      [now left|]. cbn [bind].
    destruct (valid_date y m d); eauto.
  - intros dt H. exists D, M, Y.
    destruct (int other_decimal D) as [d|]; [|discriminate]. cbn [bind] in H.
    destruct (int other_decimal M) as [m|]; [|discriminate]. cbn [bind] in H.
    destruct (int other_decimal Y) as [y|]; [|discriminate]. cbn [bind] in H.
    destruct (valid_date y m d) eqn:Ev; [|discriminate].
    injection H as <-. cbn. auto 12.
Qed.

(** C4 as stated fails: "5.3.2021" is not of the exact pattern, and
    still a date comes back for it. *)
Lemma one_digit_day_is_parsed :
  exact_pattern (str "5.3.2021") = false
  /\ exact_pattern (str "05.03.2021") = true
  /\ forall other_decimal,
       unify_date_format other_decimal (str "5.3.2021")
       = Return (midnight 2021 3 5).
Proof. split; [reflexivity|]. split; reflexivity. Qed.

(* ===================================================================== *)
(** ** Crawler.find_articles *)

Section FirstOccurrences.

Lemma first_occurrences_extends (stream acc : list pystr) :
  exists more, first_occurrences acc stream = acc ++ more.
Proof.
  unfold first_occurrences. revert acc.
  induction stream as [|u l IH]; intros acc; simpl.
  - exists []. now rewrite app_nil_r.
  - destruct (IH (note acc u)) as [more Hm]. rewrite Hm. unfold note.
    destruct (contains acc u); [now exists more|].
    exists (u :: more). now rewrite <- app_assoc.
Qed.

Lemma first_occurrences_NoDup (stream acc : list pystr) :
  NoDup acc -> NoDup (first_occurrences acc stream).
Proof.
  unfold first_occurrences. revert acc.
  induction stream as [|u l IH]; intros acc Hacc; simpl; [exact Hacc|].
  apply IH. unfold note. destruct (contains acc u) eqn:E; [exact Hacc|].
  apply NoDup_app; [exact Hacc | repeat constructor; intros [] |].
  intros x Hx [<-|[]]. apply contains_In in Hx. congruence.
Qed.

Lemma first_occurrences_app (acc l1 l2 : list pystr) :
  first_occurrences acc (l1 ++ l2)
  = first_occurrences (first_occurrences acc l1) l2.
Proof. unfold first_occurrences. apply fold_left_app. Qed.

Lemma capped_at_least (n : nat) (acc stream : list pystr) :
  n <= length acc ->
  firstn n (first_occurrences acc stream) = firstn n acc.
Proof.
  intros H. destruct (first_occurrences_extends stream acc) as [more ->].
  rewrite firstn_app.
  replace (n - length acc) with 0 by lia. simpl. apply app_nil_r.
Qed.

Lemma capped_at_most (n : nat) (acc stream : list pystr) :
  length acc <= n ->
  exists tail, firstn n (first_occurrences acc stream) = acc ++ tail.
Proof.
  intros H. destruct (first_occurrences_extends stream acc) as [more ->].
  rewrite firstn_app, firstn_all2 by exact H. eauto.
Qed.

Lemma capped_of_capped (n : nat) (acc stream : list pystr) :
  firstn n (first_occurrences (firstn n acc) stream)
  = firstn n (first_occurrences acc stream).
Proof.
  destruct (Nat.le_gt_cases (length acc) n) as [H|H].
  - now rewrite (@firstn_all2 _ n acc H).
  - rewrite (@capped_at_least n acc stream) by lia.
    rewrite capped_at_least.
    + rewrite firstn_firstn. now rewrite Nat.min_id.
    + rewrite length_firstn. lia.
Qed.

End FirstOccurrences.

Section ScanFacts.

Lemma cap_reached (self : Crawler.t) :
  (Z.of_nat (length (Crawler.urls self))
   >=? int_value (Config.get_num_articles (Crawler.config self)))%Z = true ->
  cap (Crawler.config self) <= length (Crawler.urls self).
Proof. unfold cap. rewrite Z.geb_leb. intros H. apply Z.leb_le in H. lia. Qed.

Lemma cap_not_reached (self : Crawler.t) :
  (Z.of_nat (length (Crawler.urls self))
   >=? int_value (Config.get_num_articles (Crawler.config self)))%Z = false ->
  length (Crawler.urls self) < cap (Crawler.config self).
Proof. unfold cap. rewrite Z.geb_leb. intros H. apply Z.leb_gt in H. lia. Qed.

(** At the cap the inner loop leaves at once. *)
Lemma scan_at_cap (self : Crawler.t) (found : list node) :
  (int_value (Config.get_num_articles (Crawler.config self))
   <= Z.of_nat (length (Crawler.urls self)))%Z ->
  Crawler.scan_headers self found = (self, None).
Proof.
  intros H. destruct found as [|header rest]; [reflexivity|].
  cbn [Crawler.scan_headers]. rewrite Z.geb_leb.
  apply Z.leb_le in H. now rewrite H.
Qed.

(** The inner loop keeps the first occurrences of what the headers
    offer, up to the cap. *)
Lemma scan_spec (found : list node) :
  forall (self self' : Crawler.t) (e : option exn),
    length (Crawler.urls self) <= cap (Crawler.config self) ->
    Crawler.scan_headers self found = (self', e) ->
    Crawler.config self' = Crawler.config self
    /\ exists tail,
         firstn (cap (Crawler.config self))
                (first_occurrences (Crawler.urls self)
                   (flat_map (offered (Crawler.config self)) found))
         = Crawler.urls self' ++ tail
         /\ (e = None -> tail = []).
Proof.
  induction found as [|header rest IH]; intros self self' e Hlen H;
    cbn [Crawler.scan_headers] in H.
  - injection H as <- <-. split; [reflexivity|]. exists [].
    rewrite app_nil_r. split; [|reflexivity]. now apply firstn_all2.
  - destruct (Z.of_nat (length (Crawler.urls self))
              >=? int_value (Config.get_num_articles (Crawler.config self)))%Z
      eqn:Ecap.
    + injection H as <- <-. split; [reflexivity|]. exists [].
      rewrite app_nil_r. split; [|reflexivity].
      rewrite capped_at_least by now apply cap_reached.
      now apply firstn_all2.
    + apply cap_not_reached in Ecap.
      cbn [flat_map]. unfold offered at 1.
      destruct (find header Crawler.a_with_href) as [a_tag|] eqn:Ef;
        [|now apply IH].
      destruct (find_is_tag _ _ Ef) as (n & a & k & ->).
      cbn [truth negb] in H.
      set (a_tag := Tag n a k) in *.
      change (Crawler._extract_url (Crawler.init (Crawler.config self)) a_tag)
        with (Crawler._extract_url self a_tag).
      destruct (Crawler._extract_url self a_tag) as [u|ex].
      * destruct (nonempty u); cbn [andb] in H; [|now apply IH].
        destruct (contains (Crawler.urls self) u) eqn:Ec; cbn [negb] in H.
        -- destruct (IH self self' e Hlen H) as [Hc [tail [Ht He]]].
           split; [exact Hc|]. exists tail. split; [|exact He].
           rewrite <- Ht. unfold first_occurrences. cbn [app fold_left].
           unfold note at 2. now rewrite Ec.
        -- destruct (IH (Crawler.append_url self u) self' e) as
             [Hc [tail [Ht He]]]; [|exact H|].
           { cbn. rewrite length_app. cbn. lia. }
           split; [exact Hc|]. exists tail. split; [|exact He].
           rewrite <- Ht. unfold first_occurrences. cbn [app fold_left].
           unfold note at 2. now rewrite Ec.
      * injection H as <- <-. split; [reflexivity|].
        destruct (@capped_at_most (cap (Crawler.config self))
                    (Crawler.urls self)
                    (flat_map (offered (Crawler.config self)) rest))
          as [tail Ht]; [exact Hlen|].
        exists tail. split; [exact Ht | discriminate].
Qed.

End ScanFacts.

Section VisitFacts.

Variable requests_get : network.
Variable lxml : pystr -> list node.

Abbreviation visit := (Crawler.visit_seeds requests_get lxml).

(** One turn of the outer loop, by what the fetch gives. *)
Lemma visit_step (self : Crawler.t) (sent : list Request)
  (seed_url : pystr) (rest : list pystr) :
  visit self sent (seed_url :: rest)
  = let rq := request_for (Crawler.config self) seed_url in
    match requests_get sent rq with
    | Raise e => (self, sent ++ [rq], Some e)
    | Return r =>
        if negb (ok r) then visit self (sent ++ [rq]) rest
        else
          match
            Crawler.scan_headers self
              (find_all
                 (BeautifulSoup lxml
                    (decoded r (Config.get_encoding (Crawler.config self))))
                 Crawler.h3)
          with
          | (self', Some e) => (self', sent ++ [rq], Some e)
          | (self', None) => visit self' (sent ++ [rq]) rest
          end
    end.
Proof.
  cbn [Crawler.visit_seeds make_request]. unfold request_for. cbv zeta.
  destruct (requests_get sent _) as [r|e]; reflexivity.
Qed.

Lemma discovered_step (cfg : Config.t) (sent : list Request)
  (seed_url : pystr) (rest : list pystr) :
  discovered requests_get lxml cfg sent (seed_url :: rest)
  = let rq := request_for cfg seed_url in
    match requests_get sent rq with
    | Raise _ => []
    | Return r =>
        (if ok r
         then page_stream cfg
                (BeautifulSoup lxml (decoded r (Config.get_encoding cfg)))
         else [])
        ++ discovered requests_get lxml cfg (sent ++ [rq]) rest
    end.
Proof.
  cbn [discovered make_request]. unfold request_for. cbv zeta.
  destruct (requests_get sent _) as [r|e]; reflexivity.
Qed.

(** The outer loop over two lists of seeds in a row. *)
Lemma visit_app (before after : list pystr) :
  forall (self : Crawler.t) (sent : list Request),
    visit self sent (before ++ after)
    = match visit self sent before with
      | (self1, sent1, None) => visit self1 sent1 after
      | stopped => stopped
      end.
Proof.
  induction before as [|seed_url rest IH]; intros self sent;
    [reflexivity|].
  cbn [app]. rewrite !visit_step. cbv zeta.
  destruct (requests_get sent _) as [r|e]; [|reflexivity].
  destruct (negb (ok r)); [apply IH|].
  destruct (Crawler.scan_headers self _) as [self' [e|]];
    [reflexivity | apply IH].
Qed.

(** At the cap the outer loop changes nothing in the crawler, fetches
    every seed while no fetch raises, and raises only what a fetch
    raised. *)
Lemma visit_at_cap (seeds : list pystr) :
  forall (self : Crawler.t) (sent : list Request),
    (int_value (Config.get_num_articles (Crawler.config self))
     <= Z.of_nat (length (Crawler.urls self)))%Z ->
    exists n e,
      visit self sent seeds
      = (self,
         sent ++ List.map (request_for (Crawler.config self)) (firstn n seeds),
         e)
      /\ n <= length seeds
      /\ (e = None -> n = length seeds)
      /\ (forall x, e = Some x ->
            exists past rq, requests_get past rq = Raise x).
Proof.
  induction seeds as [|seed_url rest IH]; intros self sent Hcap.
  - exists 0, None. cbn. rewrite app_nil_r.
    repeat split; auto; discriminate.
  - rewrite visit_step. cbv zeta.
    destruct (requests_get sent _) as [r|x] eqn:Eget.
    + assert (Hnext :
        (if negb (ok r)
         then visit self
                (sent ++ [request_for (Crawler.config self) seed_url]) rest
         else
           match
             Crawler.scan_headers self
               (find_all
                  (BeautifulSoup lxml
                     (decoded r
                        (Config.get_encoding (Crawler.config self))))
                  Crawler.h3)
           with
           | (self', Some e) =>
               (self', sent ++ [request_for (Crawler.config self) seed_url],
                Some e)
           | (self', None) =>
               visit self'
                 (sent ++ [request_for (Crawler.config self) seed_url]) rest
           end)
        = visit self
            (sent ++ [request_for (Crawler.config self) seed_url]) rest).
      { destruct (negb (ok r)); [reflexivity|].
        now rewrite scan_at_cap. }
      rewrite Hnext.
      destruct (IH self
                  (sent ++ [request_for (Crawler.config self) seed_url])
                  Hcap) as (n & e & Hv & Hn & Hall & Hex).
      exists (S n), e. rewrite Hv. cbn [firstn List.map length].
      rewrite <- app_assoc. cbn [app].
      repeat split; auto; lia.
    + exists 1, (Some x). cbn [firstn List.map length].
      repeat split; try discriminate; try lia.
      intros y Hy. injection Hy as <-. eauto.
Qed.

(** The outer loop keeps the first occurrences of what the seeds
    offer, up to the cap. *)
Lemma visit_spec (seeds : list pystr) :
  forall (self self' : Crawler.t) (sent sent' : list Request)
         (e : option exn),
    length (Crawler.urls self) <= cap (Crawler.config self) ->
    visit self sent seeds = (self', sent', e) ->
    Crawler.config self' = Crawler.config self
    /\ exists tail,
         firstn (cap (Crawler.config self))
                (first_occurrences (Crawler.urls self)
                   (discovered requests_get lxml (Crawler.config self)
                      sent seeds))
         = Crawler.urls self' ++ tail
         /\ (e = None -> tail = []).
Proof.
  induction seeds as [|seed_url rest IH];
    intros self self' sent sent' e Hlen H.
  - injection H as <- <- <-. split; [reflexivity|]. exists [].
    rewrite app_nil_r. split; [|reflexivity]. now apply firstn_all2.
  - rewrite visit_step in H. rewrite discovered_step. cbv zeta in *.
    destruct (requests_get sent _) as [r|x].
    + destruct (ok r); cbn [negb] in H; [|now apply (IH _ _ _ _ _ Hlen H)].
      destruct (Crawler.scan_headers self _) as [self1 e1] eqn:Escan.
      destruct (scan_spec _ _ Hlen Escan) as [Hc1 [tail1 [Ht1 He1]]].
      fold (page_stream (Crawler.config self)
              (BeautifulSoup lxml
                 (decoded r (Config.get_encoding (Crawler.config self)))))
        in Ht1.
      rewrite first_occurrences_app.
      destruct e1 as [x|].
      * injection H as <- <- <-. split; [exact Hc1|].
        match goal with
        | |- context [first_occurrences (first_occurrences ?a ?l) ?m] =>
            destruct (first_occurrences_extends m (first_occurrences a l))
              as [more ->]
        end.
        rewrite firstn_app, Ht1, <- app_assoc. eexists. split;
          [reflexivity | discriminate].
      * rewrite (He1 eq_refl), app_nil_r in Ht1.
        assert (Hlen1 : length (Crawler.urls self1) <= cap (Crawler.config self1)).
        { rewrite Hc1, <- Ht1, length_firstn. lia. }
        destruct (IH _ _ _ _ _ Hlen1 H) as [Hc [tail [Ht He]]].
        split; [congruence|]. exists tail. split; [|exact He].
        rewrite <- Ht, Hc1, <- Ht1. symmetry. apply capped_of_capped.
    + injection H as <- <- <-. split; [reflexivity|]. exists [].
      rewrite app_nil_r. split; [|discriminate]. now apply firstn_all2.
Qed.

End VisitFacts.

Lemma init_count_in_range (data : ConfigDTO) (cfg : Config.t) :
  Config.init data = Return cfg ->
  (1 <= int_value (Config.get_num_articles cfg) <= 150)%Z.
Proof.
  unfold Config.init. intros H.
  destruct (Config._validate_config_content data) eqn:Hv; [discriminate|].
  injection H as <-. cbn.
  destruct (validated_rest data Hv) as (_ & _ & _ & _ & Hn & Hm).
  apply orb_false_iff in Hn. destruct Hn as [_ Hn].
  apply Z.leb_gt in Hn. rewrite Z.gtb_ltb in Hm. apply Z.ltb_ge in Hm. lia.
Qed.

(** C6: for a configuration that [Config] has accepted, the URLs that
    [find_articles] leaves in a fresh crawler are at most the configured
    count, hold no string twice, and stand in first-discovered order:
    they are a prefix of the first occurrences of the URLs that the
    seeds offer, cut at the count, and all of them when no exception was
    raised. *)
Theorem discovered_urls_capped_distinct_ordered
  (requests_get : network) (lxml : pystr -> list node)
  (data : ConfigDTO) (cfg : Config.t) (sent : list Request)
  (Hconfig : Config.init data = Return cfg) :
  let run := Crawler.find_articles requests_get lxml (Crawler.init cfg) sent in
  let found := Crawler.urls (fst (fst run)) in
  (Z.of_nat (length found) <= int_value (Config.get_num_articles cfg))%Z
  /\ NoDup found
  /\ exists tail,
       firstn (cap cfg)
              (first_occurrences []
                 (discovered requests_get lxml cfg sent
                    (Config.get_seed_urls cfg)))
       = found ++ tail
       /\ (snd run = None -> tail = []).
Proof.
  cbv zeta. unfold Crawler.find_articles.
  destruct (Crawler.visit_seeds requests_get lxml (Crawler.init cfg) sent
              (Crawler.get_search_urls (Crawler.init cfg)))
    as [[self' sent'] e] eqn:Hrun.
  cbn [fst snd].
  apply visit_spec in Hrun; [|cbn; lia].
  destruct Hrun as [_ [tail [Ht He]]].
  cbn [Crawler.init Crawler.config Crawler.urls] in Ht.
  change (Crawler.get_search_urls (Crawler.init cfg))
    with (Config.get_seed_urls cfg) in *.
  pose proof (init_count_in_range _ Hconfig) as Hrange.
  assert (Hlen : length (Crawler.urls self' ++ tail) <= cap cfg).
  { rewrite <- Ht, length_firstn. lia. }
  assert (Hnd : NoDup (Crawler.urls self' ++ tail)).
  { rewrite <- Ht.
    match goal with
    | |- NoDup (firstn ?n ?l) =>
        assert (Hl : NoDup l) by (apply first_occurrences_NoDup; constructor);
        rewrite <- (firstn_skipn n l) in Hl;
        exact (NoDup_app_remove_r _ _ Hl)
    end. }
  split; [|split].
  - rewrite length_app in Hlen. unfold cap in Hlen. lia.
  - exact (NoDup_app_remove_r _ _ Hnd).
  - exists tail. split; [exact Ht | exact He].
Qed.

Lemma discovered_urls_capped_distinct_ordered_witness :
  let found :=
    Crawler.urls
      (fst (fst (Crawler.find_articles always_ok
                   (sample_lxml [link_a; link_b; link_a])
                   (sample_crawler 2 [seed_one; seed_two]) []))) in
  (Z.of_nat (length found) <= 2)%Z /\ NoDup found.
Proof.
  assert (H : Config.init (sample_data 2 [seed_one; seed_two])
              = Return (Crawler.config
                          (sample_crawler 2 [seed_one; seed_two])))
    by reflexivity.
  destruct (@discovered_urls_capped_distinct_ordered always_ok
              (sample_lxml [link_a; link_b; link_a]) _ _ [] H)
    as (Hbound & Hnodup & _).
  split; [exact Hbound | exact Hnodup].
Defined.

(** C1 (as the code has it): once the seeds visited so far have brought
    the list to the configured count, the rest of the run adds no URL,
    but it still fetches the remaining seeds, one request each in
    configuration order, until the last one or until a fetch raises,
    which is the only exception left. *)
Theorem cap_ends_appending_not_fetching
  (requests_get : network) (lxml : pystr -> list node)
  (self self1 : Crawler.t) (sent sent1 : list Request)
  (before after : list pystr)
  (Hbefore : Crawler.visit_seeds requests_get lxml self sent before
             = (self1, sent1, None))
  (Hcap : (int_value (Config.get_num_articles (Crawler.config self1))
           <= Z.of_nat (length (Crawler.urls self1)))%Z) :
  exists n e,
    Crawler.visit_seeds requests_get lxml self sent (before ++ after)
    = (self1,
       sent1 ++ List.map (request_for (Crawler.config self1)) (firstn n after),
       e)
    /\ n <= length after
    /\ (e = None -> n = length after)
    /\ (forall x, e = Some x ->
          exists past rq, requests_get past rq = Raise x).
Proof.
  rewrite visit_app, Hbefore. now apply visit_at_cap.
Qed.

Lemma cap_ends_appending_not_fetching_witness :
  exists n e,
    Crawler.visit_seeds always_ok (sample_lxml [link_a])
      (sample_crawler 1 [seed_one; seed_two]) [] ([seed_one] ++ [seed_two])
    = (with_urls (sample_crawler 1 [seed_one; seed_two]) [link_a],
       [request_for (Crawler.config (sample_crawler 1 [seed_one; seed_two]))
          seed_one]
       ++ List.map
            (request_for (Crawler.config (sample_crawler 1 [seed_one; seed_two])))
            (firstn n [seed_two]),
       e)
    /\ n <= length [seed_two]
    /\ (e = None -> n = length [seed_two])
    /\ (forall x, e = Some x -> exists past rq, always_ok past rq = Raise x).
Proof.
  apply (@cap_ends_appending_not_fetching always_ok (sample_lxml [link_a])
           (sample_crawler 1 [seed_one; seed_two])
           (with_urls (sample_crawler 1 [seed_one; seed_two]) [link_a])
           []
           [request_for
              (Crawler.config (sample_crawler 1 [seed_one; seed_two]))
              seed_one]
           [seed_one] [seed_two]).
  - reflexivity.
  - cbn. lia.
Defined.

(** C1 as stated fails: with a count of 1 the first seed fills the list,
    and the second seed is fetched all the same. *)
Lemma seed_fetched_after_cap :
  Crawler.visit_seeds always_ok (sample_lxml [link_a])
    (sample_crawler 1 [seed_one; seed_two]) [] [seed_one]
  = (with_urls (sample_crawler 1 [seed_one; seed_two]) [link_a],
     [request_for (Crawler.config (sample_crawler 1 [seed_one; seed_two]))
        seed_one],
     None)
  /\ List.map url
       (snd (fst (Crawler.find_articles always_ok (sample_lxml [link_a])
                    (sample_crawler 1 [seed_one; seed_two]) [])))
     = [seed_one; seed_two].
Proof. split; reflexivity. Qed.

(** C2 (as the code has it): a fetch that raises ends the discovery
    there: the exception leaves [find_articles], the URLs found so far
    stay in the crawler and no later seed is fetched.  A seed is skipped,
    and the discovery goes on with the next, when its response is not
    ok. *)
Theorem transport_failure_ends_discovery
  (requests_get : network) (lxml : pystr -> list node)
  (self self1 : Crawler.t) (sent sent1 : list Request)
  (before after : list pystr) (seed_url : pystr)
  (Hbefore : Crawler.visit_seeds requests_get lxml self sent before
             = (self1, sent1, None)) :
  let rq := request_for (Crawler.config self1) seed_url in
  (forall e,
     requests_get sent1 rq = Raise e ->
     Crawler.visit_seeds requests_get lxml self sent
       (before ++ seed_url :: after)
     = (self1, sent1 ++ [rq], Some e))
  /\ (forall r,
        requests_get sent1 rq = Return r -> ok r = false ->
        Crawler.visit_seeds requests_get lxml self sent
          (before ++ seed_url :: after)
        = Crawler.visit_seeds requests_get lxml self1 (sent1 ++ [rq]) after).
Proof.
  cbv zeta. split.
  - intros e He. rewrite visit_app, Hbefore, visit_step. cbv zeta.
    now rewrite He.
  - intros r Hr Hok. rewrite visit_app, Hbefore, visit_step. cbv zeta.
    now rewrite Hr, Hok.
Qed.

Lemma transport_failure_ends_discovery_witness :
  Crawler.visit_seeds (fails_for seed_two) (sample_lxml [link_a])
    (sample_crawler 5 [seed_one; seed_two; seed_one]) []
    ([seed_one] ++ seed_two :: [seed_one])
  = (with_urls (sample_crawler 5 [seed_one; seed_two; seed_one]) [link_a],
     [request_for
        (Crawler.config (sample_crawler 5 [seed_one; seed_two; seed_one]))
        seed_one;
      request_for
        (Crawler.config (sample_crawler 5 [seed_one; seed_two; seed_one]))
        seed_two],
     Some RequestException).
Proof.
  refine (proj1 (@transport_failure_ends_discovery (fails_for seed_two)
                   (sample_lxml [link_a])
                   (sample_crawler 5 [seed_one; seed_two; seed_one])
                   (with_urls (sample_crawler 5 [seed_one; seed_two; seed_one])
                              [link_a])
                   []
                   [request_for
                      (Crawler.config
                         (sample_crawler 5 [seed_one; seed_two; seed_one]))
                      seed_one]
                   [seed_one] [seed_one] seed_two _)
                RequestException _); reflexivity.
Defined.

(** C2 as stated fails: when the fetch of the first seed raises, the
    exception leaves [find_articles] and the second seed, which would
    have answered, is never fetched. *)
Lemma failed_seed_aborts_discovery :
  Crawler.find_articles (fails_for seed_one) (sample_lxml [link_a])
    (sample_crawler 5 [seed_one; seed_two]) []
  = (sample_crawler 5 [seed_one; seed_two],
     [request_for (Crawler.config (sample_crawler 5 [seed_one; seed_two]))
        seed_one],
     Some RequestException)
  /\ fails_for seed_one
       [request_for (Crawler.config (sample_crawler 5 [seed_one; seed_two]))
          seed_one]
       (request_for (Crawler.config (sample_crawler 5 [seed_one; seed_two]))
          seed_two)
     = Return sample_response.
Proof. split; reflexivity. Qed.

(* ===================================================================== *)
(** ** Config: what validation accepts and what it reports *)

Section ValidationFacts.

Lemma typed_seeds_pass (seeds : list pystr) :
  Forall (fun u => startswith_any u Config.http_schemes = true) seeds ->
  existsb (fun url => negb (isinstance_str url)
                      || negb (startswith_any (as_str url) Config.http_schemes))
          (List.map PyStr seeds) = false.
Proof.
  induction 1 as [|u l Hu _ IH]; [reflexivity|].
  cbn [List.map existsb isinstance_str as_str negb orb]. now rewrite Hu, IH.
Qed.

Lemma pyint_round_trip (i : pyint) :
  isinstance_int (of_pyint i) = true /\ as_pyint (of_pyint i) = i.
Proof. destruct i; split; reflexivity. Qed.

Lemma attributes_validate (c : Config.t) :
  in_range c -> Config._validate_config_content (Config.attributes c) = None.
Proof.
  intros (Hseeds & Hcount & Htime).
  unfold Config.get_seed_urls in Hseeds.
  unfold Config._validate_config_content, Config.attributes.
  cbn [seed_urls total_articles headers encoding timeout
       should_verify_certificate headless_mode
       isinstance_list isinstance_dict isinstance_str isinstance_bool
       as_list negb orb].
  rewrite (@typed_seeds_pass _ Hseeds).
  destruct (pyint_round_trip (Config._num_articles c)) as [-> ->].
  destruct (pyint_round_trip (Config._timeout c)) as [-> ->].
  unfold Config.get_num_articles, Config.get_timeout in *.
  cbn [negb orb].
  replace (int_value (Config._num_articles c) <=? 0)%Z with false
    by (symmetry; apply Z.leb_gt; lia).
  replace (int_value (Config._num_articles c) >? 150)%Z with false
    by (symmetry; rewrite Z.gtb_ltb; apply Z.ltb_ge; lia).
  replace (0 <? int_value (Config._timeout c))%Z with true
    by (symmetry; apply Z.ltb_lt; lia).
  replace (int_value (Config._timeout c) <? 60)%Z with true
    by (symmetry; apply Z.ltb_lt; lia).
  reflexivity.
Qed.

Lemma init_timeout_in_range (data : ConfigDTO) (cfg : Config.t) :
  Config.init data = Return cfg ->
  (0 < int_value (Config.get_timeout cfg) < 60)%Z.
Proof.
  unfold Config.init. intros H.
  destruct (Config._validate_config_content data) eqn:Hv; [discriminate|].
  injection H as <-. cbn.
  destruct (validated_rest data Hv) as (_ & _ & Ht & _).
  apply orb_false_iff in Ht. destruct Ht as [_ Ht].
  apply negb_false_iff in Ht. apply andb_true_iff in Ht.
  destruct Ht as [H0 H60]. apply Z.ltb_lt in H0. apply Z.ltb_lt in H60. lia.
Qed.

Lemma init_in_range (data : ConfigDTO) (cfg : Config.t) :
  Config.init data = Return cfg -> in_range cfg.
Proof.
  intros H. split; [|split].
  - exact (init_seeds_have_scheme _ H).
  - exact (init_count_in_range _ H).
  - exact (init_timeout_in_range _ H).
Qed.

Lemma validated_init (data : ConfigDTO) :
  Config._validate_config_content data = None ->
  exists c, Config.init data = Return c.
Proof. unfold Config.init. intros ->. eauto. Qed.

Lemma attributes_injective (c c' : Config.t) :
  Config.attributes c = Config.attributes c' -> c = c'.
Proof.
  destruct c as [s n h e t v m], c' as [s' n' h' e' t' v' m'].
  unfold Config.attributes. cbn. intros H.
  injection H as Hs Hn Hh He Ht Hv Hm. subst.
  assert (s = s').
  { revert s' Hs. induction s as [|x s IH]; intros [|x' s'] Hs;
      try discriminate; trivial.
    cbn in Hs. injection Hs as -> Hs. f_equal. now apply IH. }
  assert (n = n') by (destruct n, n'; cbn in Hn; congruence).
  assert (t = t') by (destruct t, t'; cbn in Ht; congruence).
  now subst.
Qed.

Lemma seeds_refused (data : ConfigDTO) :
  seeds_accepted data = false ->
  Config._validate_config_content data = Some IncorrectSeedURLError.
Proof.
  unfold seeds_accepted, Config._validate_config_content. intros H.
  destruct (isinstance_list (seed_urls data)); [|reflexivity].
  cbn [negb andb] in *.
  assert (E : existsb
                (fun url => negb (isinstance_str url)
                            || negb (startswith_any (as_str url)
                                       Config.http_schemes))
                (as_list (seed_urls data)) = true).
  { induction (as_list (seed_urls data)) as [|u l IH]; [discriminate|].
    cbn [forallb existsb] in *. apply andb_false_iff in H.
    destruct H as [H|H].
    - apply andb_false_iff in H. destruct H as [->| ->]; reflexivity
        || (cbn; now rewrite orb_true_r).
    - rewrite (IH H). apply orb_true_r. }
  now rewrite E.
Qed.

End ValidationFacts.

(** X1: validation passes for exactly the configuration files whose
    values are those of a [Config] in range: a list of seed strings that
    each start with http:// or https://, an integer or boolean count
    from 1 to 150, a dictionary of headers, a string encoding, an
    integer or boolean timeout strictly between 0 and 60, and two
    booleans. *)
Theorem validation_accepts_exactly (data : ConfigDTO) :
  Config._validate_config_content data = None
  <-> exists c, Config.attributes c = data /\ in_range c.
Proof.
  split.
  - intros H. destruct (validated_init data H) as [c Hc]. exists c.
    split; [exact (@init_keeps_values _ _ Hc) | exact (@init_in_range _ _ Hc)].
  - intros [c [<- Hc]]. now apply attributes_validate.
Qed.

(** X2: [Config.__init__] and the attributes of the object are inverse
    to each other: the object built from a file holds the values of the
    file, unchanged and in range, and building from the attributes of an
    object in range gives that object back. *)
Theorem init_attributes_round_trip (data : ConfigDTO) (c : Config.t) :
  (Config.init data = Return c -> Config.attributes c = data /\ in_range c)
  /\ (in_range c -> Config.init (Config.attributes c) = Return c).
Proof.
  split.
  - intros H. split; [exact (@init_keeps_values _ _ H) | exact (@init_in_range _ _ H)].
  - intros H. pose proof (@attributes_validate _ H) as Hv.
    destruct (validated_init _ Hv) as [c' Hc'].
    rewrite Hc'. f_equal. apply attributes_injective.
    exact (@init_keeps_values _ _ Hc').
Qed.

(** X3: validation reports IncorrectSeedURLError exactly when the seed
    list is not a list or holds an entry that is not a string starting
    with http:// or https://, whatever the other values are; one such
    entry anywhere in the list is enough. *)
Theorem seed_error_exactly (data : ConfigDTO) :
  (Config._validate_config_content data = Some IncorrectSeedURLError
   <-> seeds_accepted data = false)
  /\ (isinstance_list (seed_urls data) = false ->
      Config._validate_config_content data = Some IncorrectSeedURLError)
  /\ (forall before bad after,
        seed_urls data = PyList (before ++ bad :: after) ->
        bad_seed bad = true ->
        Config._validate_config_content data = Some IncorrectSeedURLError).
Proof.
  split; [split|split].
  - intros H. destruct (seeds_accepted data) eqn:E; [|reflexivity].
    rewrite (validate_after_seeds data E) in H.
    repeat match type of H with
           | (if ?c then _ else _) = _ => destruct c
           end; discriminate.
  - apply seeds_refused.
  - intros H. apply seeds_refused. unfold seeds_accepted. now rewrite H.
  - intros before bad after Hl Hbad. apply seeds_refused.
    unfold seeds_accepted. rewrite Hl. cbn [isinstance_list as_list andb].
    rewrite forallb_app. cbn [forallb]. unfold bad_seed in Hbad.
    replace (isinstance_str bad
             && startswith_any (as_str bad) Config.http_schemes)
      with false.
    + cbn. apply andb_false_r.
    + apply orb_true_iff in Hbad.
      destruct Hbad as [H|H]; apply negb_true_iff in H; rewrite H;
        [reflexivity | symmetry; apply andb_false_r].
Qed.

(** X4: in a configuration that passes, replacing the timeout leaves it
    passing exactly when the new value is an integer or boolean
    strictly between 0 and 60; any other value is reported as
    IncorrectTimeoutError.  The bounds 0 and 60 are refused, 1 and 59
    pass, False is refused and a string is refused. *)
Theorem timeout_bounds (data : ConfigDTO) (v : value)
  (Hvalid : Config._validate_config_content data = None) :
  Config._validate_config_content (with_timeout data v)
  = (if timeout_accepted v then None else Some IncorrectTimeoutError)
  /\ timeout_accepted (PyInt 0) = false
  /\ timeout_accepted (PyInt 60) = false
  /\ timeout_accepted (PyInt 1) = true
  /\ timeout_accepted (PyInt 59) = true
  /\ timeout_accepted (PyBool false) = false
  /\ timeout_accepted (PyStr (str "5")) = false.
Proof.
  split; [|repeat split; reflexivity].
  pose proof (validated_seeds_accepted data Hvalid) as Hs.
  destruct (validated_rest data Hvalid) as (Hh & He & _ & Hb & Hn & Hm).
  rewrite validate_after_seeds by exact Hs.
  cbn [total_articles headers encoding timeout should_verify_certificate
       headless_mode with_timeout].
  rewrite Hn, Hm, Hh, He, Hb. cbn [negb]. unfold timeout_accepted.
  destruct (isinstance_int v); cbn [negb orb andb]; [|reflexivity].
  destruct ((0 <? int_value (as_pyint v))%Z
            && (int_value (as_pyint v) <? 60)%Z); reflexivity.
Qed.

Lemma timeout_bounds_witness :
  Config._validate_config_content (sample_config (PyInt 3)) = None
  /\ Config._validate_config_content
       (with_timeout (sample_config (PyInt 3)) (PyInt 60))
     = Some IncorrectTimeoutError.
Proof.
  split; [reflexivity|].
  exact (proj1 (@timeout_bounds (sample_config (PyInt 3)) (PyInt 60) eq_refl)).
Defined.

(* ===================================================================== *)
(** ** Crawler: what the URLs and the requests of a run are *)

Section TreeFacts.

Lemma descendants_trans (n : node) :
  forall h a, In h (descendants n) -> In a (descendants h) ->
              In a (descendants n).
Proof.
  induction n as [name attrs contents IH|s|s] using node_induction;
    intros h a Hh Ha; cbn [descendants] in *; try contradiction.
  apply in_flat_map in Hh. destruct Hh as [c [Hc Hin]].
  apply in_flat_map. exists c. split; [exact Hc|].
  destruct Hin as [<-|Hin]; [now right|].
  right. rewrite Forall_forall in IH. exact (IH c Hc h a Hin Ha).
Qed.

Lemma find_all_descendant (n : node) (c : criteria) (x : node) :
  In x (find_all n c) -> In x (descendants n).
Proof. unfold find_all. intros H. apply filter_In in H. tauto. Qed.

Lemma find_descendant (n : node) (c : criteria) (x : node) :
  find n c = Some x -> In x (descendants n).
Proof.
  unfold find. intros H. apply find_all_descendant with (c := c).
  destruct (find_all n c); [discriminate|].
  injection H as ->. now left.
Qed.

End TreeFacts.

Section ExtractionFacts.

Lemma before_third_slash_absolute (base h : pystr) :
  startswith_any base Config.http_schemes = true ->
  startswith_any (before_third_slash base ++ h) Config.http_schemes = true.
Proof.
  unfold startswith_any, Config.http_schemes. cbn [existsb].
  rewrite !orb_false_r. intros H. apply orb_true_iff in H.
  destruct H as [H|H]; apply startswith_app in H; destruct H as [t ->].
  - unfold before_third_slash. cbn. reflexivity.
  - unfold before_third_slash. cbn. reflexivity.
Qed.

Lemma normalized_absolute (self : Crawler.t) (h : pystr) :
  Forall (fun u => startswith_any u Config.http_schemes = true)
         (Config.get_seed_urls (Crawler.config self)) ->
  normalized self h = []
  \/ startswith_any (normalized self h) Config.http_schemes = true.
Proof.
  intros Hseeds. unfold normalized.
  destruct (startswith_any h Config.http_schemes) eqn:E; [now right|].
  destruct (Config.get_seed_urls (Crawler.config self)) as [|base rest];
    [now left|].
  right. inversion Hseeds; subst. now apply before_third_slash_absolute.
Qed.

(** What [_extract_url] gives for a tag under seeds with a scheme. *)
Lemma extract_url_cases (self : Crawler.t) (name : pystr)
  (attrs : list (pystr * value)) (contents : list node) :
  Forall (fun u => startswith_any u Config.http_schemes = true)
         (Config.get_seed_urls (Crawler.config self)) ->
  (lookup Crawler.href attrs = Some (PyList [])
   /\ Crawler._extract_url self (Tag name attrs contents) = Raise IndexError)
  \/ exists u,
       Crawler._extract_url self (Tag name attrs contents) = Return u
       /\ (u = [] \/ startswith_any u Config.http_schemes = true).
Proof.
  intros Hseeds.
  assert (Hstr : forall h,
     exists u,
       (if negb (nonempty h) then Return []
        else if startswith_any h Config.http_schemes then Return h
        else
          match Config.get_seed_urls (Crawler.config self) with
          | [] => Return []
          | base :: _ =>
              part0 <- item (split_char Crawler.slash base) 0 ;;
              part2 <- item (split_char Crawler.slash base) 2 ;;
              Return ((part0 ++ Crawler.double_slash ++ part2) ++ h)
          end) = Return u
       /\ (u = [] \/ startswith_any u Config.http_schemes = true)).
  { intros h. pose proof (extract_url_of_string self h Hseeds) as Hex.
    match type of Hex with
    | match ?e with _ => _ end =>
        destruct e as [u|e'] eqn:E; [|contradiction]
    end.
    exists u. split; [reflexivity|]. subst u.
    destruct (nonempty h); [now apply normalized_absolute | now left]. }
  unfold Crawler._extract_url. cbn [get bind].
  destruct (lookup Crawler.href attrs) as [v|];
    [|right; exists []; cbn [bind]; auto].
  destruct v as [| b | z | f | h | items | d];
    try (right; exists []; cbn [bind]; auto; fail).
  - right. cbn [bind]. apply Hstr.
  - destruct items as [|x more]; [left; auto|].
    right. cbn [item nth_error bind].
    destruct x as [| b | z | f | h | items' | d];
      try (exists []; auto; fail).
    apply Hstr.
Qed.

End ExtractionFacts.

(** X5: under a configuration that [Config] has accepted, every URL that
    [_extract_url] returns for a tag is empty or starts with http:// or
    https://: a relative href never comes back relative. *)
Theorem extracted_url_absolute_or_empty (data : ConfigDTO)
  (self : Crawler.t) (name : pystr) (attrs : list (pystr * value))
  (contents : list node) (u : pystr)
  (Hconfig : Config.init data = Return (Crawler.config self))
  (Hrun : Crawler._extract_url self (Tag name attrs contents) = Return u) :
  u = [] \/ startswith_any u Config.http_schemes = true.
Proof.
  pose proof (init_seeds_have_scheme _ Hconfig) as Hseeds.
  destruct (extract_url_cases self name attrs contents Hseeds)
    as [[_ Hr]|[u' [Hr Hu]]]; rewrite Hr in Hrun.
  - discriminate.
  - injection Hrun as <-. exact Hu.
Qed.

Lemma extracted_url_absolute_or_empty_witness :
  str "https://example.com/b" = []
  \/ startswith_any (str "https://example.com/b") Config.http_schemes = true.
Proof.
  apply (@extracted_url_absolute_or_empty
           (sample_data 5 [seed_one])
           (sample_crawler 5 [seed_one])
           (str "a") [(Crawler.href, PyStr link_b)] []
           (str "https://example.com/b"));
    reflexivity.
Defined.

Section RunFacts.

Variable requests_get : network.
Variable lxml : pystr -> list node.

Abbreviation run_seeds := (Crawler.visit_seeds requests_get lxml).

Lemma first_occurrences_incl (stream acc : list pystr) :
  exists more,
    first_occurrences acc stream = acc ++ more /\ incl more stream.
Proof.
  unfold first_occurrences. revert acc.
  induction stream as [|u l IH]; intros acc; cbn [fold_left].
  - exists []. split; [now rewrite app_nil_r | intros x []].
  - destruct (IH (note acc u)) as [more [Hm Hi]]. rewrite Hm. unfold note.
    destruct (contains acc u).
    + exists more. split; [reflexivity | now apply incl_tl].
    + exists (u :: more). split; [now rewrite <- app_assoc|].
      intros x [<-|Hx]; [now left | right; now apply Hi].
Qed.

(** The inner loop keeps the configuration and only appends. *)
Lemma scan_extends (found : list node) :
  forall (self self' : Crawler.t) (e : option exn),
    Crawler.scan_headers self found = (self', e) ->
    Crawler.config self' = Crawler.config self
    /\ exists added, Crawler.urls self' = Crawler.urls self ++ added.
Proof.
  induction found as [|header rest IH]; intros self self' e H;
    cbn [Crawler.scan_headers] in H.
  - injection H as <- <-. split; [reflexivity|]. exists [].
    now rewrite app_nil_r.
  - destruct (Z.of_nat (length (Crawler.urls self)) >=? _)%Z.
    { injection H as <- <-. split; [reflexivity|]. exists [].
      now rewrite app_nil_r. }
    destruct (find header Crawler.a_with_href) as [a_tag|]; [|exact (IH _ _ _ H)].
    destruct (negb (truth a_tag)); [exact (IH _ _ _ H)|].
    destruct (Crawler._extract_url self a_tag) as [u|x].
    + destruct (nonempty u && negb (contains (Crawler.urls self) u));
        [|exact (IH _ _ _ H)].
      apply IH in H. destruct H as [Hc [added Ha]].
      split; [exact Hc|]. exists (u :: added). rewrite Ha. cbn.
      now rewrite <- app_assoc.
    + injection H as <- <-. split; [reflexivity|]. exists [].
      now rewrite app_nil_r.
Qed.

(** An exception of the inner loop is one that [_extract_url] raised
    for the first anchor of some header. *)
Lemma scan_raises (found : list node) :
  forall (self self' : Crawler.t) (x : exn),
    Crawler.scan_headers self found = (self', Some x) ->
    exists header a_tag,
      In header found
      /\ find header Crawler.a_with_href = Some a_tag
      /\ Crawler._extract_url (Crawler.init (Crawler.config self)) a_tag
         = Raise x.
Proof.
  induction found as [|header rest IH]; intros self self' x H;
    cbn [Crawler.scan_headers] in H; [discriminate|].
  assert (Hrest : forall s : Crawler.t,
            Crawler.config s = Crawler.config self ->
            Crawler.scan_headers s rest = (self', Some x) ->
            exists header0 a_tag,
              In header0 (header :: rest)
              /\ find header0 Crawler.a_with_href = Some a_tag
              /\ Crawler._extract_url (Crawler.init (Crawler.config self))
                   a_tag = Raise x).
  { intros s Hs Hrun. destruct (IH _ _ _ Hrun) as (h & a & Hin & Hf & Hx).
    exists h, a. rewrite <- Hs. split; [now right | now split]. }
  destruct (Z.of_nat (length (Crawler.urls self)) >=? _)%Z; [discriminate|].
  destruct (find header Crawler.a_with_href) as [a_tag|] eqn:Ef;
    [|now apply (Hrest self)].
  destruct (negb (truth a_tag)); [now apply (Hrest self)|].
  destruct (Crawler._extract_url self a_tag) as [u|y] eqn:Ex.
  - destruct (nonempty u && negb (contains (Crawler.urls self) u));
      [now apply (Hrest (Crawler.append_url self u)) | now apply (Hrest self)].
  - injection H as <- <-. exists header, a_tag.
    split; [now left|]. split; [exact Ef | exact Ex].
Qed.

(** The outer loop keeps the configuration and only appends. *)
Lemma visit_extends (seeds : list pystr) :
  forall (self self' : Crawler.t) (sent sent' : list Request)
         (e : option exn),
    run_seeds self sent seeds = (self', sent', e) ->
    Crawler.config self' = Crawler.config self
    /\ exists added, Crawler.urls self' = Crawler.urls self ++ added.
Proof.
  induction seeds as [|seed_url rest IH]; intros self self' sent sent' e H.
  - injection H as <- <- <-. split; [reflexivity|]. exists [].
    now rewrite app_nil_r.
  - rewrite visit_step in H. cbv zeta in H.
    destruct (requests_get sent _) as [r|x].
    + destruct (negb (ok r)); [exact (IH _ _ _ _ _ H)|].
      destruct (Crawler.scan_headers self _) as [self1 e1] eqn:Escan.
      destruct (scan_extends _ _ Escan) as [Hc1 [added1 Ha1]].
      destruct e1 as [x|].
      * injection H as <- <- <-. split; [exact Hc1 | eauto].
      * destruct (IH _ _ _ _ _ H) as [Hc [added Ha]].
        split; [congruence|]. exists (added1 ++ added).
        now rewrite Ha, Ha1, app_assoc.
    + injection H as <- <- <-. split; [reflexivity|]. exists [].
      now rewrite app_nil_r.
Qed.

(** The outer loop: configuration kept, URLs only appended, each new one
    offered by a page, no duplicate brought in, the cap respected. *)
Lemma visit_added (seeds : list pystr) (self self' : Crawler.t)
  (sent sent' : list Request) (e : option exn) :
  run_seeds self sent seeds = (self', sent', e) ->
  Crawler.config self' = Crawler.config self
  /\ exists added,
       Crawler.urls self' = Crawler.urls self ++ added
       /\ incl added
            (discovered requests_get lxml (Crawler.config self) sent seeds)
       /\ (NoDup (Crawler.urls self) -> NoDup (Crawler.urls self'))
       /\ length (Crawler.urls self')
          <= Nat.max (length (Crawler.urls self)) (cap (Crawler.config self)).
Proof.
  intros Hrun.
  destruct (Nat.le_gt_cases (cap (Crawler.config self))
                            (length (Crawler.urls self))) as [Hcap|Hcap].
  - destruct (@visit_at_cap requests_get lxml seeds self sent)
      as (n & e' & Hv & _); [unfold cap in Hcap; lia|].
    rewrite Hv in Hrun. injection Hrun as <- _ _.
    split; [reflexivity|]. exists []. rewrite app_nil_r.
    split; [reflexivity|]. split; [intros x []|]. split; [trivial | lia].
  - pose proof Hrun as Hrun0. apply visit_spec in Hrun; [|lia].
    destruct Hrun as [Hc [tail [Ht _]]]. split; [exact Hc|].
    destruct (first_occurrences_incl
                (discovered requests_get lxml (Crawler.config self) sent seeds)
                (Crawler.urls self)) as [more [Hm Hi]].
    assert (Hlen : length (Crawler.urls self' ++ tail)
                   <= cap (Crawler.config self))
      by (rewrite <- Ht, length_firstn; lia).
    assert (Hnd : NoDup (Crawler.urls self) ->
                  NoDup (Crawler.urls self' ++ tail)).
    { intros Hn. rewrite <- Ht.
      match goal with
      | |- NoDup (firstn ?n ?l) =>
          assert (Hl : NoDup l) by now apply first_occurrences_NoDup
      end.
      match type of Hl with
      | NoDup ?l =>
          rewrite <- (firstn_skipn (cap (Crawler.config self)) l) in Hl
      end.
      exact (NoDup_app_remove_r _ _ Hl). }
    rewrite Hm, firstn_app, firstn_all2 in Ht by lia.
    assert (Hpre : exists added,
               Crawler.urls self' = Crawler.urls self ++ added
               /\ incl added more).
    { destruct (visit_extends _ _ _ Hrun0) as [_ [added Ha]].
      exists added. split; [exact Ha|].
      rewrite Ha, <- app_assoc in Ht. apply app_inv_head in Ht.
      intros x Hx.
      assert (Hin : In x (firstn (cap (Crawler.config self)
                                  - length (Crawler.urls self)) more))
        by (rewrite Ht; apply in_or_app; now left).
      revert Hin.
      generalize (cap (Crawler.config self) - length (Crawler.urls self)).
      clear. intros k. revert k.
      induction more as [|m ms IH]; intros [|k] H; cbn in *;
        try contradiction.
      destruct H as [->|H]; [now left | right; eauto]. }
    destruct Hpre as [added [Ha Hia]]. exists added.
    split; [exact Ha|]. split; [intros x Hx; apply Hi, Hia, Hx|].
    split.
    + intros Hn. exact (NoDup_app_remove_r _ _ (Hnd Hn)).
    + rewrite length_app in Hlen. lia.
Qed.

End RunFacts.

Section RequestFacts.

Variable requests_get : network.
Variable lxml : pystr -> list node.

Abbreviation walk := (Crawler.visit_seeds requests_get lxml).

(** The requests of the outer loop are those of the seeds, in order,
    up to the seed where an exception left the loop. *)
Lemma visit_requests (seeds : list pystr) :
  forall (self self' : Crawler.t) (sent sent' : list Request)
         (e : option exn),
    walk self sent seeds = (self', sent', e) ->
    exists n,
      sent' = sent ++ List.map (request_for (Crawler.config self))
                               (firstn n seeds)
      /\ n <= length seeds
      /\ (e = None -> n = length seeds).
Proof.
  induction seeds as [|seed_url rest IH]; intros self self' sent sent' e H.
  - injection H as <- <- <-. exists 0. cbn. rewrite app_nil_r. auto.
  - rewrite visit_step in H. cbv zeta in H.
    assert (Hnext : forall s : Crawler.t,
              Crawler.config s = Crawler.config self ->
              walk s (sent ++ [request_for (Crawler.config self) seed_url])
                   rest = (self', sent', e) ->
              exists n,
                sent' = sent ++ List.map (request_for (Crawler.config self))
                                         (firstn n (seed_url :: rest))
                /\ n <= length (seed_url :: rest)
                /\ (e = None -> n = length (seed_url :: rest))).
    { intros s Hs Hrun. destruct (IH _ _ _ _ _ Hrun) as (n & Hn & Hle & Hall).
      exists (S n). rewrite Hn, Hs. cbn [firstn List.map length].
      rewrite <- app_assoc. cbn [app]. repeat split; auto; lia. }
    destruct (requests_get sent _) as [r|x].
    + destruct (negb (ok r)); [now apply (Hnext self)|].
      destruct (Crawler.scan_headers self _) as [self1 e1] eqn:Escan.
      destruct (scan_extends _ _ Escan) as [Hc1 _].
      destruct e1 as [x|]; [|now apply (Hnext self1)].
      injection H as <- <- <-. exists 1. cbn [firstn List.map length].
      repeat split; try discriminate; lia.
    + injection H as <- <- <-. exists 1. cbn [firstn List.map length].
      repeat split; try discriminate; lia.
Qed.

(** An exception of the outer loop was raised by a fetch or by
    [_extract_url] on the first anchor of a header of a fetched page. *)
Lemma visit_raises (seeds : list pystr) :
  forall (self self' : Crawler.t) (sent sent' : list Request) (x : exn),
    walk self sent seeds = (self', sent', Some x) ->
    (exists past rq, requests_get past rq = Raise x)
    \/ exists markup header a_tag,
         In header (find_all (BeautifulSoup lxml markup) Crawler.h3)
         /\ find header Crawler.a_with_href = Some a_tag
         /\ Crawler._extract_url (Crawler.init (Crawler.config self)) a_tag
            = Raise x.
Proof.
  induction seeds as [|seed_url rest IH]; intros self self' sent sent' x H;
    [discriminate|].
  rewrite visit_step in H. cbv zeta in H.
  destruct (requests_get sent _) as [r|y] eqn:Eget.
  - destruct (negb (ok r)); [exact (IH _ _ _ _ _ H)|].
    destruct (Crawler.scan_headers self _) as [self1 e1] eqn:Escan.
    destruct (scan_extends _ _ Escan) as [Hc1 _].
    destruct e1 as [y|].
    + injection H as <- <- <-. right.
      destruct (scan_raises _ _ Escan) as (h & a & Hin & Hf & Hx).
      eauto 8.
    + destruct (IH _ _ _ _ _ H) as [Hl|Hr]; [now left|].
      right. now rewrite <- Hc1.
  - injection H as <- <- <-. left. eauto.
Qed.

(** Every URL that the seeds offer is a non-empty URL that
    [_extract_url] returned for the first anchor of a header. *)
Lemma discovered_offered (cfg : Config.t) (seeds : list pystr) :
  forall (sent : list Request) (u : pystr),
    In u (discovered requests_get lxml cfg sent seeds) ->
    exists header a_tag,
      find header Crawler.a_with_href = Some a_tag
      /\ Crawler._extract_url (Crawler.init cfg) a_tag = Return u
      /\ nonempty u = true.
Proof.
  induction seeds as [|seed_url rest IH]; intros sent u H; [contradiction|].
  rewrite discovered_step in H. cbv zeta in H.
  destruct (requests_get sent _) as [r|x]; [|contradiction].
  apply in_app_or in H. destruct H as [H|H]; [|exact (IH _ _ H)].
  destruct (ok r); [|contradiction].
  unfold page_stream in H. apply in_flat_map in H.
  destruct H as [header [_ Hoff]]. unfold offered in Hoff.
  destruct (find header Crawler.a_with_href) as [a_tag|] eqn:Ef;
    [|contradiction].
  destruct (Crawler._extract_url (Crawler.init cfg) a_tag) as [v|y] eqn:Ex;
    [|contradiction].
  destruct (nonempty v) eqn:En; [|contradiction].
  destruct Hoff as [<-|[]]. eauto.
Qed.

End RequestFacts.

(** X6: whatever the state of the crawler, [find_articles] keeps its
    configuration and only appends to its URLs: the URLs it had stay
    first and in order, every new one is offered by a fetched page, a
    list without duplicates stays without duplicates, and the list does
    not grow past the configured count. *)
Theorem find_articles_only_appends (requests_get : network)
  (lxml : pystr -> list node) (self : Crawler.t) (sent : list Request) :
  let after :=
    fst (fst (Crawler.find_articles requests_get lxml self sent)) in
  Crawler.config after = Crawler.config self
  /\ exists added,
       Crawler.urls after = Crawler.urls self ++ added
       /\ incl added
            (discovered requests_get lxml (Crawler.config self) sent
               (Config.get_seed_urls (Crawler.config self)))
       /\ (NoDup (Crawler.urls self) -> NoDup (Crawler.urls after))
       /\ length (Crawler.urls after)
          <= Nat.max (length (Crawler.urls self)) (cap (Crawler.config self)).
Proof.
  cbv zeta. unfold Crawler.find_articles.
  destruct (Crawler.visit_seeds requests_get lxml self sent
              (Crawler.get_search_urls self)) as [[self' sent'] e] eqn:Hrun.
  cbn [fst]. exact (@visit_added _ _ _ _ _ _ _ _ Hrun).
Qed.

(** X7: [find_articles] requests seeds only, each at most once and in
    configuration order, with the configured headers, timeout and
    certificate flag: the requests it adds are those of a prefix of the
    seed list, and of the whole list when no exception is raised. *)
Theorem seeds_requested_in_order (requests_get : network)
  (lxml : pystr -> list node) (self : Crawler.t) (sent : list Request) :
  let run := Crawler.find_articles requests_get lxml self sent in
  exists n,
    snd (fst run)
    = sent ++ List.map (request_for (Crawler.config self))
                       (firstn n (Config.get_seed_urls (Crawler.config self)))
    /\ n <= length (Config.get_seed_urls (Crawler.config self))
    /\ (snd run = None ->
        n = length (Config.get_seed_urls (Crawler.config self))).
Proof.
  cbv zeta. unfold Crawler.find_articles.
  destruct (Crawler.visit_seeds requests_get lxml self sent
              (Crawler.get_search_urls self)) as [[self' sent'] e] eqn:Hrun.
  cbn [fst snd]. exact (@visit_requests _ _ _ _ _ _ _ _ Hrun).
Qed.

(** X8: under a configuration that [Config] has accepted, and with a
    tree builder whose tags never hold the empty list as href, the only
    exceptions that leave [find_articles] are those that a fetch
    raised. *)
Theorem find_articles_raises_only_fetch_failures
  (requests_get : network) (lxml : pystr -> list node)
  (data : ConfigDTO) (self : Crawler.t) (sent : list Request) (x : exn)
  (Hconfig : Config.init data = Return (Crawler.config self))
  (Hplain : plain_hrefs lxml)
  (Hraised : snd (Crawler.find_articles requests_get lxml self sent)
             = Some x) :
  exists past rq, requests_get past rq = Raise x.
Proof.
  unfold Crawler.find_articles in Hraised.
  destruct (Crawler.visit_seeds requests_get lxml self sent
              (Crawler.get_search_urls self)) as [[self' sent'] e] eqn:Hrun.
  cbn [snd] in Hraised. subst e.
  destruct (@visit_raises _ _ _ _ _ _ _ _ Hrun)
    as [Hfetch|(markup & header & a_tag & Hin & Hf & Hx)];
    [exact Hfetch | exfalso].
  pose proof (init_seeds_have_scheme _ Hconfig) as Hseeds.
  destruct (@find_is_tag _ _ _ Hf) as (n & a & k & ->).
  assert (Hd : In (Tag n a k) (descendants (BeautifulSoup lxml markup))).
  { apply descendants_trans with (h := header).
    - exact (@find_all_descendant _ _ _ Hin).
    - exact (@find_descendant _ _ _ Hf). }
  pose proof (Hplain markup _ Hd) as Hne. cbn in Hne.
  destruct (extract_url_cases (Crawler.init (Crawler.config self)) n a k)
    as [[Hl _]|[u [Hu _]]]; [exact Hseeds | contradiction | congruence].
Qed.

(** X9: under a configuration that [Config] has accepted, a crawler
    whose URLs all start with http:// or https:// still has only such
    URLs after [find_articles]; in particular a fresh crawler collects
    absolute URLs only. *)
Theorem discovered_urls_are_absolute (requests_get : network)
  (lxml : pystr -> list node) (data : ConfigDTO) (self : Crawler.t)
  (sent : list Request)
  (Hconfig : Config.init data = Return (Crawler.config self))
  (Hbefore : Forall (fun u => startswith_any u Config.http_schemes = true)
                    (Crawler.urls self)) :
  Forall (fun u => startswith_any u Config.http_schemes = true)
         (Crawler.urls
            (fst (fst (Crawler.find_articles requests_get lxml self sent)))).
Proof.
  unfold Crawler.find_articles.
  destruct (Crawler.visit_seeds requests_get lxml self sent
              (Crawler.get_search_urls self)) as [[self' sent'] e] eqn:Hrun.
  cbn [fst].
  destruct (@visit_added _ _ _ _ _ _ _ _ Hrun) as [_ [added [Ha [Hi _]]]].
  rewrite Ha. apply Forall_app. split; [exact Hbefore|].
  apply Forall_forall. intros u Hu. apply Hi in Hu.
  destruct (@discovered_offered _ _ _ _ _ _ Hu) as (h & a_tag & Hf & Hx & Hn).
  destruct (@find_is_tag _ _ _ Hf) as (n & a & k & ->).
  pose proof (init_seeds_have_scheme _ Hconfig) as Hseeds.
  destruct (extract_url_cases (Crawler.init (Crawler.config self)) n a k
              Hseeds) as [[_ Hr]|[u' [Hr Hu']]]; rewrite Hr in Hx;
    [discriminate|].
  injection Hx as ->. destruct Hu' as [->|Hu']; [discriminate | exact Hu'].
Qed.

Lemma find_articles_raises_only_fetch_failures_witness :
  exists past rq, fails_for seed_two past rq = Raise RequestException.
Proof.
  apply (@find_articles_raises_only_fetch_failures
           (fails_for seed_two) (sample_lxml [link_a])
           (sample_data 5 [seed_one; seed_two])
           (sample_crawler 5 [seed_one; seed_two]) [] RequestException).
  - reflexivity.
  - intros markup n Hn. cbn in Hn.
    repeat (destruct Hn as [<-|Hn]; [cbn; try discriminate; exact I|]).
    contradiction.
  - reflexivity.
Defined.

Lemma discovered_urls_are_absolute_witness :
  Forall (fun u => startswith_any u Config.http_schemes = true)
         (Crawler.urls
            (fst (fst (Crawler.find_articles always_ok
                         (sample_lxml [link_a; link_b])
                         (sample_crawler 5 [seed_one]) [])))).
Proof.
  apply (@discovered_urls_are_absolute always_ok
           (sample_lxml [link_a; link_b]) (sample_data 5 [seed_one])
           (sample_crawler 5 [seed_one]) []).
  - reflexivity.
  - constructor.
Defined.

(* ===================================================================== *)
(** ** HTMLParser: the fields and the exceptions of a parse *)

Section ParseFacts.

Variable requests_get : network.
Variable lxml : pystr -> list node.
Variable decode_contents : node -> pystr.
Variable other_decimal : N -> option Z.

Abbreviation fill_meta :=
  (HTMLParser._fill_article_with_meta_information decode_contents
     other_decimal).

(** [_fill_article_with_meta_information] step by step. *)
Lemma meta_outcome (self : HTMLParser.t) (article_soup : node) :
  fill_meta self article_soup
  = let titled :=
      HTMLParser.set_author
        (HTMLParser.set_title self (title_of decode_contents article_soup))
        [HTMLParser.NOT_FOUND] in
    match unify_date_format other_decimal (raw_date article_soup) with
    | Raise e => (titled, Some e)
    | Return d =>
        match topics_of article_soup with
        | Raise e => (HTMLParser.set_date titled d, Some e)
        | Return topics =>
            (HTMLParser.set_map
               (HTMLParser.set_topics (HTMLParser.set_date titled d)
                  match topics with
                  | [] => [HTMLParser.NOT_FOUND]
                  | _ :: _ => topics
                  end)
               (crumbs_of article_soup),
             None)
        end
    end.
Proof.
  unfold HTMLParser._fill_article_with_meta_information, title_of, raw_date,
    topics_of, crumbs_of. cbv zeta.
  destruct (find article_soup HTMLParser.h1) as [h|] eqn:E1;
    [destruct (@find_is_tag _ _ _ E1) as (n1 & a1 & k1 & ->); cbn [truth]|];
    (destruct (find article_soup HTMLParser.time) as [t|] eqn:E2;
     [destruct (@find_is_tag _ _ _ E2) as (n2 & a2 & k2 & ->); cbn [truth]|]);
    (match goal with
     | |- context [unify_date_format other_decimal ?x] =>
         destruct (unify_date_format other_decimal x); [|reflexivity]
     end);
    (destruct (find article_soup HTMLParser.ul_about) as [u|] eqn:E3;
     [destruct (@find_is_tag _ _ _ E3) as (n3 & a3 & k3 & ->); cbn [truth]|]);
    (match goal with
     | |- context [HTMLParser.collect_topics ?l ?acc] =>
         destruct (HTMLParser.collect_topics l acc); [|reflexivity]
     | _ => idtac
     end);
    (destruct (find article_soup HTMLParser.ol_breadcrumb) as [b|] eqn:E4;
     [destruct (@find_is_tag _ _ _ E4) as (n4 & a4 & k4 & ->); cbn [truth]|]);
    reflexivity.
Qed.

(** [parse] step by step. *)
Lemma parse_outcome (self : HTMLParser.t) (sent : list Request) :
  HTMLParser.parse requests_get lxml decode_contents other_decimal self sent
  = let rq := article_request self in
    match requests_get sent rq with
    | Raise e => (self, sent ++ [rq], Raise e)
    | Return r =>
        if ok r then
          let soup :=
            BeautifulSoup lxml
              (decoded r (Config.get_encoding (HTMLParser.config self))) in
          match fill_meta (HTMLParser._fill_article_with_text self soup) soup
          with
          | (filled, Some e) => (filled, sent ++ [rq], Raise e)
          | (filled, None) =>
              (filled, sent ++ [rq], Return (HTMLParser.article filled))
          end
        else
          (HTMLParser.set_text self [], sent ++ [rq],
           Return (HTMLParser.article (HTMLParser.set_text self [])))
    end.
Proof.
  unfold HTMLParser.parse, make_request, article_request, request_for.
  cbv zeta.
  destruct (requests_get sent _) as [r|e]; reflexivity.
Qed.

(** An exception of the topics loop is the AttributeError of a content
    attribute that is not a string. *)
Lemma collect_topics_raises (items : list node) :
  forall (acc : list pystr) (x : exn),
    HTMLParser.collect_topics items acc = Raise x ->
    x = AttributeError
    /\ exists li meta v,
         In li items
         /\ find li HTMLParser.meta_name = Some meta
         /\ get meta HTMLParser.content = Return v
         /\ isinstance_str v = false.
Proof.
  induction items as [|li rest IH]; intros acc x H;
    cbn [HTMLParser.collect_topics] in H; [discriminate|].
  assert (Hrest : forall acc',
            HTMLParser.collect_topics rest acc' = Raise x ->
            x = AttributeError
            /\ exists li0 meta v,
                 In li0 (li :: rest)
                 /\ find li0 HTMLParser.meta_name = Some meta
                 /\ get meta HTMLParser.content = Return v
                 /\ isinstance_str v = false).
  { intros acc' Hr. destruct (IH _ _ Hr) as [Hx (l & m & v & Hin & Hr')].
    split; [exact Hx|]. exists l, m, v. split; [now right | exact Hr']. }
  destruct (find li HTMLParser.meta_name) as [meta|] eqn:Ef;
    [|exact (Hrest _ H)].
  destruct (truth meta && has_attr meta HTMLParser.content);
    [|exact (Hrest _ H)].
  destruct (@find_is_tag _ _ _ Ef) as (n & a & k & ->).
  unfold HTMLParser.content_stripped in H. cbn [get bind] in H.
  destruct (match lookup HTMLParser.content a with
            | Some v => v
            | None => PyNone
            end) as [| b | z | f | t | l | d] eqn:Ev; cbn [bind] in H;
    try (injection H as <-; split; [reflexivity|];
         eexists li, (Tag n a k), _; split; [now left|];
         split; [exact Ef|]; cbn [get]; rewrite Ev;
         split; reflexivity).
  exact (Hrest _ H).
Qed.

End ParseFacts.

Section ParseResults.

Variable requests_get : network.
Variable lxml : pystr -> list node.
Variable decode_contents : node -> pystr.
Variable other_decimal : N -> option Z.

Lemma unify_outcome (s : pystr) :
  (forall e, unify_date_format other_decimal s = Raise e -> e = ValueError)
  /\ (forall d, unify_date_format other_decimal s = Return d ->
        valid_date (year d) (month d) (day d) = true).
Proof.
  unfold unify_date_format, strptime.
  destruct (match_ other_decimal format_regex s) as [[found rest]|];
    [|split; [intros e H; now injection H | discriminate]].
  destruct (nonempty rest);
    [split; [intros e H; now injection H | discriminate]|].
  destruct (int_raises_value_error other_decimal (group found char_d))
    as [->|[d ->]]; cbn [bind];
    [split; [intros e H; now injection H | discriminate]|].
  destruct (int_raises_value_error other_decimal (group found char_m))
    as [->|[m ->]]; cbn [bind];
    [split; [intros e H; now injection H | discriminate]|].
  destruct (int_raises_value_error other_decimal (group found char_Y))
    as [->|[y ->]]; cbn [bind];
    [split; [intros e H; now injection H | discriminate]|].
  destruct (valid_date y m d) eqn:Ev.
  - split; [discriminate|]. intros dt H. injection H as <-. exact Ev.
  - split; [intros e H; now injection H | discriminate].
Qed.

(** What [parse] leaves untouched: one request is made, and the URL and
    the id of the parser and of its article stay. *)
Lemma parse_keeps_identity (self : HTMLParser.t) (sent : list Request) :
  forall self' sent' res,
    HTMLParser.parse requests_get lxml decode_contents other_decimal self sent
    = (self', sent', res) ->
    sent' = sent ++ [article_request self]
    /\ HTMLParser.full_url self' = HTMLParser.full_url self
    /\ HTMLParser.article_id self' = HTMLParser.article_id self
    /\ HTMLParser.config self' = HTMLParser.config self
    /\ article.url (HTMLParser.article self')
       = article.url (HTMLParser.article self)
    /\ article.article_id (HTMLParser.article self')
       = article.article_id (HTMLParser.article self)
    /\ (forall a, res = Return a -> a = HTMLParser.article self').
Proof.
  intros self' sent' res H. rewrite parse_outcome in H. cbv zeta in H.
  destruct (requests_get sent (article_request self)) as [r|e].
  - destruct (ok r).
    + rewrite meta_outcome, fill_text_sets_text in H. cbv zeta in H.
      destruct (unify_date_format other_decimal _) as [d|e];
        [destruct (topics_of _) as [ts|e]|];
        injection H as <- <- <-; repeat split; try reflexivity;
        intros a Ha; try discriminate; now injection Ha.
    + injection H as <- <- <-. repeat split; try reflexivity.
      intros a Ha. now injection Ha.
  - injection H as <- <- <-. repeat split; try reflexivity.
    intros a Ha. discriminate.
Qed.

End ParseResults.

(** X10: an article page that answers ok but gives no date text (no
    time element, or one whose stripped text is empty) makes [parse]
    raise ValueError: the title and the placeholder author are already
    set in the parser, and the date, the topics and the breadcrumb path
    are left as they were. *)
Theorem page_without_date_raises (requests_get : network)
  (lxml : pystr -> list node) (decode_contents : node -> pystr)
  (other_decimal : N -> option Z) (self : HTMLParser.t)
  (sent : list Request) (r : Response)
  (Hget : requests_get sent (article_request self) = Return r)
  (Hok : ok r = true)
  (Hdate : raw_date
             (BeautifulSoup lxml
                (decoded r (Config.get_encoding (HTMLParser.config self))))
           = []) :
  let run :=
    HTMLParser.parse requests_get lxml decode_contents other_decimal
                     self sent in
  let left := HTMLParser.article (fst (fst run)) in
  snd run = Raise ValueError
  /\ article.title left
     = title_of decode_contents
         (BeautifulSoup lxml
            (decoded r (Config.get_encoding (HTMLParser.config self))))
  /\ article.author left = [HTMLParser.NOT_FOUND]
  /\ article.date left = article.date (HTMLParser.article self)
  /\ article.topics left = article.topics (HTMLParser.article self)
  /\ article.map left = article.map (HTMLParser.article self).
Proof.
  cbv zeta. rewrite parse_outcome. cbv zeta. rewrite Hget, Hok.
  rewrite meta_outcome. cbv zeta. rewrite Hdate.
  change (unify_date_format other_decimal []) with (@Raise datetime ValueError).
  rewrite fill_text_sets_text. cbn. repeat split; reflexivity.
Qed.

Lemma page_without_date_raises_witness :
  snd (HTMLParser.parse always_ok (fun _ => bare_page) plain_contents
         no_decimal sample_parser [])
  = Raise ValueError.
Proof.
  exact (proj1 (@page_without_date_raises always_ok (fun _ => bare_page)
                  plain_contents no_decimal sample_parser [] sample_response
                  eq_refl eq_refl eq_refl)).
Defined.

(** X11: when [_fill_article_with_meta_information] returns, the author
    is the placeholder, the date is the calendar date that the date text
    writes, the topics are never empty (the placeholder stands in when
    the page gives none, as when there is no topics list), the
    breadcrumb path has one entry per item of the breadcrumb list and is
    empty without the list, and the text, the URL and the id of the
    article are untouched. *)
Theorem meta_information_on_return (decode_contents : node -> pystr)
  (other_decimal : N -> option Z) (self filled : HTMLParser.t)
  (article_soup : node)
  (Hrun : HTMLParser._fill_article_with_meta_information decode_contents
            other_decimal self article_soup = (filled, None)) :
  let a := HTMLParser.article filled in
  article.title a = title_of decode_contents article_soup
  /\ article.author a = [HTMLParser.NOT_FOUND]
  /\ (exists d,
        unify_date_format other_decimal (raw_date article_soup) = Return d
        /\ article.date a = Some d
        /\ valid_date (year d) (month d) (day d) = true)
  /\ article.topics a <> []
  /\ (find article_soup HTMLParser.ul_about = None ->
      article.topics a = [HTMLParser.NOT_FOUND])
  /\ article.map a = crumbs_of article_soup
  /\ length (article.map a)
     = match find article_soup HTMLParser.ol_breadcrumb with
       | Some bc_ol =>
           length (find_all bc_ol HTMLParser.li_itemListElement)
       | None => 0
       end
  /\ article.text a = article.text (HTMLParser.article self)
  /\ article.url a = article.url (HTMLParser.article self)
  /\ article.article_id a = article.article_id (HTMLParser.article self).
Proof.
  cbv zeta. rewrite meta_outcome in Hrun. cbv zeta in Hrun.
  destruct (unify_date_format other_decimal (raw_date article_soup))
    as [d|e] eqn:Ed; [|discriminate].
  destruct (topics_of article_soup) as [ts|e] eqn:Et; [|discriminate].
  injection Hrun as <-. cbn.
  split; [reflexivity|]. split; [reflexivity|]. split.
  { exists d. split; [reflexivity|]. split; [reflexivity|].
    exact (proj2 (unify_outcome other_decimal (raw_date article_soup)) d Ed). }
  split; [destruct ts; discriminate|]. split.
  { intros Hnone. unfold topics_of in Et. rewrite Hnone in Et.
    injection Et as <-. reflexivity. }
  split; [reflexivity|]. split; [|repeat split; reflexivity].
  unfold crumbs_of.
  destruct (find article_soup HTMLParser.ol_breadcrumb);
    [apply length_map | reflexivity].
Qed.

Lemma meta_information_on_return_witness :
  article.topics
    (HTMLParser.article
       (fst (HTMLParser._fill_article_with_meta_information plain_contents
               no_decimal sample_parser
               (document (dated_page (str "05.03.2021"))))))
  <> [].
Proof.
  refine (proj1 (proj2 (proj2 (proj2
    (@meta_information_on_return plain_contents no_decimal sample_parser _
       (document (dated_page (str "05.03.2021"))) _))))).
  reflexivity.
Defined.

(** X12: an exception that leaves [_fill_article_with_meta_information]
    is either the ValueError of a date text that does not parse, raised
    before the date is set, or the AttributeError of a topic whose
    content attribute is not a string, raised after the date is set and
    before the topics are. *)
Theorem meta_information_exceptions (decode_contents : node -> pystr)
  (other_decimal : N -> option Z) (self left : HTMLParser.t)
  (article_soup : node) (x : exn)
  (Hrun : HTMLParser._fill_article_with_meta_information decode_contents
            other_decimal self article_soup = (left, Some x)) :
  (x = ValueError
   /\ unify_date_format other_decimal (raw_date article_soup)
      = Raise ValueError
   /\ article.date (HTMLParser.article left)
      = article.date (HTMLParser.article self))
  \/ (x = AttributeError
      /\ (exists d, article.date (HTMLParser.article left) = Some d)
      /\ article.topics (HTMLParser.article left)
         = article.topics (HTMLParser.article self)
      /\ exists about_ul li meta v,
           find article_soup HTMLParser.ul_about = Some about_ul
           /\ In li (find_all about_ul HTMLParser.li_itemListElement)
           /\ find li HTMLParser.meta_name = Some meta
           /\ get meta HTMLParser.content = Return v
           /\ isinstance_str v = false).
Proof.
  rewrite meta_outcome in Hrun. cbv zeta in Hrun.
  destruct (unify_date_format other_decimal (raw_date article_soup))
    as [d|e] eqn:Ed.
  - destruct (topics_of article_soup) as [ts|e] eqn:Et; [discriminate|].
    injection Hrun as <- <-. right. unfold topics_of in Et.
    destruct (find article_soup HTMLParser.ul_about) as [ul|] eqn:Eu;
      [|discriminate].
    destruct (@collect_topics_raises _ _ _ Et) as [-> (li & m & v & H)].
    split; [reflexivity|]. split; [cbn; eauto|]. split; [reflexivity|].
    exists ul, li, m, v. split; [reflexivity | exact H].
  - injection Hrun as <- <-. left.
    pose proof (proj1 (unify_outcome other_decimal (raw_date article_soup))
                  e Ed) as ->.
    split; [reflexivity|]. split; [reflexivity|]. reflexivity.
Qed.

Lemma meta_information_exceptions_witness :
  (ValueError = ValueError
   /\ unify_date_format no_decimal (raw_date (document bare_page))
      = Raise ValueError
   /\ article.date
        (HTMLParser.article
           (fst (HTMLParser._fill_article_with_meta_information
                   plain_contents no_decimal sample_parser
                   (document bare_page))))
      = article.date (HTMLParser.article sample_parser))
  \/ (ValueError = AttributeError
      /\ (exists d,
            article.date
              (HTMLParser.article
                 (fst (HTMLParser._fill_article_with_meta_information
                         plain_contents no_decimal sample_parser
                         (document bare_page))))
            = Some d)
      /\ article.topics
           (HTMLParser.article
              (fst (HTMLParser._fill_article_with_meta_information
                      plain_contents no_decimal sample_parser
                      (document bare_page))))
         = article.topics (HTMLParser.article sample_parser)
      /\ exists about_ul li meta v,
           find (document bare_page) HTMLParser.ul_about = Some about_ul
           /\ In li (find_all about_ul HTMLParser.li_itemListElement)
           /\ find li HTMLParser.meta_name = Some meta
           /\ get meta HTMLParser.content = Return v
           /\ isinstance_str v = false).
Proof.
  apply (@meta_information_exceptions plain_contents no_decimal sample_parser
           _ (document bare_page) ValueError).
  reflexivity.
Defined.

(** X13: whatever the network answers, [parse] makes exactly one
    request, for the URL of the parser with the configured headers,
    timeout and certificate flag, never changes the URL, the id or the
    configuration, and an article it returns is the article of the
    parser, with the URL and the id it was created with. *)
Theorem parse_requests_once (requests_get : network)
  (lxml : pystr -> list node) (decode_contents : node -> pystr)
  (other_decimal : N -> option Z) (self : HTMLParser.t)
  (sent : list Request) :
  let run :=
    HTMLParser.parse requests_get lxml decode_contents other_decimal
                     self sent in
  let after := fst (fst run) in
  snd (fst run) = sent ++ [article_request self]
  /\ HTMLParser.full_url after = HTMLParser.full_url self
  /\ HTMLParser.article_id after = HTMLParser.article_id self
  /\ HTMLParser.config after = HTMLParser.config self
  /\ (forall a, snd run = Return a ->
        a = HTMLParser.article after
        /\ article.url a = article.url (HTMLParser.article self)
        /\ article.article_id a
           = article.article_id (HTMLParser.article self)).
Proof.
  cbv zeta.
  destruct (HTMLParser.parse requests_get lxml decode_contents other_decimal
              self sent) as [[self' sent'] res] eqn:Hrun.
  cbn [fst snd].
  destruct (@parse_keeps_identity _ _ _ _ _ _ _ _ _ Hrun)
    as (Hs & Hu & Hi & Hc & Hau & Hai & Hres).
  split; [exact Hs|]. split; [exact Hu|]. split; [exact Hi|].
  split; [exact Hc|]. intros a Ha. rewrite (Hres a Ha). auto.
Qed.

(** X14: when the fetch of the article raises, [parse] raises the same
    exception and leaves the parser as it was; when the response is not
    ok, [parse] raises nothing and returns the article with an empty
    text and every other field as it was, the page being neither parsed
    nor searched. *)
Theorem parse_without_page (requests_get : network)
  (lxml : pystr -> list node) (decode_contents : node -> pystr)
  (other_decimal : N -> option Z) (self : HTMLParser.t)
  (sent : list Request) :
  let run :=
    HTMLParser.parse requests_get lxml decode_contents other_decimal
                     self sent in
  (forall e,
     requests_get sent (article_request self) = Raise e ->
     snd run = Raise e /\ fst (fst run) = self)
  /\ (forall r,
        requests_get sent (article_request self) = Return r ->
        ok r = false ->
        exists a,
          snd run = Return a
          /\ article.text a = []
          /\ article.title a = article.title (HTMLParser.article self)
          /\ article.author a = article.author (HTMLParser.article self)
          /\ article.date a = article.date (HTMLParser.article self)
          /\ article.topics a = article.topics (HTMLParser.article self)
          /\ article.map a = article.map (HTMLParser.article self)).
Proof.
  cbv zeta. rewrite parse_outcome. cbv zeta. split.
  - intros e He. rewrite He. split; reflexivity.
  - intros r Hr Hok. rewrite Hr, Hok. eexists. split; [reflexivity|].
    cbn. repeat split; reflexivity.
Qed.

(** X15: when the response is ok and [parse] returns, the article holds
    all the fields of the page together: the text of the container
    chain, the escaped title, the placeholder author, the date that the
    date text writes, topics that are not empty, and the breadcrumb
    path; filling the meta information does not disturb the text. *)
Theorem parse_fills_every_field (requests_get : network)
  (lxml : pystr -> list node) (decode_contents : node -> pystr)
  (other_decimal : N -> option Z) (self : HTMLParser.t)
  (sent : list Request) (r : Response) (a : article.Article)
  (Hget : requests_get sent (article_request self) = Return r)
  (Hok : ok r = true)
  (Hrun : snd (HTMLParser.parse requests_get lxml decode_contents
                 other_decimal self sent) = Return a) :
  let soup :=
    BeautifulSoup lxml
      (decoded r (Config.get_encoding (HTMLParser.config self))) in
  article.text a = match container_chain soup with
                   | None => []
                   | Some value_div => paragraphs_text value_div
                   end
  /\ article.title a
     = match find soup HTMLParser.h1 with
       | Some h1_tag => escape_guillemets (strip (decode_contents h1_tag))
       | None => HTMLParser.NOT_FOUND
       end
  /\ article.author a = [HTMLParser.NOT_FOUND]
  /\ (exists d,
        unify_date_format other_decimal (raw_date soup) = Return d
        /\ article.date a = Some d)
  /\ article.topics a <> []
  /\ article.map a = crumbs_of soup.
Proof.
  cbv zeta. rewrite parse_outcome in Hrun. cbv zeta in Hrun.
  rewrite Hget, Hok, meta_outcome, fill_text_sets_text in Hrun.
  cbv zeta in Hrun.
  destruct (unify_date_format other_decimal _) as [d|e] eqn:Ed;
    [|discriminate].
  destruct (topics_of _) as [ts|e]; [|discriminate].
  cbn in Hrun. injection Hrun as <-. cbn.
  split; [reflexivity|]. split.
  { unfold title_of.
    destruct (find _ HTMLParser.h1); [|reflexivity].
    unfold HTMLParser.headline. apply replace_guillemets. }
  split; [reflexivity|]. split; [eauto|].
  split; [destruct ts; discriminate | reflexivity].
Qed.

Lemma parse_fills_every_field_witness :
  exists d,
    unify_date_format no_decimal
      (raw_date (BeautifulSoup (fun _ => dated_page (str "05.03.2021"))
                   (decoded sample_response
                      (Config.get_encoding
                         (HTMLParser.config sample_parser)))))
    = Return d
    /\ d = midnight 2021 3 5.
Proof.
  destruct (@parse_fills_every_field always_ok
              (fun _ => dated_page (str "05.03.2021")) plain_contents
              no_decimal sample_parser [] sample_response _
              eq_refl eq_refl eq_refl)
    as (_ & _ & _ & [d [Hd _]] & _).
  exists d. split; [exact Hd|].
  vm_compute in Hd. now injection Hd.
Defined.

(* ===================================================================== *)
(** ** main: what is requested and what is handed over *)

Section MainFacts.

Variable requests_get : network.
Variable lxml : pystr -> list node.
Variable decode_contents : node -> pystr.
Variable other_decimal : N -> option Z.

Abbreviation each :=
  (parse_each requests_get lxml decode_contents other_decimal).

(** The loop over the URLs: the articles handed over are those of a
    prefix of the URLs, with consecutive ids, and one request is made per
    article and one more when an exception ends the loop. *)
Lemma parse_each_outcome (cfg : Config.t) (urls : list pystr) :
  forall (sent sent' : list Request) (calls calls' : list io.call)
         (idx : Z) (e : option exn),
    each cfg sent calls idx urls = (sent', calls', e) ->
    exists articles m,
      calls' = calls ++ handed articles
      /\ List.map article.url articles = firstn (length articles) urls
      /\ List.map article.article_id articles
         = ids_from idx (length articles)
      /\ sent' = sent ++ List.map (request_for cfg) (firstn m urls)
      /\ length articles <= m <= length urls
      /\ (e = None -> length articles = length urls /\ m = length urls).
Proof.
  induction urls as [|u rest IH]; intros sent sent' calls calls' idx e H;
    cbn [parse_each] in H.
  - injection H as <- <- <-. exists [], 0. cbn. rewrite !app_nil_r.
    repeat split; auto.
  - destruct (HTMLParser.parse requests_get lxml decode_contents
                other_decimal (HTMLParser.init u idx cfg) sent)
      as [[p' sent1] res] eqn:Hparse.
    destruct (@parse_keeps_identity _ _ _ _ _ _ _ _ _ Hparse)
      as (Hs & _ & _ & _ & Hau & Hai & Hres).
    cbn in Hs, Hau, Hai.
    change (article_request (HTMLParser.init u idx cfg))
      with (request_for cfg u) in Hs.
    destruct res as [a|x].
    + destruct (IH _ _ _ _ _ _ H)
        as (articles & m & Hc & Hu & Hi & Hsent & Hm & Hall).
      pose proof (Hres a eq_refl) as Ha. subst a.
      exists (HTMLParser.article p' :: articles), (S m).
      cbn [handed flat_map List.map firstn length ids_from].
      rewrite Hau, Hai, Hu, Hi.
      split; [rewrite Hc, <- app_assoc; reflexivity|].
      split; [reflexivity|]. split; [reflexivity|].
      split; [rewrite Hsent, Hs, <- app_assoc; reflexivity|].
      split; [lia|]. intros He. destruct (Hall He). lia.
    + injection H as <- <- <-. exists [], 1. cbn. rewrite app_nil_r.
      repeat split; auto; try lia; discriminate.
Qed.

Lemma validation_error_kind (data : ConfigDTO) (e : exn) :
  Config._validate_config_content data = Some e ->
  configuration_error e = true.
Proof.
  unfold Config._validate_config_content.
  repeat match goal with
         | |- (if ?c then _ else _) = _ -> _ => destruct c
         end; intros H; try discriminate; injection H as <-; reflexivity.
Qed.

End MainFacts.

(** The first seed is requested whatever follows. *)
Lemma visit_first_request (requests_get : network)
  (lxml : pystr -> list node) (self self' : Crawler.t)
  (sent sent' : list Request) (seed_url : pystr) (rest : list pystr)
  (e : option exn) :
  Crawler.visit_seeds requests_get lxml self sent (seed_url :: rest)
  = (self', sent', e) ->
  exists more,
    sent' = sent ++ request_for (Crawler.config self) seed_url :: more.
Proof.
  intros H. rewrite visit_step in H. cbv zeta in H.
  destruct (requests_get sent _) as [r|x].
  - destruct (negb (ok r)).
    + apply visit_requests in H. destruct H as (n & -> & _).
      rewrite <- app_assoc. cbn [app]. eauto.
    + destruct (Crawler.scan_headers self _) as [s1 [x|]].
      * injection H as _ <- _. eauto.
      * apply visit_requests in H. destruct H as (n & -> & _).
        rewrite <- app_assoc. cbn [app]. eauto.
  - injection H as _ <- _. eauto.
Qed.

(** X16: [main] ends with an exception and without any request exactly
    when validation refuses the configuration: the exception is then the
    one of the validation, one of the seven configuration errors, and
    nothing is handed over; once the configuration is accepted, a run
    that raises has made a request. *)
Theorem configuration_error_before_any_request (requests_get : network)
  (lxml : pystr -> list node) (decode_contents : node -> pystr)
  (other_decimal : N -> option Z) (data : ConfigDTO) (e : exn) :
  (main requests_get lxml decode_contents other_decimal data
   = ([], [], Some e)
   <-> Config._validate_config_content data = Some e)
  /\ (Config._validate_config_content data = Some e ->
      configuration_error e = true).
Proof.
  split; [|exact (validation_error_kind data (e := e))].
  split.
  - unfold main, Config.init.
    destruct (Config._validate_config_content data) as [e'|] eqn:Hv;
      [intros H; now injection H as ->|].
    set (cfg := {| Config._seed_urls := _ |}). intros H. exfalso.
    unfold Crawler.find_articles in H.
    change (Crawler.get_search_urls (Crawler.init cfg))
      with (Config.get_seed_urls cfg) in H.
    destruct (Config.get_seed_urls cfg) as [|seed_url rest] eqn:Eseeds.
    + cbn in H. discriminate.
    + destruct (Crawler.visit_seeds requests_get lxml (Crawler.init cfg) []
                  (seed_url :: rest)) as [[crawler sent] e1] eqn:Hfind.
      destruct (visit_first_request _ _ _ _ _ _ Hfind) as [more Hs].
      cbn [app] in Hs. subst sent.
      destruct e1 as [x|]; [discriminate|].
      destruct (parse_each requests_get lxml decode_contents other_decimal
                  cfg _ [] 1 (Crawler.urls crawler))
        as [[sent' calls] e'] eqn:Heach.
      apply parse_each_outcome in Heach.
      destruct Heach as (articles & m & _ & _ & _ & Hs' & _).
      subst sent'. discriminate.
  - intros Hv. unfold main, Config.init. now rewrite Hv.
Qed.

(** X17: under an accepted configuration, whatever ends the run, the
    articles that [main] hands over are each given to [to_raw] and then
    to [to_meta], carry the ids 1, 2, 3, ... in order and the URLs of a
    prefix of the URLs that [find_articles] found, so no URL twice and
    at most the configured count of articles; the requests are at most
    one per seed and one per found URL; and when no exception is raised,
    every found URL has its article and the requested URLs are the
    seeds followed by the found URLs. *)
Theorem main_hands_over_in_order (requests_get : network)
  (lxml : pystr -> list node) (decode_contents : node -> pystr)
  (other_decimal : N -> option Z) (data : ConfigDTO) (cfg : Config.t)
  (Hconfig : Config.init data = Return cfg) :
  let run := main requests_get lxml decode_contents other_decimal data in
  let found :=
    Crawler.urls
      (fst (fst (Crawler.find_articles requests_get lxml
                   (Crawler.init cfg) []))) in
  exists articles,
    snd (fst run) = handed articles
    /\ List.map article.url articles = firstn (length articles) found
    /\ List.map article.article_id articles
       = ids_from 1 (length articles)
    /\ NoDup (List.map article.url articles)
    /\ (Z.of_nat (length articles)
        <= int_value (Config.get_num_articles cfg))%Z
    /\ length (fst (fst run))
       <= length (Config.get_seed_urls cfg) + length found
    /\ (snd run = None ->
        length articles = length found
        /\ List.map url (fst (fst run))
           = Config.get_seed_urls cfg ++ found).
Proof.
  cbv zeta. unfold main. rewrite Hconfig. unfold Crawler.find_articles.
  destruct (Crawler.visit_seeds requests_get lxml (Crawler.init cfg) []
              (Crawler.get_search_urls (Crawler.init cfg)))
    as [[crawler sent] e] eqn:Hfind.
  cbn [fst snd].
  destruct (@visit_added _ _ _ _ _ _ _ _ Hfind)
    as (_ & added & Ha & _ & Hnd & Hlen).
  destruct (@visit_requests _ _ _ _ _ _ _ _ Hfind)
    as (n & Hsent & Hn & Hall).
  cbn [Crawler.init Crawler.config Crawler.urls app] in *.
  change (Crawler.get_search_urls (Crawler.init cfg))
    with (Config.get_seed_urls cfg) in *.
  pose proof (init_count_in_range _ Hconfig) as Hrange.
  specialize (Hnd (NoDup_nil _)).
  assert (Hcap : length (Crawler.urls crawler) <= cap cfg)
    by (cbn [length] in Hlen; rewrite Nat.max_0_l in Hlen; exact Hlen).
  assert (Hprefix : forall k,
            NoDup (firstn k (Crawler.urls crawler))).
  { intros k. rewrite <- (firstn_skipn k (Crawler.urls crawler)) in Hnd.
    exact (NoDup_app_remove_r _ _ Hnd). }
  destruct e as [x|].
  - exists []. cbn. rewrite Hsent, length_map, length_firstn.
    repeat split; try constructor; try lia; discriminate.
  - destruct (parse_each requests_get lxml decode_contents other_decimal
                cfg sent [] 1 (Crawler.urls crawler))
      as [[sent' calls] e'] eqn:Heach.
    cbn [fst snd].
    destruct (@parse_each_outcome _ _ _ _ _ _ _ _ _ _ _ _ Heach)
      as (articles & m & Hc & Hu & Hi & Hs' & Hm & Hfull).
    exists articles. split; [exact Hc|]. split; [exact Hu|].
    split; [exact Hi|]. split; [rewrite Hu; apply Hprefix|].
    split; [unfold cap in Hcap; lia|]. split.
    + rewrite Hs', Hsent, !length_app, !length_map, !length_firstn. cbn. lia.
    + intros He. destruct (Hfull He) as [Hl Hm']. split; [exact Hl|].
      rewrite Hs', Hsent, (Hall eq_refl), Hm', !firstn_all.
      cbn [app]. rewrite map_app, !map_map. cbn [url request_for].
      now rewrite !map_id.
Qed.

Lemma main_hands_over_in_order_witness :
  exists articles,
    snd (fst (main always_ok (fun _ => listing_with_date) plain_contents
                no_decimal (sample_data 5 [seed_one])))
    = handed articles
    /\ List.map article.article_id articles = [1; 2]%Z
    /\ List.map article.url articles
       = [str "https://example.com/a"; str "https://example.com/b"]
    /\ snd (main always_ok (fun _ => listing_with_date) plain_contents
              no_decimal (sample_data 5 [seed_one]))
       = None.
Proof.
  destruct (@main_hands_over_in_order always_ok (fun _ => listing_with_date)
              plain_contents no_decimal (sample_data 5 [seed_one])
              (Crawler.config (sample_crawler 5 [seed_one])) eq_refl)
    as (articles & Hc & Hu & Hi & _ & _ & _ & Hfull).
  assert (Hnone : snd (main always_ok (fun _ => listing_with_date)
                         plain_contents no_decimal
                         (sample_data 5 [seed_one]))
                  = None) by (vm_compute; reflexivity).
  destruct (Hfull Hnone) as [Hl _].
  match type of Hl with _ = ?r => change r with 2 in Hl end.
  rewrite Hl in Hu, Hi.
  exists articles. split; [exact Hc|]. split; [exact Hi|].
  split; [exact Hu | exact Hnone].
Defined.

(** X18: validation does not ask for a seed: a configuration that passes
    still passes with an empty seed list, and [main] then makes no
    request, hands nothing over and raises nothing. *)
Theorem empty_seed_list_does_nothing (requests_get : network)
  (lxml : pystr -> list node) (decode_contents : node -> pystr)
  (other_decimal : N -> option Z) (data : ConfigDTO)
  (Hvalid : Config._validate_config_content data = None) :
  Config._validate_config_content (with_seed_urls data (PyList [])) = None
  /\ main requests_get lxml decode_contents other_decimal
          (with_seed_urls data (PyList []))
     = ([], [], None).
Proof.
  destruct (validated_rest data Hvalid) as (Hh & He & Ht & Hb & Hn & Hm).
  assert (Hv : Config._validate_config_content
                 (with_seed_urls data (PyList [])) = None).
  { rewrite validate_after_seeds by reflexivity.
    cbn [total_articles headers encoding timeout should_verify_certificate
         headless_mode with_seed_urls].
    rewrite Hn, Hm, Hh, He, Ht, Hb. reflexivity. }
  split; [exact Hv|].
  unfold main, Config.init. rewrite Hv. reflexivity.
Qed.

Lemma empty_seed_list_does_nothing_witness :
  main always_ok (sample_lxml [link_a]) plain_contents no_decimal
       (with_seed_urls (sample_config (PyInt 3)) (PyList []))
  = ([], [], None).
Proof.
  exact (proj2 (@empty_seed_list_does_nothing always_ok
                  (sample_lxml [link_a]) plain_contents no_decimal
                  (sample_config (PyInt 3)) eq_refl)).
Defined.

(* ===================================================================== *)
(** ** unify_date_format on texts of the exact pattern *)

Section WrittenDates.

Variable other_decimal : N -> option Z.

Lemma ascii_digit_cases (c : N) :
  ascii_digit c = true ->
  In c [48; 49; 50; 51; 52; 53; 54; 55; 56; 57]%N.
Proof.
  unfold ascii_digit. intros H. apply andb_true_iff in H.
  destruct H as [H1 H2]. apply N.leb_le in H1. apply N.leb_le in H2.
  cbn [In]. lia.
Qed.

Lemma ascii_digit_facts (c : N) :
  ascii_digit c = true ->
  isspace c = false /\ N.eqb c dot = false
  /\ decimal other_decimal c = Some (digit c)
  /\ is_decimal other_decimal c = true.
Proof.
  intros H. pose proof (ascii_digit_cases c H) as Hc. cbn [In] in Hc.
  repeat (destruct Hc as [<-|Hc]; [repeat split; reflexivity|]).
  contradiction.
Qed.

Lemma run_Cat (R : Type) (r1 r2 : regex) (s : pystr) (g : groups)
  (k : pystr -> groups -> option R) :
  run other_decimal (Cat r1 r2) s g k
  = run other_decimal r1 s g (fun s' g' => run other_decimal r2 s' g' k).
Proof. reflexivity. Qed.

Lemma run_Chr_same (R : Type) (c : N) (t : pystr) (g : groups)
  (k : pystr -> groups -> option R) :
  run other_decimal (Chr c) (c :: t) g k = k t g.
Proof. cbn [run]. now rewrite N.eqb_refl. Qed.

Lemma run_Chr_other (R : Type) (c d : N) (t : pystr) (g : groups)
  (k : pystr -> groups -> option R) :
  N.eqb d c = false -> run other_decimal (Chr c) (d :: t) g k = None.
Proof. intros H. cbn [run]. now rewrite H. Qed.

(** Two digits before a text of eight characters, as a day. *)
Lemma day_step (R : Type) (d1 d2 a1 a2 a3 a4 a5 a6 a7 a8 : N) (g : groups)
  (K : pystr -> groups -> option R) :
  ascii_digit d1 = true -> ascii_digit d2 = true ->
  (forall g', K [d2; a1; a2; a3; a4; a5; a6; a7; a8] g' = None) ->
  run other_decimal (Group char_d directive_d)
      [d1; d2; a1; a2; a3; a4; a5; a6; a7; a8] g K
  = if ((1 <=? two_digits d1 d2) && (two_digits d1 d2 <=? 31))%Z
    then K [a1; a2; a3; a4; a5; a6; a7; a8] ((char_d, [d1; d2]) :: g)
    else None.
Proof.
  intros H1 H2 HK.
  apply ascii_digit_cases in H1. apply ascii_digit_cases in H2.
  cbn [In] in H1, H2.
  repeat (destruct H1 as [<-|H1]; [|]); try contradiction;
    (repeat (destruct H2 as [<-|H2]; [|]); try contradiction);
    cbn; rewrite ?HK; try reflexivity;
    match goal with
    | |- match ?x with _ => _ end = _ => destruct x; reflexivity
    end.
Qed.

(** Two digits before a text of five characters, as a month. *)
Lemma month_step (R : Type) (m1 m2 a1 a2 a3 a4 a5 : N) (g : groups)
  (K : pystr -> groups -> option R) :
  ascii_digit m1 = true -> ascii_digit m2 = true ->
  (forall g', K [m2; a1; a2; a3; a4; a5] g' = None) ->
  run other_decimal (Group char_m directive_m)
      [m1; m2; a1; a2; a3; a4; a5] g K
  = if ((1 <=? two_digits m1 m2) && (two_digits m1 m2 <=? 12))%Z
    then K [a1; a2; a3; a4; a5] ((char_m, [m1; m2]) :: g)
    else None.
Proof.
  intros H1 H2 HK.
  apply ascii_digit_cases in H1. apply ascii_digit_cases in H2.
  cbn [In] in H1, H2.
  repeat (destruct H1 as [<-|H1]; [|]); try contradiction;
    (repeat (destruct H2 as [<-|H2]; [|]); try contradiction);
    cbn; rewrite ?HK; try reflexivity;
    match goal with
    | |- match ?x with _ => _ end = _ => destruct x; reflexivity
    end.
Qed.

Lemma year_step (R : Type) (y1 y2 y3 y4 : N) (g : groups)
  (K : pystr -> groups -> option R) :
  ascii_digit y1 = true -> ascii_digit y2 = true ->
  ascii_digit y3 = true -> ascii_digit y4 = true ->
  run other_decimal (Group char_Y directive_Y) [y1; y2; y3; y4] g K
  = K [] ((char_Y, [y1; y2; y3; y4]) :: g).
Proof.
  intros H1 H2 H3 H4.
  destruct (ascii_digit_facts _ H1) as (_ & _ & _ & E1).
  destruct (ascii_digit_facts _ H2) as (_ & _ & _ & E2).
  destruct (ascii_digit_facts _ H3) as (_ & _ & _ & E3).
  destruct (ascii_digit_facts _ H4) as (_ & _ & _ & E4).
  cbn [run directive_Y]. rewrite E1, E2, E3, E4. reflexivity.
Qed.

Lemma strip_no_space (s : pystr) :
  Forall (fun c => isspace c = false) s -> strip s = s.
Proof.
  intros H. unfold strip, rstrip.
  assert (Hl : forall t, Forall (fun c => isspace c = false) t ->
                         lstrip t = t).
  { intros t Ht. destruct Ht as [|c t Hc _]; [reflexivity|].
    cbn [lstrip]. now rewrite Hc. }
  rewrite (Hl s H), Hl; [apply rev_involutive|].
  apply Forall_rev. exact H.
Qed.

Lemma int_of_digits (s : pystr) :
  s <> [] -> Forall (fun c => ascii_digit c = true) s ->
  int other_decimal s
  = Return (fold_left (fun acc c => 10 * acc + digit c)%Z s 0%Z).
Proof.
  intros Hne Hs. unfold int. rewrite strip_no_space.
  2: { apply Forall_forall. intros c Hc. rewrite Forall_forall in Hs.
       exact (proj1 (ascii_digit_facts c (Hs c Hc))). }
  destruct s as [|c0 t]; [now contradiction Hne|].
  assert (Hv : forall l acc,
            Forall (fun c => ascii_digit c = true) l ->
            digits_value other_decimal acc l
            = Some (fold_left (fun a c => 10 * a + digit c)%Z l acc)).
  { induction l as [|c l IH]; intros acc Hl; [reflexivity|].
    inversion Hl as [|? ? Hc Hl']; subst. cbn [digits_value fold_left].
    destruct (ascii_digit_facts c Hc) as (_ & _ & -> & _). now apply IH. }
  now rewrite Hv.
Qed.

Lemma valid_date_ranges (y m d : Z) :
  valid_date y m d = true -> (1 <= m <= 12 /\ 1 <= d <= 31)%Z.
Proof.
  unfold valid_date, days_in_month. intros H.
  repeat (apply andb_true_iff in H; destruct H as [H ?]).
  repeat match goal with
         | H : (_ <=? _)%Z = true |- _ => apply Z.leb_le in H
         end.
  repeat match goal with
         | H : context [if ?c then _ else _] |- _ => destruct c
         end; lia.
Qed.

End WrittenDates.

(** X19: a text of the exact pattern (two digits, a dot, two digits, a
    dot, four digits) parses to exactly the date it writes, at midnight,
    when that is a date of the calendar, leap years included; when it
    is not (a day 00 or 31 in a short month, a month 13, the year 0000)
    the only outcome is ValueError. *)
Theorem written_date_is_parsed (other_decimal : N -> option Z)
  (d1 d2 m1 m2 y1 y2 y3 y4 : N)
  (Hpattern : exact_pattern [d1; d2; dot; m1; m2; dot; y1; y2; y3; y4]
              = true) :
  unify_date_format other_decimal
    [d1; d2; dot; m1; m2; dot; y1; y2; y3; y4]
  = if valid_date (four_digits y1 y2 y3 y4) (two_digits m1 m2)
                  (two_digits d1 d2)
    then Return (midnight (four_digits y1 y2 y3 y4) (two_digits m1 m2)
                          (two_digits d1 d2))
    else Raise ValueError.
Proof.
  assert (Hdigits : ascii_digit d1 = true /\ ascii_digit d2 = true
                    /\ ascii_digit m1 = true /\ ascii_digit m2 = true
                    /\ ascii_digit y1 = true /\ ascii_digit y2 = true
                    /\ ascii_digit y3 = true /\ ascii_digit y4 = true).
  { cbn [exact_pattern] in Hpattern.
    rewrite !andb_true_iff in Hpattern. tauto. }
  destruct Hdigits as (Hd1 & Hd2 & Hm1 & Hm2 & Hy1 & Hy2 & Hy3 & Hy4).
  pose proof (proj1 (proj2 (ascii_digit_facts other_decimal d2 Hd2))) as Nd2.
  pose proof (proj1 (proj2 (ascii_digit_facts other_decimal m2 Hm2))) as Nm2.
  unfold unify_date_format, strptime, match_, format_regex.
  rewrite run_Cat, day_step;
    [ | exact Hd1 | exact Hd2
      | intros g'; rewrite run_Cat; now apply run_Chr_other ].
  destruct ((1 <=? two_digits d1 d2) && (two_digits d1 d2 <=? 31))%Z
    eqn:Eday.
  2: { destruct (valid_date _ _ _) eqn:Ev; [|reflexivity].
       apply valid_date_ranges in Ev. apply andb_false_iff in Eday.
       destruct Eday as [E|E]; apply Z.leb_gt in E; lia. }
  rewrite run_Cat, run_Chr_same, run_Cat, month_step;
    [ | exact Hm1 | exact Hm2
      | intros g'; rewrite run_Cat; now apply run_Chr_other ].
  destruct ((1 <=? two_digits m1 m2) && (two_digits m1 m2 <=? 12))%Z
    eqn:Emonth.
  2: { destruct (valid_date _ _ _) eqn:Ev; [|reflexivity].
       apply valid_date_ranges in Ev. apply andb_false_iff in Emonth.
       destruct Emonth as [E|E]; apply Z.leb_gt in E; lia. }
  rewrite run_Cat, run_Chr_same, year_step by assumption.
  cbn [nonempty group N.eqb char_d char_m char_Y Pos.eqb].
  rewrite !int_of_digits
    by (try discriminate; repeat constructor; assumption).
  cbn [bind fold_left].
  replace (10 * (10 * 0 + digit d1) + digit d2)%Z
    with (two_digits d1 d2) by (unfold two_digits; lia).
  replace (10 * (10 * 0 + digit m1) + digit m2)%Z
    with (two_digits m1 m2) by (unfold two_digits; lia).
  replace (10 * (10 * (10 * (10 * 0 + digit y1) + digit y2)
                 + digit y3) + digit y4)%Z
    with (four_digits y1 y2 y3 y4) by (unfold four_digits; lia).
  reflexivity.
Qed.

Lemma written_date_is_parsed_witness :
  unify_date_format no_decimal (str "29.02.2024")
  = Return (midnight 2024 2 29).
Proof.
  exact (@written_date_is_parsed no_decimal 50 57 48 50 50 48 50 52 eq_refl).
Defined.

(* ===================================================================== *)
(** ** Pages that are not ok, and the topics of a page *)

Section MoreFacts.

Lemma discovered_nothing (requests_get : network)
  (lxml : pystr -> list node) (cfg : Config.t) (seeds : list pystr) :
  (forall past rq r, requests_get past rq = Return r -> ok r = false) ->
  forall sent, discovered requests_get lxml cfg sent seeds = [].
Proof.
  intros Hdown. induction seeds as [|seed_url rest IH]; intros sent;
    [reflexivity|].
  rewrite discovered_step. cbv zeta.
  destruct (requests_get sent _) as [r|x] eqn:E; [|reflexivity].
  rewrite (Hdown _ _ _ E). apply IH.
Qed.

Lemma collect_topics_returns (items : list node) :
  forall (acc ts : list pystr),
    HTMLParser.collect_topics items acc = Return ts ->
    ts = acc ++ flat_map item_topic items.
Proof.
  induction items as [|li rest IH]; intros acc ts H;
    cbn [HTMLParser.collect_topics flat_map] in *.
  - injection H as <-. now rewrite app_nil_r.
  - unfold item_topic at 1.
    destruct (find li HTMLParser.meta_name) as [meta|] eqn:Ef;
      [|exact (IH _ _ H)].
    destruct (@find_is_tag _ _ _ Ef) as (n & a & k & ->).
    cbn [truth has_attr andb] in H.
    unfold HTMLParser.content_stripped in H. cbn [get bind] in H.
    destruct (lookup HTMLParser.content a) as [v|]; [|exact (IH _ _ H)].
    destruct v as [| b | z | f | t | l | d]; cbn [bind] in H;
      try discriminate.
    rewrite (IH _ _ H). now rewrite <- app_assoc.
Qed.

End MoreFacts.

(** X20: when every response is not ok, [find_articles] adds no URL to
    the crawler, whatever the pages hold. *)
Theorem pages_not_ok_add_nothing (requests_get : network)
  (lxml : pystr -> list node) (self : Crawler.t) (sent : list Request)
  (Hdown : forall past rq r, requests_get past rq = Return r -> ok r = false) :
  Crawler.urls (fst (fst (Crawler.find_articles requests_get lxml self sent)))
  = Crawler.urls self.
Proof.
  unfold Crawler.find_articles.
  destruct (Crawler.visit_seeds requests_get lxml self sent
              (Crawler.get_search_urls self)) as [[self' sent'] e] eqn:Hrun.
  cbn [fst].
  destruct (@visit_added _ _ _ _ _ _ _ _ Hrun) as (_ & added & Ha & Hi & _).
  rewrite discovered_nothing in Hi by exact Hdown.
  destruct added as [|u more]; [now rewrite app_nil_r in Ha|].
  destruct (Hi u (or_introl eq_refl)).
Qed.

Lemma pages_not_ok_add_nothing_witness :
  Crawler.urls
    (fst (fst (Crawler.find_articles always_down (sample_lxml [link_a])
                 (sample_crawler 5 [seed_one; seed_two]) [])))
  = Crawler.urls (sample_crawler 5 [seed_one; seed_two]).
Proof.
  apply (@pages_not_ok_add_nothing always_down (sample_lxml [link_a])
           (sample_crawler 5 [seed_one; seed_two]) []).
  intros past rq r H. injection H as <-. reflexivity.
Defined.

(** X21: when [_fill_article_with_meta_information] returns for a page
    with a topics list, the topics are the stripped content strings of
    the items of that list, in document order, an item without a meta
    element marked as name or without a content attribute being
    skipped; the placeholder stands in only when no item gives a
    topic. *)
Theorem topics_in_document_order (decode_contents : node -> pystr)
  (other_decimal : N -> option Z) (self filled : HTMLParser.t)
  (article_soup about_ul : node)
  (Hrun : HTMLParser._fill_article_with_meta_information decode_contents
            other_decimal self article_soup = (filled, None))
  (Hlist : find article_soup HTMLParser.ul_about = Some about_ul) :
  article.topics (HTMLParser.article filled)
  = match flat_map item_topic
            (find_all about_ul HTMLParser.li_itemListElement) with
    | [] => [HTMLParser.NOT_FOUND]
    | t :: ts => t :: ts
    end.
Proof.
  rewrite meta_outcome in Hrun. cbv zeta in Hrun.
  destruct (unify_date_format other_decimal (raw_date article_soup))
    as [d|e]; [|discriminate].
  destruct (topics_of article_soup) as [ts|e] eqn:Et; [|discriminate].
  injection Hrun as <-. cbn.
  unfold topics_of in Et. rewrite Hlist in Et.
  apply collect_topics_returns in Et. cbn [app] in Et. subst ts.
  now destruct (flat_map item_topic _).
Qed.

Lemma topics_in_document_order_witness :
  article.topics
    (HTMLParser.article
       (fst (HTMLParser._fill_article_with_meta_information plain_contents
               no_decimal sample_parser (document topics_page))))
  = [str "Sport"].
Proof.
  erewrite (@topics_in_document_order plain_contents no_decimal sample_parser
              _ (document topics_page) _);
    [ | reflexivity | reflexivity ].
  reflexivity.
Defined.
